(** * Dashboard stores: layout manager, placement and storage hooks

    A shallow embedding of the TypeScript sources

    - [src/components/widget-editor/WidgetEditor.tsx] (the [DashboardProvider]
      segment: [createLayout], [deleteLayout], [addWidget],
      [findAvailablePosition], [removeWidget], [updateWidget],
      [updateWidgetPositions]),
    - the widget registry ([createWidgetInstance], [widgetRegistry]),
    - [src/lib/hooks/useWidgetStorage.ts] (the [useLocalStorage] segment:
      [getStoredValue], [setValue]),
    - [src/lib/hooks/useWidgetConfig.ts] ([config], [updateConfig],
      [setConfigProperty]),

    followed by the properties of the specification that concern them. *)

From Stdlib Require Import ZArith String Lia.
From stdpp Require Import base numbers list option strings pretty gmap.

Local Open Scope Z_scope.

(** ** Completions of JavaScript code

    An expression or a call either completes normally with a value or
    throws. *)

Inductive exn : Type :=
| TypeError (message : string)
| SyntaxError (message : string)
| Error (message : string).

Inductive completion (A : Type) : Type :=
| Normal (value : A)
| Throw (error : exn).

Arguments Normal {A} value.
Arguments Throw {A} error.

#[global] Instance completion_ret : MRet completion := fun A a => Normal a.

#[global] Instance completion_bind : MBind completion :=
  fun A B f m => match m with Normal a => f a | Throw e => Throw e end.

(** [for (const a of items) body], the body updating a local state. *)
Fixpoint for_each {A S : Type} (items : list A) (body : A → S → completion S)
    (s : S) : completion S :=
  match items with
  | [] => Normal s
  | a :: rest => s' ← body a s; for_each rest body s'
  end.

(** A [for] loop that is left at the first iteration that produces a value
    ([break] after setting a flag, or [return]). *)
Fixpoint for_until {A R : Type} (items : list A)
    (body : A → completion (option R)) : completion (option R) :=
  match items with
  | [] => Normal None
  | a :: rest =>
      r ← body a;
      match r with
      | Some v => Normal (Some v)
      | None => for_until rest body
      end
  end.

(** The indices of [for (let i = from; i < to; i++)]. *)
Definition range (from to : Z) : list Z := seqZ from (to - from).

(** [l[i]] on a JavaScript array: [undefined] outside the array. *)
Definition index {A : Type} (l : list A) (i : Z) : option A :=
  if decide (0 ≤ i) then l !! Z.to_nat i else None.

(** ** Data model *)

(** Values of type [any] that can be stored as JSON. *)
#[warnings="-register-all"]
Inductive any : Type :=
| JNull
| JBool (b : bool)
| JNumber (n : Z)
| JString (s : string)
| JArray (items : list any)
| JObject (fields : list (string * any)).

Inductive Size : Type := small | medium | large.

Inductive Category : Type := analytics | data | tools | custom.

(** A position counts grid cells: [x], [y] the top-left cell, [w], [h] the
    footprint. The fields are numbers; every integer is a value here, the
    negative ones included, and the arithmetic is that of the integers. It
    is the arithmetic of the source as long as the values are safe integers
    ([safe_integer] below): past them [i++] no longer advances and a sum is
    rounded, and a number with a fraction indexes no row; such values are
    outside this model. *)
Module Position.
Record t : Type := mk { x : Z; y : Z; w : Z; h : Z }.
End Position.

Module WidgetInstance.
Record t : Type := mk {
  id : string;
  widgetId : string;
  title : string;
  position : Position.t;
  size : Size;
  config : option (gmap string any)
}.
End WidgetInstance.

Module DashboardLayout.
Record t : Type := mk {
  id : string;
  name : string;
  widgets : list WidgetInstance.t;
  createdAt : string;
  updatedAt : string
}.
End DashboardLayout.

(** ** The placement algorithm ([findAvailablePosition]) *)

Abbreviation Grid := (list (list bool)).

Definition gridWidth : Z := 4.
Definition gridHeight : Z := 10.

(** The grid after the initialisation loops: [gridHeight] rows of
    [gridWidth] cells, all [false]. *)
Definition emptyGrid : Grid :=
  (λ _, (λ _, false) <$> range 0 gridWidth) <$> range 0 gridHeight.

(** [row[j] = v]. A negative [j] names a property that is not an element and
    changes no cell; an index past the end extends the array, the holes
    reading as [undefined]. *)
Definition assign (row : list bool) (j : Z) (v : bool) : list bool :=
  if decide (0 ≤ j) then
    if decide (Z.to_nat j < length row)%nat then <[Z.to_nat j := v]> row
    else row ++ replicate (Z.to_nat j - length row) false ++ [v]
  else row.

(** [grid[i][j] = true]: a [TypeError] when [grid[i]] is [undefined]. *)
Definition setCell (grid : Grid) (i j : Z) : completion Grid :=
  match index grid i with
  | Some row => Normal (<[Z.to_nat i := assign row j true]> grid)
  | None => Throw (TypeError "Cannot set properties of undefined")
  end.

(** [grid[i][j]] read as a condition. *)
Definition getCell (grid : Grid) (i j : Z) : completion bool :=
  match index grid i with
  | Some row => Normal (default false (index row j))
  | None => Throw (TypeError "Cannot read properties of undefined")
  end.

(** The body of [widgets.forEach]: mark the cells of one widget. *)
Definition markWidget (widget : WidgetInstance.t) (grid : Grid) : completion Grid :=
  let '(Position.mk x y w h) := WidgetInstance.position widget in
  for_each (range y (y + h)) (λ i grid,
    for_each (range x (x + w)) (λ j grid,
      if bool_decide (i < gridHeight ∧ j < gridWidth) then setCell grid i j
      else Normal grid) grid) grid.

(** The two loops that compute [canFit] for the candidate [(x, y)]. *)
Definition canFit (grid : Grid) (x y width height : Z) : completion bool :=
  blocked ← for_until (range y (y + height)) (λ i,
    for_until (range x (x + width)) (λ j,
      if bool_decide (i >= gridHeight ∨ j >= gridWidth) then Normal (Some ())
      else
        occupied ← getCell grid i j;
        Normal (if occupied : bool then Some () else None)));
  Normal (bool_decide (blocked = None)).

Definition findAvailablePosition (widgets : list WidgetInstance.t)
    (width height : Z) : completion Position.t :=
  grid ← for_each widgets markWidget emptyGrid;
  found ← for_until (range 0 gridHeight) (λ y,
    for_until (range 0 (gridWidth - width + 1)) (λ x,
      fit ← canFit grid x y width height;
      Normal (if fit : bool then Some (Position.mk x y width height) else None)));
  match found with
  | Some position => Normal position
  | None => Normal (Position.mk 0 gridHeight width height)
  end.

(** ** Event handlers

    A handler runs to completion against the values of the render that
    created it. It may write to the console and pass new values to React
    state setters; what it passed last is the state of the next render
    (the effect of [useLocalStorage] that reads the stored copy back finds
    what the handler wrote last). [M S A] is a computation over the pending
    state [S] that completes with an [A] or throws; effects made before a
    throw stay. *)

Inductive LogEntry : Type :=
| ConsoleError (message : string) (key : string) (error : exn).

Record World (S : Type) : Type := mkWorld {
  state : S;
  console : list LogEntry
}.

Arguments mkWorld {S} state console.
Arguments state {S} _.
Arguments console {S} _.

Definition M (S A : Type) : Type := World S → completion A * World S.

#[global] Instance M_ret {S} : MRet (M S) := λ A a σ, (Normal a, σ).

#[global] Instance M_bind {S} : MBind (M S) := λ A B f m σ,
  match m σ with
  | (Normal a, σ') => f a σ'
  | (Throw e, σ') => (Throw e, σ')
  end.

Definition throw {S A} (e : exn) : M S A := λ σ, (Throw e, σ).

Definition lift {S A} (c : completion A) : M S A := λ σ, (c, σ).

Definition try_catch {S A} (body : M S A) (handler : exn → M S A) : M S A :=
  λ σ,
  match body σ with
  | (Normal a, σ') => (Normal a, σ')
  | (Throw e, σ') => handler e σ'
  end.

Definition console_error {S} (entry : LogEntry) : M S () :=
  λ σ, (Normal (), mkWorld (state σ) (console σ ++ [entry])).

Definition modify {S} (f : S → S) : M S () :=
  λ σ, (Normal (), mkWorld (f (state σ)) (console σ)).

(** [array.map(callback)] with a callback that may throw. *)
Fixpoint array_map {S A B} (callback : A → M S B) (array : list A) : M S (list B) :=
  match array with
  | [] => mret []
  | a :: rest => b ← callback a; bs ← array_map callback rest; mret (b :: bs)
  end.

(** One reading of the clock: [Date.now()] and [new Date().toISOString()].
    A handler call is given one reading. *)
Record Time : Type := mkTime { ms : Z; iso : string }.

(** ** [useLocalStorage] *)

(** [getStoredValue]. [storage] is [window.localStorage], [raw] the cast
    [item as unknown as T] of the branch without JSON parsing. An absent
    default is [undefined]. *)
Definition getStoredValue {S T} (storage : gmap string string) (key : string)
    (parseJson : bool) (defaultValue : option T)
    (deserializer : string → completion T) (raw : string → T) : M S (option T) :=
  try_catch
    (match storage !! key with
     | Some item =>
         if bool_decide (item ≠ EmptyString) then
           if parseJson then v ← lift (deserializer item); mret (Some v)
           else mret (Some (raw item))
         else mret defaultValue
     | None => mret defaultValue
     end)
    (λ error,
      console_error (ConsoleError "Error reading localStorage key" key error);;
      mret defaultValue).

(** [setValue], up to the call of the React setter. [storedValue] is the
    value of the render that created this [setValue]; [value] is a plain
    value or a function of the stored one. Whatever the function throws is
    caught and logged. The copy written to [window.localStorage] after
    [setStoredValue] is not part of this model. *)
Definition setValue {S T} (key : string) (storedValue : option T)
    (setStoredValue : T → M S ()) (value : T + (option T → M S T)) : M S () :=
  try_catch
    (valueToStore ← match value with
                    | inl v => mret v
                    | inr f => f storedValue
                    end;
     setStoredValue valueToStore)
    (λ error, console_error (ConsoleError "Error setting localStorage key" key error)).

(** ** The widget registry *)

Module WidgetMetadata.
Record t : Type := mk {
  name : string;
  description : string;
  version : string;
  author : string;
  category : Category;
  icon : string;
  defaultSize : Size;
  defaultConfig : gmap string any
}.
End WidgetMetadata.

(** A registry entry; the React component is named, not modelled. *)
Record RegistryEntry : Type := mkRegistryEntry {
  component : string;
  metadata : WidgetMetadata.t
}.

(** The element [<Component id title config size />]. *)
Record Element : Type := mkElement {
  el_component : string;
  el_id : string;
  el_title : string;
  el_config : gmap string any;
  el_size : Size
}.

Module Widget.
Record t : Type := mk {
  id : string;
  title : string;
  type : string;
  content : Element;
  size : Size;
  category : Category
}.
End Widget.

(** [title || fallback] on an optional string: the empty string is falsy. *)
Definition or_string (title : option string) (fallback : string) : string :=
  match title with
  | Some s => if decide (s = EmptyString) then fallback else s
  | None => fallback
  end.

(** [createWidgetInstance] over the own entries of the registry: a name
    that is not registered gives [null]. The names the registry object
    inherits are the matter of [Registry.createWidgetInstance] below. *)
Definition createWidgetInstance (widgetRegistry : gmap string RegistryEntry)
    (widgetId instanceId : string) (title : option string)
    (config : option (gmap string any)) (size : option Size) : option Widget.t :=
  match widgetRegistry !! widgetId with
  | None => None
  | Some widget =>
      let Component := component widget in
      let metadata := metadata widget in
      Some (Widget.mk instanceId
              (or_string title (WidgetMetadata.name metadata))
              widgetId
              (mkElement Component instanceId (or_string title (WidgetMetadata.name metadata))
                 (default (WidgetMetadata.defaultConfig metadata) config)
                 (default (WidgetMetadata.defaultSize metadata) size))
              (default (WidgetMetadata.defaultSize metadata) size)
              (WidgetMetadata.category metadata))
  end.

(** The built-in registry. The [initialCode] text of the code editor's
    default configuration is left out; no operation below reads it. *)
Definition widgetRegistry : gmap string RegistryEntry :=
  <["analytics-chart" := mkRegistryEntry "AnalyticsWidget"
      (WidgetMetadata.mk "Analytics Chart"
         "A customizable chart widget for analytics data" "1.0.0"
         "Enterprise Widget Platform" analytics "BarChart" medium
         (<["chartType" := JString "bar"]>
            (<["showLegend" := JBool true]> (<["data" := JArray []]> ∅))))]>
  (<["status-widget" := mkRegistryEntry "StatusWidget"
      (WidgetMetadata.mk "Status Widget"
         "A widget to display status information" "1.0.0"
         "Enterprise Widget Platform" tools "Activity" small
         (<["items" := JArray
              [JObject [("name", JString "Service 1"); ("status", JString "healthy")];
               JObject [("name", JString "Service 2"); ("status", JString "healthy")];
               JObject [("name", JString "Service 3"); ("status", JString "warning")];
               JObject [("name", JString "Service 4"); ("status", JString "error")]]]> ∅))]>
  (<["code-editor" := mkRegistryEntry "CodeEditorWidget"
      (WidgetMetadata.mk "Code Editor" "A simple code editor widget" "1.0.0"
         "Enterprise Widget Platform" tools "Code" large
         (<["language" := JString "javascript"]>
            (<["readOnly" := JBool false]> ∅)))]>
  (<["data-display" := mkRegistryEntry "DataDisplayWidget"
      (WidgetMetadata.mk "Data Display"
         "A widget to display data from an API endpoint" "1.0.0"
         "Enterprise Widget Platform" data "Database" small
         (<["endpoint" := JString "https://api.example.com/widgets/data"]>
            (<["lastSync" := JString "2 minutes ago"]>
               (<["recordCount" := JNumber 1245]>
                  (<["fields" := JArray
                       [JObject [("name", JString "ID"); ("value", JString "widget-123")];
                        JObject [("name", JString "Status"); ("value", JString "active")];
                        JObject [("name", JString "Created"); ("value", JString "2023-06-15")];
                        JObject [("name", JString "Owner"); ("value", JString "admin@example.com")]]]>
                     ∅)))))]> ∅))).

(** ** [DashboardProvider] *)

(** The values of the two [useLocalStorage] hooks ([undefined] before the
    first effect has run). *)
Module Dashboard.
Record t : Type := mk {
  layouts : option (list DashboardLayout.t);
  currentLayoutId : option string
}.
End Dashboard.

Definition DEFAULT_WIDGET_DIMENSIONS (size : Size) : Z * Z :=
  match size with
  | small => (1, 1)
  | medium => (2, 1)
  | large => (2, 2)
  end.

(** [Partial<WidgetInstance>]: the fields an update carries. *)
Record PartialWidgetInstance : Type := mkPartial {
  p_id : option string;
  p_widgetId : option string;
  p_title : option string;
  p_position : option Position.t;
  p_size : option Size;
  p_config : option (option (gmap string any))
}.

(** [{ ...widget, ...updates }]. *)
Definition spread (widget : WidgetInstance.t) (updates : PartialWidgetInstance) :
    WidgetInstance.t :=
  WidgetInstance.mk
    (default (WidgetInstance.id widget) (p_id updates))
    (default (WidgetInstance.widgetId widget) (p_widgetId updates))
    (default (WidgetInstance.title widget) (p_title updates))
    (default (WidgetInstance.position widget) (p_position updates))
    (default (WidgetInstance.size widget) (p_size updates))
    (default (WidgetInstance.config widget) (p_config updates)).

(** [{ ...layout, widgets, updatedAt }]. *)
Definition with_widgets (layout : DashboardLayout.t)
    (widgets : list WidgetInstance.t) (updatedAt : string) : DashboardLayout.t :=
  DashboardLayout.mk (DashboardLayout.id layout) (DashboardLayout.name layout)
    widgets (DashboardLayout.createdAt layout) updatedAt.

Section DashboardProvider.

(** The registry the provider imports, and the values of the render whose
    handlers these are. *)
Variable widgetRegistry : gmap string RegistryEntry.
Variable layouts : option (list DashboardLayout.t).
Variable currentLayoutId : option string.

Definition currentLayout : option DashboardLayout.t :=
  prevLayouts ← layouts;
  find (λ layout, bool_decide (Some (DashboardLayout.id layout) = currentLayoutId))
    prevLayouts.

Definition setLayouts :
    list DashboardLayout.t +
      (option (list DashboardLayout.t) → M Dashboard.t (list DashboardLayout.t)) →
    M Dashboard.t () :=
  setValue "dashboard-layouts" layouts
    (λ v, modify (λ d, Dashboard.mk (Some v) (Dashboard.currentLayoutId d))).

Definition setCurrentLayoutId : string + (option string → M Dashboard.t string) →
    M Dashboard.t () :=
  setValue "current-dashboard-layout" currentLayoutId
    (λ v, modify (λ d, Dashboard.mk (Dashboard.layouts d) (Some v))).

Definition createLayout (now : Time) (name : string) : M Dashboard.t DashboardLayout.t :=
  let newLayout :=
    DashboardLayout.mk ("layout-" +:+ pretty (ms now)) name [] (iso now) (iso now) in
  setLayouts (inr (λ prevLayouts, mret (default [] prevLayouts ++ [newLayout])));;
  setCurrentLayoutId (inl (DashboardLayout.id newLayout));;
  mret newLayout.

Definition deleteLayout (layoutId : string) : M Dashboard.t () :=
  setLayouts (inr (λ prevLayouts,
    let updatedLayouts :=
      filter (λ layout, DashboardLayout.id layout ≠ layoutId) (default [] prevLayouts) in
    (if bool_decide (Some layoutId = currentLayoutId ∧ (0 < length updatedLayouts)%nat)
     then
       match updatedLayouts with
       | first :: _ => setCurrentLayoutId (inl (DashboardLayout.id first))
       | [] => throw (TypeError "Cannot read properties of undefined")
       end
     else if bool_decide (length updatedLayouts = 0%nat)
     then setCurrentLayoutId (inl EmptyString)
     else mret ());;
    mret updatedLayouts)).

(** The function [addWidget] passes to [prevLayouts.map]. *)
Definition addWidget_layout (now : Time) (widgetId : string) (title : option string)
    (config : option (gmap string any)) (layout : DashboardLayout.t) :
    M Dashboard.t DashboardLayout.t :=
  if bool_decide (Some (DashboardLayout.id layout) ≠ currentLayoutId)
  then mret layout
  else
    let instanceId := "widget-" +:+ widgetId +:+ "-" +:+ pretty (ms now) in
    match createWidgetInstance widgetRegistry widgetId instanceId title config None with
    | None =>
        throw (Error ("Widget with ID " +:+ widgetId +:+ " not found in registry"))
    | Some widgetInstance =>
        let '(w, h) := DEFAULT_WIDGET_DIMENSIONS (Widget.size widgetInstance) in
        position ← lift (findAvailablePosition (DashboardLayout.widgets layout) w h);
        let newWidgetInstance :=
          WidgetInstance.mk instanceId widgetId
            (or_string title (Widget.title widgetInstance))
            position (Widget.size widgetInstance) config in
        mret (with_widgets layout
                (DashboardLayout.widgets layout ++ [newWidgetInstance])
                (iso now))
    end.

Definition addWidget (now : Time) (widgetId : string) (title : option string)
    (config : option (gmap string any)) : M Dashboard.t () :=
  (match currentLayout with
   | None =>
       newLayout ← createLayout now "Default Layout";
       setCurrentLayoutId (inl (DashboardLayout.id newLayout))
   | Some _ => mret ()
   end);;
  setLayouts (inr (λ prevLayouts,
    array_map (addWidget_layout now widgetId title config) (default [] prevLayouts))).

Definition removeWidget (now : Time) (instanceId : string) : M Dashboard.t () :=
  setLayouts (inr (λ prevLayouts,
    mret ((λ layout,
             if bool_decide (Some (DashboardLayout.id layout) ≠ currentLayoutId)
             then layout
             else
               with_widgets layout
                 (filter (λ widget, WidgetInstance.id widget ≠ instanceId)
                    (DashboardLayout.widgets layout))
                 (iso now))
          <$> default [] prevLayouts))).

Definition updateWidget (now : Time) (instanceId : string)
    (updates : PartialWidgetInstance) : M Dashboard.t () :=
  setLayouts (inr (λ prevLayouts,
    mret ((λ layout,
             if bool_decide (Some (DashboardLayout.id layout) ≠ currentLayoutId)
             then layout
             else
               with_widgets layout
                 ((λ widget,
                     if bool_decide (WidgetInstance.id widget ≠ instanceId) then widget
                     else spread widget updates)
                  <$> DashboardLayout.widgets layout)
                 (iso now))
          <$> default [] prevLayouts))).

Definition updateWidgetPositions (now : Time)
    (updates : list (string * Position.t)) : M Dashboard.t () :=
  setLayouts (inr (λ prevLayouts,
    mret ((λ layout,
             if bool_decide (Some (DashboardLayout.id layout) ≠ currentLayoutId)
             then layout
             else
               with_widgets layout
                 ((λ widget,
                     match find (λ u, bool_decide (fst u = WidgetInstance.id widget))
                             updates with
                     | None => widget
                     | Some update =>
                         WidgetInstance.mk (WidgetInstance.id widget)
                           (WidgetInstance.widgetId widget)
                           (WidgetInstance.title widget)
                           (snd update) (WidgetInstance.size widget)
                           (WidgetInstance.config widget)
                     end)
                  <$> DashboardLayout.widgets layout)
                 (iso now))
          <$> default [] prevLayouts))).

End DashboardProvider.

(** Run a handler of the render that shows [d]; the result is the
    completion of the call, the state of the next render and what was
    logged. *)
Definition run {A} (d : Dashboard.t)
    (handler : option (list DashboardLayout.t) → option string → M Dashboard.t A) :
    completion A * World Dashboard.t :=
  handler (Dashboard.layouts d) (Dashboard.currentLayoutId d) (mkWorld d []).

Definition next {A} (d : Dashboard.t)
    (handler : option (list DashboardLayout.t) → option string → M Dashboard.t A) :
    Dashboard.t :=
  state (snd (run d handler)).

(** ** [useWidgetConfig] *)

Record WidgetConfigData : Type := mkWidgetConfigData {
  cd_widgetId : string;
  cd_instanceId : string;
  settings : gmap string any;
  cd_version : string;
  cd_updatedAt : string
}.

Module useWidgetConfig.
Section hook.

(** The options of the hook and the value [configData] of the render. *)
Variable widgetRegistry : gmap string RegistryEntry.
Variables widgetId instanceId : string.
Variable initialConfig : option (gmap string any).
Variable configData : option WidgetConfigData.

Definition defaultConfig : gmap string any :=
  match widgetRegistry !! widgetId with
  | Some widget => WidgetMetadata.defaultConfig (metadata widget)
  | None => ∅
  end.

Definition storageKey : string :=
  "widget-config-" +:+ widgetId +:+ "-" +:+ instanceId.

Definition setConfigData :
    WidgetConfigData + (option WidgetConfigData → M (option WidgetConfigData) WidgetConfigData) →
    M (option WidgetConfigData) () :=
  setValue storageKey configData (λ v, modify (λ _, Some v)).

(** [configData?.settings || initialConfig || defaultConfig]. *)
Definition config : gmap string any :=
  match configData with
  | Some stored => settings stored
  | None => default defaultConfig initialConfig
  end.

(** [newConfig] is a configuration object or a function of the previous
    one. *)
Definition updateConfig (now : Time)
    (newConfig : gmap string any + (gmap string any → completion (gmap string any))) :
    M (option WidgetConfigData) () :=
  setConfigData (inr (λ currentData,
    match currentData with
    | None =>
        settings ← match newConfig with
                   | inr f => lift (f (default defaultConfig initialConfig))
                   | inl c => mret c
                   end;
        mret (mkWidgetConfigData widgetId instanceId settings "1.0.0" (iso now))
    | Some currentData =>
        updatedSettings ← match newConfig with
                          | inr f => lift (f (settings currentData))
                          | inl c => mret c
                          end;
        mret (mkWidgetConfigData (cd_widgetId currentData)
                (cd_instanceId currentData) updatedSettings
                (cd_version currentData) (iso now))
    end)).

Definition setConfigProperty (now : Time) (property : string) (value : any) :
    M (option WidgetConfigData) () :=
  updateConfig now
    (inr (λ currentConfig, Normal (<[property := value]> currentConfig))).

End hook.
End useWidgetConfig.

(** [configData] of the render after a call of a handler of the hook. *)
Definition after {A} (configData : option WidgetConfigData)
    (handler : option WidgetConfigData → M (option WidgetConfigData) A) :
    option WidgetConfigData :=
  state (snd (handler configData (mkWorld configData []))).

(** ** Vocabulary of the specification *)

(** The cell in row [i], column [j] lies in the rectangle of [p]. *)
Definition covers (p : Position.t) (i j : Z) : Prop :=
  Position.y p ≤ i < Position.y p + Position.h p ∧
  Position.x p ≤ j < Position.x p + Position.w p.

(** Some existing instance covers the cell. *)
Definition occupied (widgets : list WidgetInstance.t) (i j : Z) : Prop :=
  ∃ widget, widget ∈ widgets ∧ covers (WidgetInstance.position widget) i j.

(** The [width] by [height] rectangle at [(x, y)] lies within the columns and
    the pre-scanned rows and is entirely unoccupied. *)
Definition fits (widgets : list WidgetInstance.t) (width height x y : Z) : Prop :=
  ∀ i j, y ≤ i < y + height → x ≤ j < x + width →
    i < gridHeight ∧ j < gridWidth ∧ ¬ occupied widgets i j.

(** The top-left corners the scan visits. *)
Definition candidate (width x y : Z) : Prop :=
  0 ≤ y < gridHeight ∧ 0 ≤ x ≤ gridWidth - width.

(** Row-major scan order: [(x', y')] is visited before [(x, y)]. *)
Definition scanned_before (x' y' x y : Z) : Prop :=
  y' < y ∨ (y' = y ∧ x' < x).

(** The rows of the existing instances are zero-based. *)
Definition rows_zero_based (widgets : list WidgetInstance.t) : Prop :=
  Forall (λ widget, 0 ≤ Position.y (WidgetInstance.position widget)) widgets.

(** [Number.isSafeInteger]: the integers a number holds exactly, together
    with their neighbours, so that [i++] advances and [a + b] is exact. *)
Definition safe_integer (n : Z) : Prop := - (2 ^ 53 - 1) ≤ n ≤ 2 ^ 53 - 1.

(** The corner, the footprint and the far edges [x + w], [y + h] of the
    rectangle are safe integers: the loops over its cells count exactly. *)
Definition safe_rectangle (p : Position.t) : Prop :=
  safe_integer (Position.x p) ∧ safe_integer (Position.y p) ∧
  safe_integer (Position.w p) ∧ safe_integer (Position.h p) ∧
  safe_integer (Position.x p + Position.w p) ∧
  safe_integer (Position.y p + Position.h p).

Definition safe_rectangles (widgets : list WidgetInstance.t) : Prop :=
  Forall (λ widget, safe_rectangle (WidgetInstance.position widget)) widgets.

(** Two rectangles share a cell. *)
Definition intersect (p q : Position.t) : Prop :=
  ∃ i j, covers p i j ∧ covers q i j.

(** The position the fallback assigns. *)
Definition at_fallback (p : Position.t) : Prop :=
  Position.x p = 0 ∧ Position.y p = gridHeight.

(** No two instances of the list intersect. *)
Definition no_overlap (widgets : list WidgetInstance.t) : Prop :=
  ∀ (a b : nat) wa wb, a ≠ b → widgets !! a = Some wa → widgets !! b = Some wb →
    ¬ intersect (WidgetInstance.position wa) (WidgetInstance.position wb).

(** Instances intersect only if both sit at the fallback position. *)
Definition overlap_only_at_fallback (widgets : list WidgetInstance.t) : Prop :=
  ∀ (a b : nat) wa wb, a ≠ b → widgets !! a = Some wa → widgets !! b = Some wb →
    intersect (WidgetInstance.position wa) (WidgetInstance.position wb) →
    at_fallback (WidgetInstance.position wa) ∧ at_fallback (WidgetInstance.position wb).

(** One call of [addWidget], with the clock reading it is given. *)
Record AddWidgetCall : Type := mkCall {
  call_now : Time;
  call_widgetId : string;
  call_title : option string;
  call_config : option (gmap string any)
}.

(** A sequence of [addWidget] calls, each one a handler of the render that
    follows the call before it. *)
Definition addWidgets (widgetRegistry : gmap string RegistryEntry)
    (calls : list AddWidgetCall) (d : Dashboard.t) : Dashboard.t :=
  foldl (λ d call,
    next d (λ l c, addWidget widgetRegistry l c (call_now call)
                     (call_widgetId call) (call_title call) (call_config call)))
    d calls.

(** A layout without its [updatedAt] timestamp. *)
Definition without_updatedAt (layout : DashboardLayout.t) : DashboardLayout.t :=
  with_widgets layout (DashboardLayout.widgets layout) EmptyString.

(** The layout list a consumer of the context reads ([layouts || []]). *)
Definition layout_list (d : Dashboard.t) : list DashboardLayout.t :=
  default [] (Dashboard.layouts d).

(** What [removeWidget], [updateWidget] and [updateWidgetPositions] have in
    common: the widgets of the current layout go through [f], the layout is
    stamped, the other layouts and the pointer stay. *)
Definition mapCurrentLayout (d : Dashboard.t) (now : Time)
    (f : list WidgetInstance.t → list WidgetInstance.t) : Dashboard.t :=
  Dashboard.mk
    (Some ((λ layout,
              if bool_decide (Some (DashboardLayout.id layout) ≠ Dashboard.currentLayoutId d)
              then layout
              else with_widgets layout (f (DashboardLayout.widgets layout)) (iso now))
           <$> layout_list d))
    (Dashboard.currentLayoutId d).

(** Every layout of [d] whose id is not [active] is found unchanged, at the
    same place, in [d']; the list has kept its length. *)
Definition other_layouts_unchanged (active : option string) (d d' : Dashboard.t) : Prop :=
  length (layout_list d') = length (layout_list d) ∧
  ∀ (k : nat) layout, layout_list d !! k = Some layout →
    Some (DashboardLayout.id layout) ≠ active →
    layout_list d' !! k = Some layout.

(** The cell [grid[i][j]] read as a condition, where the row exists. *)
Definition cell (grid : Grid) (i j : Z) : bool :=
  default false (row ← index grid i; index row j).

(** The shape the initialisation gives the grid and marking keeps. *)
Definition grid_shape (grid : Grid) : Prop :=
  length grid = Z.to_nat gridHeight ∧
  Forall (λ row : list bool, length row = Z.to_nat gridWidth) grid.

(** The cells of the [width] by [height] rectangle at [(x, y)] are inside
    the grid and unmarked. *)
Definition free (grid : Grid) (width height x y : Z) : Prop :=
  ∀ i j, y ≤ i < y + height → x ≤ j < x + width →
    i < gridHeight ∧ j < gridWidth ∧ cell grid i j = false.

(** An instance at a given position, for examples. *)
Definition instance_at (id : string) (x y w h : Z) : WidgetInstance.t :=
  WidgetInstance.mk id "status-widget" "Status Widget" (Position.mk x y w h) small None.

(** How [addWidget] relates a layout of the list to the layout that
    replaces it: a layout that is not the current one is kept; the current
    one gains one instance, placed by [findAvailablePosition]. *)
Definition widget_added (widgetRegistry : gmap string RegistryEntry)
    (currentLayoutId : option string) (now : Time) (widgetId : string)
    (title : option string) (config : option (gmap string any))
    (layout layout' : DashboardLayout.t) : Prop :=
  (Some (DashboardLayout.id layout) ≠ currentLayoutId ∧ layout' = layout) ∨
  (Some (DashboardLayout.id layout) = currentLayoutId ∧
   ∃ entry position,
     widgetRegistry !! widgetId = Some entry ∧
     findAvailablePosition (DashboardLayout.widgets layout)
       (DEFAULT_WIDGET_DIMENSIONS (WidgetMetadata.defaultSize (metadata entry))).1
       (DEFAULT_WIDGET_DIMENSIONS (WidgetMetadata.defaultSize (metadata entry))).2
     = Normal position ∧
     layout' =
       with_widgets layout
         (DashboardLayout.widgets layout ++
          [WidgetInstance.mk ("widget-" +:+ widgetId +:+ "-" +:+ pretty (ms now))
             widgetId (or_string title (or_string title (WidgetMetadata.name (metadata entry))))
             position (WidgetMetadata.defaultSize (metadata entry)) config])
         (iso now)).

(** Why the function [addWidget] maps over the layouts throws [e] at
    [layout]: the id is not registered, or the placement threw. *)
Definition add_throws (widgetRegistry : gmap string RegistryEntry)
    (widgetId : string) (layout : DashboardLayout.t) (e : exn) : Prop :=
  (widgetRegistry !! widgetId = None ∧
   e = Error ("Widget with ID " +:+ widgetId +:+ " not found in registry")) ∨
  (∃ entry, widgetRegistry !! widgetId = Some entry ∧
     findAvailablePosition (DashboardLayout.widgets layout)
       (DEFAULT_WIDGET_DIMENSIONS (WidgetMetadata.defaultSize (metadata entry))).1
       (DEFAULT_WIDGET_DIMENSIONS (WidgetMetadata.defaultSize (metadata entry))).2
     = Throw e).

(** The rectangle lies within the pre-scanned grid. *)
Definition inside (p : Position.t) : Prop :=
  0 ≤ Position.x p ∧ 0 ≤ Position.y p ∧
  Position.x p + Position.w p ≤ gridWidth ∧
  Position.y p + Position.h p ≤ gridHeight.

(** What every sequence of [addWidget] calls keeps true of a widget list. *)
Definition placed_by_addWidget (widgets : list WidgetInstance.t) : Prop :=
  Forall (λ widget, inside (WidgetInstance.position widget) ∨
                    at_fallback (WidgetInstance.position widget)) widgets ∧
  overlap_only_at_fallback widgets.

(** Example data: a clock reading [n] seconds after 2023-11-14T22:13:20Z,
    a dashboard with one empty layout, current, and the dashboard of a
    first visit. *)
Definition second (n : Z) : Time :=
  mkTime (1700000000000 + 1000 * n)
    ("2023-11-14T22:13:" +:+ pretty (20 + n) +:+ ".000Z").

Definition ops_layout : DashboardLayout.t :=
  DashboardLayout.mk "layout-1700000000000" "Ops" []
    "2023-11-14T22:13:20.000Z" "2023-11-14T22:13:20.000Z".

Definition perf_layout : DashboardLayout.t :=
  DashboardLayout.mk "layout-1700000001000" "Perf" []
    "2023-11-14T22:13:21.000Z" "2023-11-14T22:13:21.000Z".

Definition ops_dashboard : Dashboard.t :=
  Dashboard.mk (Some [ops_layout]) (Some "layout-1700000000000").

Definition first_visit : Dashboard.t :=
  Dashboard.mk (Some []) (Some EmptyString).

(** Twelve additions of the code editor, a large widget. *)
Definition twelve_code_editors : list AddWidgetCall :=
  (λ n, mkCall (second n) "code-editor" None None) <$> range 1 13.

(** Example data: the stored configuration of a chart instance. *)
Definition chart_configData : WidgetConfigData :=
  mkWidgetConfigData "analytics-chart" "widget-analytics-chart-1700000001000"
    (<["chartType" := JString "bar"]> (<["showLegend" := JBool true]> ∅))
    "1.0.0" "2023-11-14T22:13:21.000Z".

(** ** Property reads on the registry object *)

(** The names every object literal inherits from [Object.prototype]. *)
Definition Object_prototype : list string :=
  ["constructor"; "__defineGetter__"; "__defineSetter__"; "hasOwnProperty";
   "__lookupGetter__"; "__lookupSetter__"; "isPrototypeOf"; "propertyIsEnumerable";
   "toString"; "valueOf"; "__proto__"; "toLocaleString"].

Module Registry.

(** [createWidgetInstance] with the read [widgetRegistry[widgetId]] in full.
    The read finds the own entries of the registry and, for the names of
    [Object_prototype], an inherited member: a function or an object, which
    passes the test [!widget] and has no [metadata]. The first read of a
    property of that [undefined] throws a [TypeError]: [metadata.name] when
    the title is missing or empty, else [metadata.defaultConfig] when there
    is no configuration, else [metadata.defaultSize] when there is no size,
    else [metadata.category]. For every other name the read is [undefined]
    and the result [null]. *)
Definition createWidgetInstance (widgetRegistry : gmap string RegistryEntry)
    (widgetId instanceId : string) (title : option string)
    (config : option (gmap string any)) (size : option Size) :
    completion (option Widget.t) :=
  match widgetRegistry !! widgetId with
  | Some _ =>
      Normal (createWidgetInstance widgetRegistry widgetId instanceId title config size)
  | None =>
      if bool_decide (widgetId ∈ Object_prototype) then
        let property :=
          if bool_decide (or_string title EmptyString = EmptyString) then "name"
          else match config, size with
               | None, _ => "defaultConfig"
               | Some _, None => "defaultSize"
               | Some _, Some _ => "category"
               end in
        Throw (TypeError ("Cannot read properties of undefined (reading '" +:+
                          property +:+ "')"))
      else Normal None
  end.

End Registry.

(** ** More of [DashboardProvider]: [switchLayout] and the widgets effect *)

(** The state of the provider: the two stored values and the three
    [useState] cells. *)
Module Provider.
Record t : Type := mk {
  dashboard : Dashboard.t;
  widgets : list Widget.t;
  isLoading : bool;
  error : option exn
}.
End Provider.

(** The state a provider starts from: [useState(true)] for [isLoading],
    [null] for [error], no widgets. *)
Definition mount (d : Dashboard.t) : Provider.t := Provider.mk d [] true None.

(** A handler of the stored values, run inside the provider. *)
Definition on_dashboard {A} (m : M Dashboard.t A) : M Provider.t A :=
  λ σ,
  let '(r, σ') := m (mkWorld (Provider.dashboard (state σ)) (console σ)) in
  (r, mkWorld (Provider.mk (state σ') (Provider.widgets (state σ))
                 (Provider.isLoading (state σ)) (Provider.error (state σ)))
        (console σ')).

Definition setWidgets (widgets : list Widget.t) : M Provider.t () :=
  modify (λ p, Provider.mk (Provider.dashboard p) widgets (Provider.isLoading p)
                 (Provider.error p)).

Definition setIsLoading (isLoading : bool) : M Provider.t () :=
  modify (λ p, Provider.mk (Provider.dashboard p) (Provider.widgets p) isLoading
                 (Provider.error p)).

Definition setError (error : option exn) : M Provider.t () :=
  modify (λ p, Provider.mk (Provider.dashboard p) (Provider.widgets p)
                 (Provider.isLoading p) error).

(** [try { body } finally { final }]. *)
Definition try_finally {S A} (body : M S A) (final : M S ()) : M S A :=
  λ σ,
  let '(r, σ') := body σ in
  match final σ' with
  | (Normal _, σ'') => (r, σ'')
  | (Throw e, σ'') => (Throw e, σ'')
  end.

Section DashboardProviderState.

Variable widgetRegistry : gmap string RegistryEntry.
Variable layouts : option (list DashboardLayout.t).
Variable currentLayoutId : option string.

(** [layouts?.some((layout) => layout.id === layoutId)] decides. *)
Definition switchLayout (layoutId : string) : M Provider.t () :=
  if default false
       (existsb (λ layout, bool_decide (DashboardLayout.id layout = layoutId))
          <$> layouts)
  then on_dashboard (setCurrentLayoutId currentLayoutId (inl layoutId))
  else setError (Some (Error ("Layout with ID " +:+ layoutId +:+ " not found"))).

(** The effect that follows a change of [currentLayout]: one widget per
    instance of the current layout, the instances whose definition the
    registry does not know ([null]) filtered out; what
    [createWidgetInstance] throws ends the [map]. The early [return] comes
    before the [try], so its [finally] does not run. *)
Definition initializeWidgets : M Provider.t () :=
  match currentLayout layouts currentLayoutId with
  | None => setWidgets []
  | Some currentLayout =>
      try_finally
        (try_catch
           (created ← array_map
                        (λ instance,
                           lift (Registry.createWidgetInstance widgetRegistry
                                   (WidgetInstance.widgetId instance)
                                   (WidgetInstance.id instance)
                                   (Some (WidgetInstance.title instance))
                                   (WidgetInstance.config instance)
                                   (Some (WidgetInstance.size instance))))
                        (DashboardLayout.widgets currentLayout);
            let widgetInstances := omap id created in
            setWidgets widgetInstances;;
            setError None)
           (λ err,
              console_error (ConsoleError "Error initializing widgets:" EmptyString err);;
              setError (Some err);;
              setWidgets []))
        (setIsLoading false)
  end.

End DashboardProviderState.

(** The provider after a handler of the render that shows [p]. *)
Definition next_provider {A} (p : Provider.t)
    (handler : option (list DashboardLayout.t) → option string → M Provider.t A) :
    Provider.t :=
  state (snd (handler (Dashboard.layouts (Provider.dashboard p))
                (Dashboard.currentLayoutId (Provider.dashboard p)) (mkWorld p []))).

(** The pointer names no layout (it is [undefined] or empty) or a layout of
    the list. *)
Definition pointer_valid (d : Dashboard.t) : Prop :=
  Dashboard.currentLayoutId d = None ∨
  Dashboard.currentLayoutId d = Some EmptyString ∨
  is_Some (currentLayout (Dashboard.layouts d) (Dashboard.currentLayoutId d)).

(** [id] is the id of no layout of the list. *)
Definition fresh_id (d : Dashboard.t) (id : string) : Prop :=
  ∀ layout, layout ∈ layout_list d → DashboardLayout.id layout ≠ id.

(** The layout [createLayout] makes at the clock reading [now]. *)
Definition newLayout_at (now : Time) (name : string) : DashboardLayout.t :=
  DashboardLayout.mk ("layout-" +:+ pretty (ms now)) name [] (iso now) (iso now).

(** The instance [addWidget] makes for a registry entry at a position. *)
Definition newWidgetInstance_at (now : Time) (widgetId : string) (title : option string)
    (config : option (gmap string any)) (entry : RegistryEntry)
    (position : Position.t) : WidgetInstance.t :=
  WidgetInstance.mk ("widget-" +:+ widgetId +:+ "-" +:+ pretty (ms now)) widgetId
    (or_string title (or_string title (WidgetMetadata.name (metadata entry))))
    position (WidgetMetadata.defaultSize (metadata entry)) config.

(** An operation on the widgets of the current layout, with the clock
    reading the call is given. *)
Inductive WidgetOp : Type :=
| OpAdd (call : AddWidgetCall)
| OpRemove (now : Time) (instanceId : string).

(** A sequence of [addWidget] and [removeWidget] calls, a render between
    any two. *)
Definition widgetOps (widgetRegistry : gmap string RegistryEntry)
    (ops : list WidgetOp) (d : Dashboard.t) : Dashboard.t :=
  foldl (λ d op,
    match op with
    | OpAdd call =>
        next d (λ l c, addWidget widgetRegistry l c (call_now call)
                         (call_widgetId call) (call_title call) (call_config call))
    | OpRemove now instanceId => next d (λ l c, removeWidget l c now instanceId)
    end) d ops.

(** ** [useLocalStorage], with the browser

    The hook as a whole: the React state [storedValue], the storage
    [window.localStorage] and the events dispatched on [window]. *)

Module useLocalStorage.

(** A [StorageEvent] of type ["storage"]: [key] and [newValue] ([None] is
    [null]) and whether [storageArea] is [localStorage]. *)
Record StorageEvent : Type := mkStorageEvent {
  ev_key : option string;
  newValue : option string;
  storageArea_is_localStorage : bool
}.

Record Browser (T : Type) : Type := mkBrowser {
  storedValue : option T;
  localStorage : gmap string string;
  dispatched : list StorageEvent
}.

Arguments mkBrowser {T} storedValue localStorage dispatched.
Arguments storedValue {T} _.
Arguments localStorage {T} _.
Arguments dispatched {T} _.

Section hook.

Context {T : Type}.

(** The key and the options of the hook. *)
Variable key : string.
Variables parseJson syncAcrossTabs : bool.
Variable defaultValue : option T.
Variable serializer : T → completion string.
Variable deserializer : string → completion T.

(** [String(value)] and the cast [item as unknown as T]. *)
Variable toString : T → string.
Variable raw : string → T.

(** The exception [localStorage.setItem(key, value)] throws on the given
    storage, when it throws (the quota is exceeded). *)
Variable setItem_throws : gmap string string → string → string → option exn.

Definition setStoredValue (value : option T) : M (Browser T) () :=
  modify (λ b, mkBrowser value (localStorage b) (dispatched b)).

Definition localStorage_setItem (k v : string) : M (Browser T) () := λ σ,
  match setItem_throws (localStorage (state σ)) k v with
  | Some error => (Throw error, σ)
  | None =>
      modify (λ b, mkBrowser (storedValue b) (<[k := v]> (localStorage b))
                     (dispatched b)) σ
  end.

Definition localStorage_removeItem (k : string) : M (Browser T) () :=
  modify (λ b, mkBrowser (storedValue b) (delete k (localStorage b)) (dispatched b)).

(** The effect that initializes the state on mount:
    [setStoredValue(getStoredValue())]. *)
Definition initialize : M (Browser T) () := λ σ,
  (value ← getStoredValue (localStorage (state σ)) key parseJson defaultValue
             deserializer raw;
   setStoredValue value) σ.

(** The listener the hook registers on [window] while [syncAcrossTabs] is
    set. *)
Definition handleStorageChange (e : StorageEvent) : M (Browser T) () :=
  if bool_decide (ev_key e = Some key) && storageArea_is_localStorage e then
    try_catch
      (newValue ← match newValue e with
                  | Some text =>
                      if bool_decide (text ≠ EmptyString) then
                        if parseJson then v ← lift (deserializer text); mret (Some v)
                        else mret (Some (raw text))
                      else mret None
                  | None => mret None
                  end;
       setStoredValue newValue)
      (λ error,
        console_error (ConsoleError "Error handling storage change for key" key error))
  else mret ().

(** [window.dispatchEvent(event)]: the listeners of the window are called
    before the call returns; what a listener throws does not reach the
    caller. *)
Definition dispatchEvent (listeners : list (StorageEvent → M (Browser T) ()))
    (event : StorageEvent) : M (Browser T) () :=
  modify (λ b, mkBrowser (storedValue b) (localStorage b) (dispatched b ++ [event]));;
  foldr (λ listener rest, try_catch (listener event) (λ _, mret ());; rest)
    (mret ()) listeners.

(** The listeners of this hook on [window]. *)
Definition listeners : list (StorageEvent → M (Browser T) ()) :=
  if syncAcrossTabs then [handleStorageChange] else [].

(** [setValue]. [storedValue] is the value of the render that created this
    [setValue]; [value] is a value ([None] is [undefined]) or a function of
    the stored one. *)
Definition setValue (storedValue : option T)
    (value : option T + (option T → M (Browser T) (option T))) : M (Browser T) () :=
  try_catch
    (valueToStore ← match value with
                    | inl v => mret v
                    | inr f => f storedValue
                    end;
     setStoredValue valueToStore;;
     match valueToStore with
     | None => localStorage_removeItem key
     | Some v =>
         serialized ← (if parseJson then lift (serializer v) else mret (toString v));
         localStorage_setItem key serialized
     end;;
     if syncAcrossTabs then
       dispatchEvent listeners
         (mkStorageEvent (Some key) (toString <$> valueToStore) true)
     else mret ())
    (λ error, console_error (ConsoleError "Error setting localStorage key" key error)).

Definition removeItem : M (Browser T) () :=
  try_catch
    (localStorage_removeItem key;;
     setStoredValue None;;
     if syncAcrossTabs then
       dispatchEvent listeners (mkStorageEvent (Some key) None true)
     else mret ())
    (λ error, console_error (ConsoleError "Error removing localStorage key" key error)).

End hook.

(** A handler called in the render whose stored value is that of [b]. *)
Definition run {T A} (b : Browser T) (handler : option T → M (Browser T) A) :
    completion A * World (Browser T) :=
  handler (storedValue b) (mkWorld b []).

Definition next {T A} (b : Browser T) (handler : option T → M (Browser T) A) :
    Browser T :=
  state (snd (run b handler)).

End useLocalStorage.

(** Example codecs: JSON for booleans, and JSON for the empty object, whose
    [String] form is not JSON. *)
Definition stringify_bool (b : bool) : string := if b then "true" else "false".

Definition parse_bool (text : string) : completion bool :=
  if bool_decide (text = "true") then Normal true
  else if bool_decide (text = "false") then Normal false
  else Throw (SyntaxError "Unexpected token").

Definition parse_empty_object (text : string) : completion () :=
  if bool_decide (text = "{}") then Normal ()
  else Throw (SyntaxError "Unexpected token").

Definition unlimited : gmap string string → string → string → option exn :=
  λ _ _ _, None.

(** ** [useWidgetStorage] *)

Module WidgetStorageData.
Record metadata_t : Type := mkMetadata {
  widgetId : string;
  instanceId : string;
  version : string;
  createdAt : string;
  updatedAt : string;
  schema : option string
}.
Record t (T : Type) : Type := mk {
  data : T;
  metadata : metadata_t
}.
Arguments mk {T} data metadata.
Arguments data {T} _.
Arguments metadata {T} _.
End WidgetStorageData.

Module useWidgetStorage.
Section hook.

Context {T : Type}.

(** The options of the hook, defaults applied, and the value [storageData]
    of the render. *)
Variables widgetId instanceId storageName : string.
Variable initialData : option T.
Variable schemaVersion : string.
Variable migrate : option (T → string → string → completion T).
Variable storageData : option (WidgetStorageData.t T).

Definition storageKey : string :=
  "widget-storage-" +:+ widgetId +:+ "-" +:+ instanceId +:+ "-" +:+ storageName.

Definition setStorageData :
    WidgetStorageData.t T +
      (option (WidgetStorageData.t T) →
       M (option (WidgetStorageData.t T)) (WidgetStorageData.t T)) →
    M (option (WidgetStorageData.t T)) () :=
  setValue storageKey storageData (λ v, modify (λ _, Some v)).

(** The memoized [data], computed during a render: a stored copy of another
    schema is migrated and written back. *)
Definition data (now : Time) : M (option (WidgetStorageData.t T)) (option T) :=
  match storageData with
  | None => mret initialData
  | Some storageData =>
      match migrate, WidgetStorageData.schema (WidgetStorageData.metadata storageData) with
      | Some migrate, Some schema =>
          if bool_decide (schema ≠ EmptyString) && bool_decide (schema ≠ schemaVersion)
          then
            try_catch
              (migratedData ← lift (migrate (WidgetStorageData.data storageData)
                                      schema schemaVersion);
               let metadata := WidgetStorageData.metadata storageData in
               setStorageData (inl (WidgetStorageData.mk migratedData
                 (WidgetStorageData.mkMetadata
                    (WidgetStorageData.widgetId metadata)
                    (WidgetStorageData.instanceId metadata)
                    schemaVersion
                    (WidgetStorageData.createdAt metadata)
                    (iso now)
                    (Some schemaVersion))));;
               mret (Some migratedData))
              (λ error,
                console_error
                  (ConsoleError ("Error migrating widget data from " +:+ schema +:+
                                 " to " +:+ schemaVersion +:+ ":") EmptyString error);;
                mret (Some (WidgetStorageData.data storageData)))
          else mret (Some (WidgetStorageData.data storageData))
      | _, _ => mret (Some (WidgetStorageData.data storageData))
      end
  end.

(** [newData] is the new data or a function of the previous data. *)
Definition updateData (now : Time) (newData : T + (option T → completion T)) :
    M (option (WidgetStorageData.t T)) () :=
  setStorageData (inr (λ currentStorage,
    let currentData := WidgetStorageData.data <$> currentStorage in
    updatedData ← match newData with
                  | inr f => lift (f currentData)
                  | inl d => mret d
                  end;
    mret (WidgetStorageData.mk updatedData
            (WidgetStorageData.mkMetadata widgetId instanceId schemaVersion
               (or_string
                  (WidgetStorageData.createdAt ∘ WidgetStorageData.metadata <$>
                     currentStorage)
                  (iso now))
               (iso now)
               (Some schemaVersion))))).

End hook.
End useWidgetStorage.

(** A call made in the render whose stored value is [stored], on a clean
    console; [rerender] is the stored value the call leaves. It is the
    value of the next render as long as the storage holds a copy that reads
    back as that value: where the effect of mount runs again after a render
    (see [effects] in the modules over the browser below), it finds what
    the call has written. *)
Definition call {S A} (stored : S) (handler : S → M S A) : completion A * World S :=
  handler stored (mkWorld stored []).

Definition rerender {S A} (stored : S) (handler : S → M S A) : S :=
  state (call stored handler).2.

(** ** [WidgetGrid] *)

Module WidgetGrid.

(** A call of one of the callbacks the grid is given. *)
Inductive Callback : Type :=
| onWidgetRemove (id : string)
| onWidgetResize (id : string) (size : Size)
| onWidgetDragEnd (widgets : list Widget.t).

(** The state of the component and the callbacks called so far. *)
Record t : Type := mk {
  activeWidgets : list Widget.t;
  draggedWidget : option string;
  callbacks : list Callback
}.

(** [array.splice(start, 0, item)] for a [start] that is not negative. *)
Definition splice_insert {A} (start : nat) (item : A) (array : list A) : list A :=
  take start array ++ item :: drop start array.

(** [handleDrop]; [widgetId] is what the drag stored in the event. *)
Definition handleDrop (s : t) (widgetId : string) (targetIndex : nat) : t :=
  match list_find (λ w, Widget.id w = widgetId) (activeWidgets s) with
  | None => s
  | Some (sourceIndex, movedWidget) =>
      let newWidgets :=
        splice_insert targetIndex movedWidget (delete sourceIndex (activeWidgets s)) in
      mk newWidgets None (callbacks s ++ [onWidgetDragEnd newWidgets])
  end.

Definition handleRemoveWidget (s : t) (id : string) : t :=
  let newWidgets := filter (λ widget, Widget.id widget ≠ id) (activeWidgets s) in
  mk newWidgets (draggedWidget s) (callbacks s ++ [onWidgetRemove id]).

(** [sizes[(sizes.indexOf(size) + 1) % sizes.length]]. *)
Definition nextSize (size : Size) : Size :=
  match size with
  | small => medium
  | medium => large
  | large => small
  end.

Definition with_size (widget : Widget.t) (size : Size) : Widget.t :=
  Widget.mk (Widget.id widget) (Widget.title widget) (Widget.type widget)
    (Widget.content widget) size (Widget.category widget).

Definition handleResizeWidget (s : t) (id : string) : t :=
  let newWidgets :=
    (λ widget,
       if bool_decide (Widget.id widget = id) then
         with_size widget (nextSize (Widget.size widget))
       else widget) <$> activeWidgets s in
  let resized :=
    (λ widget, onWidgetResize id (nextSize (Widget.size widget))) <$>
      filter (λ widget, Widget.id widget = id) (activeWidgets s) in
  mk newWidgets (draggedWidget s) (callbacks s ++ resized).

End WidgetGrid.

(** ** [WidgetSearch] *)

Module WidgetSearch.

(** The state of the component and the queries passed to [onSearch]. *)
Record t : Type := mk {
  query : string;
  recentSearches : list string;
  searched : list string
}.

Section component.

(** [String.prototype.trim]. *)
Variable trim : string → string.

Definition setQuery (s : t) (value : string) : t :=
  mk value (recentSearches s) (searched s).

Definition handleSearch (s : t) : t :=
  if bool_decide (trim (query s) ≠ EmptyString) then
    let searched := searched s ++ [query s] in
    if bool_decide (query s ∈ recentSearches s) then
      mk (query s) (recentSearches s) searched
    else
      let newSearches := query s :: take 4 (recentSearches s) in
      mk (query s) newSearches searched
  else s.

Definition clearSearch (s : t) : t :=
  mk EmptyString (recentSearches s) (searched s ++ [EmptyString]).

Definition handleRecentSearch (s : t) (search : string) : t :=
  mk search (recentSearches s) (searched s ++ [search]).

Definition removeRecentSearch (s : t) (search : string) : t :=
  let newSearches := filter (λ s', s' ≠ search) (recentSearches s) in
  mk (query s) newSearches (searched s).

(** What the user can do: type into the input, press Enter, clear the
    input, pick or remove a recent search. *)
Inductive Event : Type :=
| Input (value : string)
| Enter
| Clear
| Pick (search : string)
| Remove (search : string).

Definition step (s : t) (event : Event) : t :=
  match event with
  | Input value => setQuery s value
  | Enter => handleSearch s
  | Clear => clearSearch s
  | Pick search => handleRecentSearch s search
  | Remove search => removeRecentSearch s search
  end.

End component.
End WidgetSearch.

(** ** [useWidgetState] *)

(** The truth value of [object[property]]; an absent property is
    [undefined]. *)
Definition truthy (value : option any) : bool :=
  match value with
  | None | Some JNull => false
  | Some (JBool b) => b
  | Some (JNumber n) => bool_decide (n ≠ 0)
  | Some (JString s) => bool_decide (s ≠ EmptyString)
  | Some (JArray _) | Some (JObject _) => true
  end.

Module useWidgetState.
Section hook.

(** The ids the hook is given and the value [state] of the render. *)
Variables widgetId instanceId : string.
Variable state : option (gmap string any).

Definition storageKey : string :=
  "widget-state-" +:+ widgetId +:+ "-" +:+ instanceId.

Definition setState :
    gmap string any + (option (gmap string any) → M (option (gmap string any))
                                                     (gmap string any)) →
    M (option (gmap string any)) () :=
  setValue storageKey state (λ v, modify (λ _, Some v)).

(** [{...currentState, ...updatedState, lastUpdated}]. *)
Definition updateState (now : Time)
    (newState : gmap string any + (gmap string any → completion (gmap string any))) :
    M (option (gmap string any)) () :=
  setState (inr (λ currentState,
    let currentState := default ∅ currentState in
    updatedState ← match newState with
                   | inr f => lift (f currentState)
                   | inl s => mret s
                   end;
    mret (<["lastUpdated" := JString (iso now)]> (updatedState ∪ currentState)))).

Definition setStateProperty (now : Time) (property : string) (value : any) :
    M (option (gmap string any)) () :=
  updateState now (inr (λ currentState, Normal (<[property := value]> currentState))).

Definition toggleStateProperty (now : Time) (property : string) :
    M (option (gmap string any)) () :=
  updateState now
    (inr (λ currentState,
       Normal (<[property := JBool (negb (truthy (currentState !! property)))]>
                 currentState))).

End hook.
End useWidgetState.

(** ** [WidgetEditor] *)

(** [handleSettingsSubmit]. [formData] lists the entries of the form in
    their order; the editor uses [useWidgetConfig] without an initial
    configuration. The call of the optional [onSave] of the parent that
    follows the update is not part of this model. *)
Definition handleSettingsSubmit (widgetRegistry : gmap string RegistryEntry)
    (widgetId instanceId : string) (configData : option WidgetConfigData)
    (now : Time) (formData : list (string * any)) : M (option WidgetConfigData) () :=
  let formValues : gmap string any :=
    foldl (λ formValues entry, <[entry.1 := entry.2]> formValues) ∅ formData in
  useWidgetConfig.updateConfig widgetRegistry widgetId instanceId None configData now
    (inr (λ currentConfig, Normal (formValues ∪ currentConfig))).

(** ** The widget hooks over the browser

    [useWidgetConfig], [useWidgetStorage] and [useWidgetState] are
    [useLocalStorage] with a key of their own, JSON as the codec
    ([parseJson] is left at [true]) and a [defaultValue] computed during the
    render. [getStoredValue] depends on [defaultValue]: where that is a new
    object in every render, the effect that initializes the state runs
    again after every render and reads the state back from the storage.
    In each module [effects] is that effect of a render, and the handlers
    are those of the hook over the state, the storage and the events of
    [useLocalStorage]. [stringify], [parse] and [toString] stand for
    [JSON.stringify], [JSON.parse] and [String] on the stored type; [raw],
    the cast of the branch without JSON, is not reached. *)

Module useWidgetConfig_browser.
Section hook.

Variable widgetRegistry : gmap string RegistryEntry.
Variables widgetId instanceId : string.
Variable initialConfig : option (gmap string any).
Variable syncAcrossTabs : bool.
Variable stringify : WidgetConfigData → completion string.
Variable parse : string → completion WidgetConfigData.
Variable toString : WidgetConfigData → string.
Variable raw : string → WidgetConfigData.
Variable setItem_throws : gmap string string → string → string → option exn.

(** The value [configData] of the render. *)
Variable configData : option WidgetConfigData.

Definition storageKey : string := useWidgetConfig.storageKey widgetId instanceId.

(** The [defaultValue] of a render made at [now]: an object literal. *)
Definition defaultValue (now : Time) : WidgetConfigData :=
  mkWidgetConfigData widgetId instanceId
    (default (useWidgetConfig.defaultConfig widgetRegistry widgetId) initialConfig)
    "1.0.0" (iso now).

Definition setConfigData :
    option WidgetConfigData +
      (option WidgetConfigData →
       M (useLocalStorage.Browser WidgetConfigData) (option WidgetConfigData)) →
    M (useLocalStorage.Browser WidgetConfigData) () :=
  useLocalStorage.setValue storageKey true syncAcrossTabs stringify parse toString raw
    setItem_throws configData.

Definition removeConfig : M (useLocalStorage.Browser WidgetConfigData) () :=
  useLocalStorage.removeItem storageKey true syncAcrossTabs parse raw.

Definition resetConfig (now : Time) : M (useLocalStorage.Browser WidgetConfigData) () :=
  setConfigData
    (inl (Some (mkWidgetConfigData widgetId instanceId
                  (default (useWidgetConfig.defaultConfig widgetRegistry widgetId)
                     initialConfig)
                  "1.0.0" (iso now)))).

Definition clearConfig : M (useLocalStorage.Browser WidgetConfigData) () :=
  removeConfig.

(** The default value is a new object in every render: the state is
    initialized again after each. *)
Definition effects (now : Time) : M (useLocalStorage.Browser WidgetConfigData) () :=
  useLocalStorage.initialize storageKey true (Some (defaultValue now)) parse raw.

End hook.
End useWidgetConfig_browser.

Module useWidgetStorage_browser.
Section hook.

Context {T : Type}.

Variables widgetId instanceId storageName : string.
Variable initialData : option T.
Variable schemaVersion : string.
Variable syncAcrossTabs : bool.
Variable stringify : WidgetStorageData.t T → completion string.
Variable parse : string → completion (WidgetStorageData.t T).
Variable toString : WidgetStorageData.t T → string.
Variable raw : string → WidgetStorageData.t T.
Variable setItem_throws : gmap string string → string → string → option exn.

(** The value [storageData] of the render. *)
Variable storageData : option (WidgetStorageData.t T).

Definition storageKey : string :=
  useWidgetStorage.storageKey widgetId instanceId storageName.

(** The [defaultValue] of a render made at [now]: an object literal when
    there is initial data, [undefined] otherwise. *)
Definition defaultValue (now : Time) : option (WidgetStorageData.t T) :=
  match initialData with
  | Some initialData =>
      Some (WidgetStorageData.mk initialData
              (WidgetStorageData.mkMetadata widgetId instanceId schemaVersion
                 (iso now) (iso now) (Some schemaVersion)))
  | None => None
  end.

Definition setStorageData :
    option (WidgetStorageData.t T) +
      (option (WidgetStorageData.t T) →
       M (useLocalStorage.Browser (WidgetStorageData.t T))
         (option (WidgetStorageData.t T))) →
    M (useLocalStorage.Browser (WidgetStorageData.t T)) () :=
  useLocalStorage.setValue storageKey true syncAcrossTabs stringify parse toString raw
    setItem_throws storageData.

Definition removeData : M (useLocalStorage.Browser (WidgetStorageData.t T)) () :=
  useLocalStorage.removeItem storageKey true syncAcrossTabs parse raw.

Definition resetData (now : Time) :
    M (useLocalStorage.Browser (WidgetStorageData.t T)) () :=
  match initialData with
  | Some initialData =>
      setStorageData (inl (Some (WidgetStorageData.mk initialData
        (WidgetStorageData.mkMetadata widgetId instanceId schemaVersion
           (or_string
              (WidgetStorageData.createdAt ∘ WidgetStorageData.metadata <$> storageData)
              (iso now))
           (iso now)
           (Some schemaVersion)))))
  | None => removeData
  end.

Definition clearData : M (useLocalStorage.Browser (WidgetStorageData.t T)) () :=
  removeData.

(** With initial data the default value is a new object in every render and
    the state is initialized again after each; without, the default value
    is [undefined] and the effect of mount does not run again. *)
Definition effects (now : Time) :
    M (useLocalStorage.Browser (WidgetStorageData.t T)) () :=
  match initialData with
  | Some _ => useLocalStorage.initialize storageKey true (defaultValue now) parse raw
  | None => mret ()
  end.

End hook.
End useWidgetStorage_browser.

Module useWidgetState_browser.
Section hook.

Variables widgetId instanceId : string.

(** [initialState], the default [{}] applied, and whether it is a new
    object in every render: an object literal written in the call of the
    hook, or the default when the caller passes none. *)
Variable initialState : gmap string any.
Variable fresh : bool.

Variable syncAcrossTabs : bool.
Variable stringify : gmap string any → completion string.
Variable parse : string → completion (gmap string any).
Variable toString : gmap string any → string.
Variable raw : string → gmap string any.
Variable setItem_throws : gmap string string → string → string → option exn.

(** The value [state] of the render. *)
Variable state : option (gmap string any).

Definition storageKey : string := useWidgetState.storageKey widgetId instanceId.

Definition setState :
    option (gmap string any) +
      (option (gmap string any) →
       M (useLocalStorage.Browser (gmap string any)) (option (gmap string any))) →
    M (useLocalStorage.Browser (gmap string any)) () :=
  useLocalStorage.setValue storageKey true syncAcrossTabs stringify parse toString raw
    setItem_throws state.

Definition removeState : M (useLocalStorage.Browser (gmap string any)) () :=
  useLocalStorage.removeItem storageKey true syncAcrossTabs parse raw.

(** [{...currentState, ...updatedState, lastUpdated}]. *)
Definition updateState (now : Time)
    (newState : gmap string any + (gmap string any → completion (gmap string any))) :
    M (useLocalStorage.Browser (gmap string any)) () :=
  setState (inr (λ currentState,
    let currentState := default ∅ currentState in
    updatedState ← match newState with
                   | inr f => lift (f currentState)
                   | inl s => mret s
                   end;
    mret (Some (<["lastUpdated" := JString (iso now)]> (updatedState ∪ currentState))))).

Definition toggleStateProperty (now : Time) (property : string) :
    M (useLocalStorage.Browser (gmap string any)) () :=
  updateState now
    (inr (λ currentState,
       Normal (<[property := JBool (negb (truthy (currentState !! property)))]>
                 currentState))).

Definition resetState (now : Time) : M (useLocalStorage.Browser (gmap string any)) () :=
  setState (inl (Some (<["lastUpdated" := JString (iso now)]> initialState))).

Definition clearState : M (useLocalStorage.Browser (gmap string any)) () := removeState.

(** The [state] the hook returns: [state || initialState]. *)
Definition returned : gmap string any := default initialState state.

(** The default value is [initialState]: the state is initialized again
    after every render in which that is a new object. *)
Definition effects : M (useLocalStorage.Browser (gmap string any)) () :=
  if fresh then useLocalStorage.initialize storageKey true (Some initialState) parse raw
  else mret ().

End hook.
End useWidgetState_browser.

(** An example codec: every value is written as the same text, which reads
    back as [value]. *)
Definition constant_text {T} (_ : T) : completion string := Normal "{...}".

Definition constant_value {T} (value : T) (_ : string) : completion T := Normal value.

(** * Properties *)

(** ** Loops *)

Lemma range_nil a b : b ≤ a → range a b = [].
Proof. intros. unfold range. apply seqZ_nil. lia. Qed.

Lemma range_cons a b : a < b → range a b = a :: range (a + 1) b.
Proof.
  intros. unfold range. rewrite seqZ_cons by lia.
  f_equal. f_equal; lia.
Qed.

Lemma elem_of_range k a b : k ∈ range a b ↔ a ≤ k < b.
Proof. unfold range. rewrite elem_of_seqZ. lia. Qed.

(** A prefix of a range up to one of its elements is the range below it. *)
Lemma range_split a b pre k post :
  range a b = pre ++ k :: post → a ≤ k < b ∧ pre = range a k.
Proof.
  revert a. induction pre as [|p pre IH]; intros a E.
  - destruct (decide (a < b)) as [Hlt|Hge].
    + rewrite range_cons in E by done. simpl in E. injection E as -> _.
      split; [lia|]. by rewrite range_nil by lia.
    + rewrite range_nil in E by lia. discriminate.
  - destruct (decide (a < b)) as [Hlt|Hge].
    + rewrite range_cons in E by done. simpl in E. injection E as <- E.
      destruct (IH _ E) as [Hk ->]. split; [lia|].
      by rewrite (range_cons a k) by lia.
    + rewrite range_nil in E by lia. discriminate.
Qed.

(** An invariant carried through a counting loop. *)
Lemma for_each_range {S} (Inv : Z → S → Prop) (body : Z → S → completion S) a b s :
  Inv a s →
  (∀ k s, a ≤ k < b → Inv k s → ∃ s', body k s = Normal s' ∧ Inv (k + 1) s') →
  ∃ s', for_each (range a b) body s = Normal s' ∧ Inv (Z.max a b) s'.
Proof.
  remember (Z.to_nat (b - a)) as n eqn:Hn.
  revert a s Hn. induction n as [|n IH]; intros a s Hn Hinv Hbody.
  - rewrite range_nil by lia. simpl. rewrite Z.max_l by lia. eauto.
  - rewrite range_cons by lia. simpl.
    destruct (Hbody a s) as (s' & -> & Hinv'); [lia|done|]. simpl.
    replace (Z.max a b) with (Z.max (a + 1) b) by lia.
    apply IH; [lia|done|]. intros k s0 Hk. apply Hbody. lia.
Qed.

(** A search loop whose body never throws returns the value of the first
    iteration that has one. *)
Lemma for_until_first {A R} (items : list A) (body : A → completion (option R)) :
  (∀ a, a ∈ items → ∃ r, body a = Normal r) →
  ∃ r, for_until items body = Normal r ∧
    match r with
    | None => ∀ a, a ∈ items → body a = Normal None
    | Some v => ∃ pre a post, items = pre ++ a :: post ∧
        body a = Normal (Some v) ∧ ∀ a', a' ∈ pre → body a' = Normal None
    end.
Proof.
  induction items as [|a rest IH]; intros Hbody; simpl.
  - exists None. split; [done|]. intros a Ha. by apply elem_of_nil in Ha.
  - destruct (Hbody a) as [r Hr]; [left|]. rewrite Hr. simpl.
    destruct r as [v|].
    + exists (Some v). split; [done|]. exists [], a, rest.
      split; [done|]. split; [done|]. intros a' Ha'. by apply elem_of_nil in Ha'.
    + destruct IH as (r & -> & Hspec).
      { intros a' Ha'. apply Hbody. by right. }
      exists r. split; [done|]. destruct r as [v|].
      * destruct Hspec as (pre & a0 & post & -> & H0 & Hpre).
        exists (a :: pre), a0, post. split; [done|]. split; [done|].
        intros a' Ha'. apply elem_of_cons in Ha' as [->|Ha']; auto.
      * intros a' Ha'. apply elem_of_cons in Ha' as [->|Ha']; auto.
Qed.

(** ** The occupancy grid *)

Lemma index_Some {A} (l : list A) i :
  0 ≤ i → (Z.to_nat i < length l)%nat → ∃ a, index l i = Some a ∧ l !! Z.to_nat i = Some a.
Proof.
  intros Hi Hlen. unfold index. rewrite decide_True by done.
  destruct (lookup_lt_is_Some_2 l (Z.to_nat i) Hlen) as [a Ha]. eauto.
Qed.

Lemma emptyGrid_shape : grid_shape emptyGrid.
Proof. split; [reflexivity|]. by repeat constructor. Qed.

Lemma emptyGrid_cell i j : cell emptyGrid i j = false.
Proof.
  unfold cell, index, emptyGrid. destruct (decide (0 ≤ i)); [|done].
  rewrite list_lookup_fmap. destruct (range 0 gridHeight !! Z.to_nat i); [|done].
  simpl. destruct (decide (0 ≤ j)); [|done].
  generalize (Z.to_nat j). intros n.
  by do 4 (destruct n as [|n]; [done|]).
Qed.

Lemma getCell_cell grid i j :
  grid_shape grid → 0 ≤ i < gridHeight → getCell grid i j = Normal (cell grid i j).
Proof.
  intros [Hlen _] Hi. unfold getCell, cell.
  destruct (index_Some grid i) as (row & -> & _); [lia|unfold gridHeight in *; lia|done].
Qed.

Lemma assign_length row j :
  j < gridWidth → length row = Z.to_nat gridWidth → length (assign row j true) = Z.to_nat gridWidth.
Proof.
  intros Hj Hlen. unfold assign. destruct (decide (0 ≤ j)); [|done].
  rewrite decide_True by (unfold gridWidth in *; lia). by rewrite length_insert.
Qed.

Lemma assign_index row j j' :
  j < gridWidth → length row = Z.to_nat gridWidth → 0 ≤ j' →
  default false (index (assign row j true) j') = true ↔
  default false (index row j') = true ∨ j' = j.
Proof.
  intros Hj Hlen Hj'. unfold assign, index.
  destruct (decide (0 ≤ j')) as [_|?]; [|lia].
  destruct (decide (0 ≤ j)) as [Hj0|]; [|intuition lia].
  rewrite decide_True by (unfold gridWidth in *; lia).
  destruct (decide (j' = j)) as [->|Hne].
  - rewrite list_lookup_insert_eq by (unfold gridWidth in *; lia). simpl. intuition.
  - rewrite list_lookup_insert_ne by lia. intuition.
Qed.

Lemma setCell_spec grid i j :
  grid_shape grid → 0 ≤ i < gridHeight → j < gridWidth →
  ∃ grid', setCell grid i j = Normal grid' ∧ grid_shape grid' ∧
    ∀ i' j', 0 ≤ i' → 0 ≤ j' →
      cell grid' i' j' = true ↔ cell grid i' j' = true ∨ (i' = i ∧ j' = j).
Proof.
  intros [Hlen Hrows] Hi Hj. unfold setCell.
  destruct (index_Some grid i) as (row & -> & Hrow); [lia|unfold gridHeight in *; lia|].
  eexists. split; [done|].
  assert (length row = Z.to_nat gridWidth) as Hrowlen.
  { rewrite Forall_forall in Hrows. apply Hrows. by eapply list_elem_of_lookup_2. }
  split.
  - split; [by rewrite length_insert|].
    apply Forall_insert; [done|]. by apply assign_length.
  - intros i' j' Hi' Hj'. unfold cell.
    assert (index (<[Z.to_nat i := assign row j true]> grid) i' =
            if decide (i' = i) then Some (assign row j true) else index grid i') as ->.
    { unfold index. destruct (decide (0 ≤ i')); [|lia].
      destruct (decide (i' = i)) as [->|Hne].
      - apply list_lookup_insert_eq. unfold gridHeight in *. lia.
      - apply list_lookup_insert_ne. lia. }
    destruct (decide (i' = i)) as [->|Hne]; simpl.
    + rewrite assign_index by done.
      assert (index grid i = Some row) as ->.
      { unfold index. by rewrite decide_True by done. }
      simpl. intuition.
    + intuition.
Qed.

Lemma markWidget_spec widget grid :
  grid_shape grid → 0 ≤ Position.y (WidgetInstance.position widget) →
  ∃ grid', markWidget widget grid = Normal grid' ∧ grid_shape grid' ∧
    ∀ i j, 0 ≤ i < gridHeight → 0 ≤ j < gridWidth →
      cell grid' i j = true ↔
      cell grid i j = true ∨ covers (WidgetInstance.position widget) i j.
Proof.
  unfold markWidget, covers. destruct (WidgetInstance.position widget) as [x y w h].
  simpl. intros Hshape Hy.
  destruct (for_each_range
    (λ k g, grid_shape g ∧ ∀ i' j', 0 ≤ i' → 0 ≤ j' →
       cell g i' j' = true ↔
       cell grid i' j' = true ∨
       (y ≤ i' < k ∧ x ≤ j' < x + w ∧ i' < gridHeight ∧ j' < gridWidth))
    (λ i grid, for_each (range x (x + w)) (λ j grid,
       if bool_decide (i < gridHeight ∧ j < gridWidth) then setCell grid i j
       else Normal grid) grid)
    y (y + h) grid) as (grid' & Hrun & Hshape' & Hcells).
  - split; [done|]. intros i' j' _ _. intuition lia.
  - intros i g Hi [Hg Hgc].
    destruct (for_each_range
      (λ k g', grid_shape g' ∧ ∀ i' j', 0 ≤ i' → 0 ≤ j' →
         cell g' i' j' = true ↔
         cell g i' j' = true ∨
         (i' = i ∧ x ≤ j' < k ∧ i' < gridHeight ∧ j' < gridWidth))
      (λ j grid,
         if bool_decide (i < gridHeight ∧ j < gridWidth) then setCell grid i j
         else Normal grid)
      x (x + w) g) as (g' & Hrun & Hg' & Hgc').
    + split; [done|]. intros i' j' _ _. intuition lia.
    + intros j g0 Hj [Hg0 Hg0c]. case_bool_decide as Hin.
      * destruct (setCell_spec g0 i j) as (g1 & -> & Hg1 & Hg1c); [done|lia|lia|].
        eexists. split; [done|]. split; [done|].
        intros i' j' Hi' Hj'. rewrite Hg1c, Hg0c by done. intuition lia.
      * eexists. split; [done|]. split; [done|].
        intros i' j' Hi' Hj'. rewrite Hg0c by done. intuition lia.
    + exists g'. split; [done|]. split; [done|].
      intros i' j' Hi' Hj'. rewrite Hgc', Hgc by done. intuition lia.
  - exists grid'. split; [done|]. split; [done|].
    intros i j Hi Hj. rewrite Hcells by lia. intuition lia.
Qed.

(** After the marking loop the grid records exactly the occupied cells. *)
Lemma marking_spec widgets :
  rows_zero_based widgets →
  ∃ grid, for_each widgets markWidget emptyGrid = Normal grid ∧ grid_shape grid ∧
    ∀ i j, 0 ≤ i < gridHeight → 0 ≤ j < gridWidth →
      cell grid i j = true ↔ occupied widgets i j.
Proof.
  intros Hrows.
  cut (∀ marked grid0, grid_shape grid0 →
         (∀ i j, 0 ≤ i < gridHeight → 0 ≤ j < gridWidth →
            cell grid0 i j = true ↔ occupied marked i j) →
         ∃ grid, for_each widgets markWidget grid0 = Normal grid ∧ grid_shape grid ∧
           ∀ i j, 0 ≤ i < gridHeight → 0 ≤ j < gridWidth →
             cell grid i j = true ↔ occupied (marked ++ widgets) i j).
  { intros H. apply (H [] emptyGrid emptyGrid_shape).
    intros i j _ _. rewrite emptyGrid_cell. split; [done|].
    intros (widget & Hin & _). by apply elem_of_nil in Hin. }
  induction Hrows as [|widget widgets Hy Hrows IH]; intros marked grid0 Hshape Hcells.
  - exists grid0. rewrite app_nil_r. done.
  - simpl. destruct (markWidget_spec widget grid0) as (grid1 & -> & Hshape1 & Hcells1);
      [done|done|]. simpl.
    destruct (IH (marked ++ [widget]) grid1 Hshape1) as (grid & Hrun & Hshape' & Hcells').
    + intros i j Hi Hj. rewrite Hcells1, Hcells by done. unfold occupied.
      setoid_rewrite elem_of_app. setoid_rewrite list_elem_of_singleton.
      split.
      * intros [(w0 & Hin & Hc)|Hc]; [exists w0|exists widget]; auto.
      * intros (w0 & [Hin| ->] & Hc); [left; exists w0|right]; auto.
    + exists grid. rewrite <- app_assoc in Hcells'. done.
Qed.

(** ** The scan *)

Lemma canFit_cell grid i j :
  grid_shape grid → 0 ≤ i →
  (if bool_decide (i >= gridHeight ∨ j >= gridWidth) then Normal (Some ())
   else occupied ← getCell grid i j;
        Normal (if occupied : bool then Some () else None)) =
  Normal (if decide (i < gridHeight ∧ j < gridWidth ∧ cell grid i j = false)
          then None else Some ()).
Proof.
  intros Hshape Hi. case_bool_decide as Hout.
  - rewrite decide_False by lia. done.
  - rewrite getCell_cell by (done || lia). simpl.
    destruct (cell grid i j).
    + rewrite decide_False by (intros (_ & _ & ?); done). done.
    + rewrite decide_True by (repeat split; (lia || done)). done.
Qed.

Lemma canFit_row grid i x width :
  grid_shape grid → 0 ≤ i →
  ∃ r, for_until (range x (x + width)) (λ j,
         if bool_decide (i >= gridHeight ∨ j >= gridWidth) then Normal (Some ())
         else occupied ← getCell grid i j;
              Normal (if occupied : bool then Some () else None)) = Normal r ∧
    (r = None ↔
     ∀ j, x ≤ j < x + width → i < gridHeight ∧ j < gridWidth ∧ cell grid i j = false).
Proof.
  intros Hshape Hi.
  destruct (for_until_first (range x (x + width)) (λ j,
         if bool_decide (i >= gridHeight ∨ j >= gridWidth) then Normal (Some ())
         else occupied ← getCell grid i j;
              Normal (if occupied : bool then Some () else None))) as (r & Hrun & Hr).
  { intros j _. rewrite canFit_cell by done. eauto. }
  exists r. split; [done|]. destruct r as [[]|].
  - split; [done|]. intros Hall. exfalso.
    destruct Hr as (pre & j & post & Hsplit & Hj & _).
    apply range_split in Hsplit as [Hjr _].
    rewrite canFit_cell in Hj by done.
    rewrite decide_True in Hj by (apply Hall; lia). done.
  - split; [|done]. intros _ j Hj.
    specialize (Hr j). rewrite canFit_cell in Hr by done.
    destruct (decide (i < gridHeight ∧ j < gridWidth ∧ cell grid i j = false)); [done|].
    assert (Normal (Some ()) = Normal None) by (apply Hr, elem_of_range; lia). done.
Qed.

Lemma canFit_spec grid x y width height :
  grid_shape grid → 0 ≤ y →
  ∃ b, canFit grid x y width height = Normal b ∧
       (b = true ↔ free grid width height x y).
Proof.
  intros Hshape Hy. unfold canFit.
  destruct (for_until_first (range y (y + height)) (λ i,
    for_until (range x (x + width)) (λ j,
      if bool_decide (i >= gridHeight ∨ j >= gridWidth) then Normal (Some ())
      else occupied ← getCell grid i j;
           Normal (if occupied : bool then Some () else None)))) as (r & -> & Hr).
  { intros i Hi%elem_of_range.
    destruct (canFit_row grid i x width) as (r & -> & _); [done|lia|]. eauto. }
  simpl. eexists. split; [done|]. rewrite bool_decide_eq_true.
  destruct r as [[]|].
  - split; [done|]. intros Hfree. exfalso.
    destruct Hr as (pre & i & post & Hsplit & Hi & _).
    apply range_split in Hsplit as [Hir _].
    destruct (canFit_row grid i x width) as (r & Hrun & Hnone); [done|lia|].
    rewrite Hrun in Hi. injection Hi as ->.
    assert (Some () = None); [|done]. apply Hnone. intros j Hj. by apply Hfree.
  - split; [|done]. intros _ i j Hi Hj.
    destruct (canFit_row grid i x width) as (r & Hrun & Hnone); [done|lia|].
    rewrite Hr in Hrun by (apply elem_of_range; lia). injection Hrun as <-.
    by apply Hnone.
Qed.

Lemma scan_row grid width height y :
  grid_shape grid → 0 ≤ y →
  ∃ r, for_until (range 0 (gridWidth - width + 1)) (λ x,
         fit ← canFit grid x y width height;
         Normal (if fit : bool then Some (Position.mk x y width height) else None))
       = Normal r ∧
    match r with
    | None => ∀ x, 0 ≤ x ≤ gridWidth - width → ¬ free grid width height x y
    | Some p => ∃ x, p = Position.mk x y width height ∧ 0 ≤ x ≤ gridWidth - width ∧
        free grid width height x y ∧
        ∀ x', 0 ≤ x' < x → ¬ free grid width height x' y
    end.
Proof.
  intros Hshape Hy.
  assert (∀ x,
    ((fit ← canFit grid x y width height;
      Normal (if fit : bool then Some (Position.mk x y width height) else None)) =
     Normal (Some (Position.mk x y width height)) ∧ free grid width height x y) ∨
    ((fit ← canFit grid x y width height;
      Normal (if fit : bool then Some (Position.mk x y width height) else None)) =
     Normal None ∧ ¬ free grid width height x y)) as Hbody.
  { intros x. destruct (canFit_spec grid x y width height) as (b & -> & Hb); [done..|].
    simpl. destruct b.
    - left. split; [done|]. by apply Hb.
    - right. split; [done|]. intros Hf. apply Hb in Hf. done. }
  destruct (for_until_first (range 0 (gridWidth - width + 1)) (λ x,
         fit ← canFit grid x y width height;
         Normal (if fit : bool then Some (Position.mk x y width height) else None)))
    as (r & Hrun & Hr).
  { intros x _. destruct (Hbody x) as [[-> _]|[-> _]]; eauto. }
  exists r. split; [done|]. destruct r as [p|].
  - destruct Hr as (pre & x & post & Hsplit & Hx & Hpre).
    apply range_split in Hsplit as [Hxr ->].
    destruct (Hbody x) as [[Hx' Hfree]|[Hx' _]]; rewrite Hx' in Hx; [|done].
    injection Hx as <-. exists x. split; [done|]. split; [lia|]. split; [done|].
    intros x' Hlt Hfree'.
    destruct (Hbody x') as [[Hb _]|[_ Hn]]; [|done].
    rewrite Hpre in Hb by (apply elem_of_range; lia). done.
  - intros x Hx Hfree.
    destruct (Hbody x) as [[Hb _]|[_ Hn]]; [|done].
    rewrite Hr in Hb by (apply elem_of_range; lia). done.
Qed.

Lemma scan_spec grid width height :
  grid_shape grid →
  ∃ found, for_until (range 0 gridHeight) (λ y,
             for_until (range 0 (gridWidth - width + 1)) (λ x,
               fit ← canFit grid x y width height;
               Normal (if fit : bool then Some (Position.mk x y width height) else None)))
           = Normal found ∧
    match found with
    | None => ∀ x y, candidate width x y → ¬ free grid width height x y
    | Some p => ∃ x y, p = Position.mk x y width height ∧ candidate width x y ∧
        free grid width height x y ∧
        ∀ x' y', candidate width x' y' → scanned_before x' y' x y →
          ¬ free grid width height x' y'
    end.
Proof.
  intros Hshape.
  destruct (for_until_first (range 0 gridHeight) (λ y,
             for_until (range 0 (gridWidth - width + 1)) (λ x,
               fit ← canFit grid x y width height;
               Normal (if fit : bool then Some (Position.mk x y width height) else None))))
    as (found & Hrun & Hfound).
  { intros y Hy%elem_of_range.
    destruct (scan_row grid width height y) as (r & -> & _); [done|lia|]. eauto. }
  exists found. split; [done|]. destruct found as [p|].
  - destruct Hfound as (pre & y & post & Hsplit & Hy & Hpre).
    apply range_split in Hsplit as [Hyr ->].
    destruct (scan_row grid width height y) as (r & Hrow & Hr); [done|lia|].
    rewrite Hrow in Hy. injection Hy as ->.
    destruct Hr as (x & -> & Hx & Hfree & Hbefore).
    exists x, y. split; [done|]. split; [by split|]. split; [done|].
    intros x' y' [Hy' Hx'] [Hlt|[-> Hlt]].
    + destruct (scan_row grid width height y') as (r & Hrow' & Hr'); [done|lia|].
      rewrite Hpre in Hrow' by (apply elem_of_range; lia). injection Hrow' as <-.
      by apply Hr'.
    + apply Hbefore. lia.
  - intros x y [Hy Hx].
    destruct (scan_row grid width height y) as (r & Hrow & Hr); [done|lia|].
    rewrite Hfound in Hrow by (apply elem_of_range; lia). injection Hrow as <-.
    by apply Hr.
Qed.

(** ** Placement *)

Lemma free_fits widgets grid width height x y :
  (∀ i j, 0 ≤ i < gridHeight → 0 ≤ j < gridWidth →
     cell grid i j = true ↔ occupied widgets i j) →
  0 ≤ x → 0 ≤ y →
  free grid width height x y ↔ fits widgets width height x y.
Proof.
  intros Hcells Hx Hy. unfold free, fits. split; intros H i j Hi Hj.
  - destruct (H i j Hi Hj) as (Hi' & Hj' & Hc). split; [done|]. split; [done|].
    rewrite <- Hcells by lia. by rewrite Hc.
  - destruct (H i j Hi Hj) as (Hi' & Hj' & Hc). split; [done|]. split; [done|].
    rewrite <- Hcells in Hc by lia. by destruct (cell grid i j).
Qed.

(** What [findAvailablePosition] returns when the rows of the existing
    instances are zero-based: the first candidate in scan order that fits,
    or the fallback when no candidate fits. *)
Lemma findAvailablePosition_spec widgets width height :
  rows_zero_based widgets →
  (∃ x y, findAvailablePosition widgets width height =
            Normal (Position.mk x y width height) ∧
     candidate width x y ∧ fits widgets width height x y ∧
     ∀ x' y', candidate width x' y' → scanned_before x' y' x y →
       ¬ fits widgets width height x' y') ∨
  (findAvailablePosition widgets width height =
     Normal (Position.mk 0 gridHeight width height) ∧
   ∀ x y, candidate width x y → ¬ fits widgets width height x y).
Proof.
  intros Hrows. unfold findAvailablePosition.
  destruct (marking_spec widgets Hrows) as (grid & -> & Hshape & Hcells).
  cbn [mbind completion_bind].
  destruct (scan_spec grid width height Hshape) as (found & -> & Hfound).
  cbn [mbind completion_bind].
  assert (∀ x y, candidate width x y →
            free grid width height x y ↔ fits widgets width height x y) as Hiff.
  { intros x y [Hy Hx]. apply free_fits; [done|lia..]. }
  destruct found as [p|].
  - left. destruct Hfound as (x & y & -> & Hcand & Hfree & Hbefore).
    exists x, y. split; [done|]. split; [done|].
    split; [by apply Hiff|].
    intros x' y' Hcand' Hlt Hfits. apply (Hbefore x' y'); [done..|].
    by apply Hiff.
  - right. split; [done|]. intros x y Hcand Hfits. apply (Hfound x y); [done|].
    by apply Hiff.
Qed.

(** ** Handlers of the provider *)

(** Expose the state passing of a handler built from [setValue]. *)
Ltac unfold_handler :=
  unfold setValue, try_catch, lift, modify, console_error, throw,
    mbind, M_bind, mret, M_ret.

(** [map] with a callback that leaves the state alone. *)
Lemma array_map_pure {S A B} (f : A → M S B) (P : A → completion B → Prop) l σ :
  (∀ a σ, ∃ c, f a σ = (c, σ) ∧ P a c) →
  ∃ r, array_map f l σ = (r, σ) ∧
    match r with
    | Normal bs => Forall2 (λ a b, P a (Normal b)) l bs
    | Throw e => ∃ a, a ∈ l ∧ P a (Throw e)
    end.
Proof.
  intros Hf. induction l as [|a l IH]; simpl.
  - exists (Normal []). split; [done|]. constructor.
  - unfold mbind, M_bind. destruct (Hf a σ) as (c & -> & Hc). destruct c as [b|e].
    + destruct IH as (r & -> & Hr). destruct r as [bs|e].
      * exists (Normal (b :: bs)). split; [done|]. by constructor.
      * exists (Throw e). split; [done|]. destruct Hr as (a' & Ha' & HP).
        exists a'. split; [by right|done].
    + exists (Throw e). split; [done|]. exists a. split; [by left|done].
Qed.

Lemma addWidget_layout_pure widgetRegistry currentLayoutId now widgetId title config
    layout (σ : World Dashboard.t) :
  ∃ c, addWidget_layout widgetRegistry currentLayoutId now widgetId title config layout σ
       = (c, σ) ∧
    match c with
    | Normal layout' =>
        widget_added widgetRegistry currentLayoutId now widgetId title config layout layout'
    | Throw e => Some (DashboardLayout.id layout) = currentLayoutId ∧
                 add_throws widgetRegistry widgetId layout e
    end.
Proof.
  unfold addWidget_layout, widget_added, add_throws. case_bool_decide as Hid.
  - eexists. split; [done|]. by left.
  - unfold createWidgetInstance.
    destruct (widgetRegistry !! widgetId) as [entry|] eqn:Hentry.
    + cbn [Widget.size default].
      destruct (DEFAULT_WIDGET_DIMENSIONS (WidgetMetadata.defaultSize (metadata entry)))
        as [w h] eqn:Hdim.
      unfold mbind, M_bind, lift.
      destruct (findAvailablePosition (DashboardLayout.widgets layout) w h)
        as [position|e] eqn:Hpos.
      * eexists. split; [done|]. right. split; [done|].
        exists entry, position. rewrite Hdim. simpl. by rewrite Hpos.
      * eexists. split; [done|]. split; [done|]. right.
        exists entry. rewrite Hdim. simpl. by rewrite Hpos.
    + eexists. split; [done|]. split; [done|]. by left.
Qed.

Lemma currentLayout_None layouts currentLayoutId layout :
  currentLayout layouts currentLayoutId = None →
  layout ∈ default [] layouts →
  Some (DashboardLayout.id layout) ≠ currentLayoutId.
Proof.
  unfold currentLayout. destruct layouts as [l|]; simpl.
  - intros Hfind Hin%list_elem_of_In Heq.
    apply (find_none _ _ Hfind) in Hin. by rewrite bool_decide_eq_false in Hin.
  - intros _ Hin. by apply elem_of_nil in Hin.
Qed.

(** The two ways a call of [addWidget] ends: the update of the layout list
    threw, the error is logged and nothing has changed; or the list is
    replaced, every layout related to its successor by [widget_added]. The
    pointer moves exactly when there was no current layout. *)
Lemma addWidget_run widgetRegistry d now widgetId title config :
  (∃ e layout,
        run d (λ l c, addWidget widgetRegistry l c now widgetId title config) =
          (Normal (),
           mkWorld d [ConsoleError "Error setting localStorage key"
                        "dashboard-layouts" e]) ∧
        layout ∈ layout_list d ∧
        Some (DashboardLayout.id layout) = Dashboard.currentLayoutId d ∧
        add_throws widgetRegistry widgetId layout e) ∨
  (∃ new, run d (λ l c, addWidget widgetRegistry l c now widgetId title config) =
          (Normal (),
           mkWorld (Dashboard.mk (Some new)
                      (match currentLayout (Dashboard.layouts d) (Dashboard.currentLayoutId d) with
                       | None => Some ("layout-" +:+ pretty (ms now))
                       | Some _ => Dashboard.currentLayoutId d
                       end)) []) ∧
        Forall2 (widget_added widgetRegistry (Dashboard.currentLayoutId d) now
                   widgetId title config) (layout_list d) new).
Proof.
  destruct d as [l cur]. unfold run, addWidget, layout_list. cbn [Dashboard.layouts Dashboard.currentLayoutId].
  destruct (currentLayout l cur) as [current|] eqn:Hcurrent.
  - unfold setLayouts. unfold_handler.
    match goal with |- context [array_map ?f ?l ?σ] =>
      destruct (array_map_pure f
        (λ layout c, match c with
           | Normal layout' =>
               widget_added widgetRegistry cur now widgetId title config layout layout'
           | Throw e => Some (DashboardLayout.id layout) = cur ∧
                        add_throws widgetRegistry widgetId layout e
           end) l σ) as (r & -> & Hr)
    end.
    { intros layout σ. apply addWidget_layout_pure. }
    destruct r as [new|e].
    + right. exists new. split; [done|]. done.
    + left. destruct Hr as (layout & Hin & Hid & Hthrows).
      exists e, layout. done.
  - right.
    unfold createLayout, setLayouts, setCurrentLayoutId. unfold_handler.
    cbn [state console Dashboard.layouts Dashboard.currentLayoutId DashboardLayout.id].
    match goal with |- context [array_map ?f ?l ?σ] =>
      destruct (array_map_pure f
        (λ layout c, match c with
           | Normal layout' =>
               widget_added widgetRegistry cur now widgetId title config layout layout'
           | Throw e => Some (DashboardLayout.id layout) = cur ∧
                        add_throws widgetRegistry widgetId layout e
           end) l σ) as (r & -> & Hr)
    end.
    { intros layout σ. apply addWidget_layout_pure. }
    destruct r as [new|e].
    + exists new. split; [done|]. done.
    + exfalso. destruct Hr as (layout & Hin & Hid & _).
      by apply (currentLayout_None l cur layout Hcurrent).
Qed.

(** ** First fit (C1) *)

(** C1, as stated, fails: with an existing instance in a negative row the
    marking loop writes to [grid[-1]], which is [undefined], and the call
    throws a [TypeError] although the 2 by 1 rectangle at (0, 0) fits. *)
Lemma findAvailablePosition_negative_row_not_first_fit :
  ¬ (∀ widgets width height, 1 ≤ width ≤ 4 →
       (∃ x y, candidate width x y ∧ fits widgets width height x y) →
       ∃ x y, findAvailablePosition widgets width height =
                Normal (Position.mk x y width height) ∧
         candidate width x y ∧ fits widgets width height x y ∧
         ∀ x' y', candidate width x' y' → scanned_before x' y' x y →
           ¬ fits widgets width height x' y').
Proof.
  intros H.
  destruct (H [instance_at "widget-status-widget-1" 0 (-1) 1 1] 2 1) as (x & y & Hrun & _).
  - lia.
  - exists 0, 0. split; [unfold candidate, gridHeight, gridWidth; lia|].
    intros i j Hi Hj. unfold gridHeight, gridWidth. split; [lia|]. split; [lia|].
    intros (widget & Hin & Hcov). apply list_elem_of_singleton in Hin as ->.
    unfold covers in Hcov. simpl in Hcov. lia.
  - vm_compute in Hrun. discriminate.
Qed.

(** C1 (amended): first fit in row-major scan order. For every list of
    existing instances whose rectangles have safe-integer coordinates and
    zero-based rows, and every footprint with [1 ≤ width ≤ 4] and a
    safe-integer height, if some scanned position fits,
    [findAvailablePosition] returns the position [(x, y)], first in the
    order "y from 0 upward, within a row x from 0 to [4 - width]", at which
    the whole rectangle is unoccupied within the 4 by 10 grid. In particular
    a 2 by 1 widget goes to (0, 0) on the empty grid, a second one to
    (2, 0), a third one to (0, 1). *)
Theorem findAvailablePosition_first_fit :
  (∀ widgets width height, 1 ≤ width ≤ 4 → safe_integer height →
     safe_rectangles widgets → rows_zero_based widgets →
     (∃ x y, candidate width x y ∧ fits widgets width height x y) →
     ∃ x y, findAvailablePosition widgets width height =
              Normal (Position.mk x y width height) ∧
       candidate width x y ∧ fits widgets width height x y ∧
       ∀ x' y', candidate width x' y' → scanned_before x' y' x y →
         ¬ fits widgets width height x' y') ∧
  findAvailablePosition [] 2 1 = Normal (Position.mk 0 0 2 1) ∧
  findAvailablePosition [instance_at "a" 0 0 2 1] 2 1 = Normal (Position.mk 2 0 2 1) ∧
  findAvailablePosition [instance_at "a" 0 0 2 1; instance_at "b" 2 0 2 1] 2 1 =
    Normal (Position.mk 0 1 2 1).
Proof.
  split; [|by vm_compute].
  intros widgets width height _ _ _ Hrows (x0 & y0 & Hcand & Hfits).
  destruct (findAvailablePosition_spec widgets width height Hrows)
    as [Hfirst|[_ Hnone]]; [done|].
  by destruct (Hnone x0 y0).
Qed.

Lemma findAvailablePosition_first_fit_witness :
  1 ≤ 2 ≤ 4 ∧ safe_integer 1 ∧
  safe_rectangles [instance_at "a" 0 0 2 1] ∧
  rows_zero_based [instance_at "a" 0 0 2 1] ∧
  (∃ x y, candidate 2 x y ∧ fits [instance_at "a" 0 0 2 1] 2 1 x y) ∧
  ∃ x y, findAvailablePosition [instance_at "a" 0 0 2 1] 2 1 =
           Normal (Position.mk x y 2 1) ∧
    candidate 2 x y ∧ fits [instance_at "a" 0 0 2 1] 2 1 x y ∧
    ∀ x' y', candidate 2 x' y' → scanned_before x' y' x y →
      ¬ fits [instance_at "a" 0 0 2 1] 2 1 x' y'.
Proof.
  assert (1 ≤ 2 ≤ 4) as Hw by lia.
  assert (safe_integer 1) as Hh by (unfold safe_integer; lia).
  assert (safe_rectangles [instance_at "a" 0 0 2 1]) as Hsafe.
  { constructor; [unfold safe_rectangle, safe_integer; simpl; lia|constructor]. }
  assert (rows_zero_based [instance_at "a" 0 0 2 1]) as Hrows.
  { constructor; [simpl; lia|constructor]. }
  assert (∃ x y, candidate 2 x y ∧ fits [instance_at "a" 0 0 2 1] 2 1 x y) as Hfit.
  { exists 2, 0. split; [unfold candidate, gridHeight, gridWidth; lia|].
    intros i j Hi Hj. unfold gridHeight, gridWidth. split; [lia|]. split; [lia|].
    intros (widget & Hin & Hcov). apply list_elem_of_singleton in Hin as ->.
    unfold covers in Hcov. simpl in Hcov. lia. }
  split; [exact Hw|]. split; [exact Hh|]. split; [exact Hsafe|].
  split; [exact Hrows|]. split; [exact Hfit|].
  exact (proj1 findAvailablePosition_first_fit _ 2 1 Hw Hh Hsafe Hrows Hfit).
Defined.

(** ** The placement always succeeds (C3) *)

(** C3, as stated, fails: an existing instance in a negative row makes the
    call throw instead of returning a position. *)
Lemma findAvailablePosition_negative_row_throws :
  ¬ (∀ widgets width height, 1 ≤ width ≤ 4 →
       ∃ p, findAvailablePosition widgets width height = Normal p).
Proof.
  intros H.
  destruct (H [instance_at "widget-status-widget-1" 2 (-3) 1 2] 1 1) as (p & Hrun); [lia|].
  vm_compute in Hrun. discriminate.
Qed.

(** C3 (amended): for every list of existing instances whose rectangles
    have safe-integer coordinates and zero-based rows, and every footprint
    with [1 ≤ width ≤ 4] and a safe-integer height,
    [findAvailablePosition] returns a position of that footprint, and when
    no scanned position fits it is the fallback [(0, 10)]. Hence [addWidget]
    with a registered id, over layouts of such instances, logs no error and
    replaces the list, each current layout gaining the instance: there is
    no "no space" outcome. *)
Theorem findAvailablePosition_total :
  (∀ widgets width height, 1 ≤ width ≤ 4 → safe_integer height →
     safe_rectangles widgets → rows_zero_based widgets →
     ∃ p, findAvailablePosition widgets width height = Normal p ∧
       Position.w p = width ∧ Position.h p = height ∧
       ((∀ x y, candidate width x y → ¬ fits widgets width height x y) →
        Position.x p = 0 ∧ Position.y p = gridHeight)) ∧
  (∀ widgetRegistry d now widgetId title config,
     is_Some (widgetRegistry !! widgetId) →
     (∀ layout, layout ∈ layout_list d →
        safe_rectangles (DashboardLayout.widgets layout) ∧
        rows_zero_based (DashboardLayout.widgets layout)) →
     ∃ new pointer,
       run d (λ l c, addWidget widgetRegistry l c now widgetId title config) =
         (Normal (), mkWorld (Dashboard.mk (Some new) pointer) []) ∧
       Forall2 (widget_added widgetRegistry (Dashboard.currentLayoutId d) now
                  widgetId title config) (layout_list d) new).
Proof.
  split.
  - intros widgets width height _ _ _ Hrows.
    destruct (findAvailablePosition_spec widgets width height Hrows)
      as [(x & y & -> & Hcand & Hfits & _)|[-> Hnone]].
    + eexists. split; [done|]. split; [done|]. split; [done|].
      intros Hnone. by destruct (Hnone x y).
    + eexists. split; [done|]. done.
  - intros widgetRegistry d now widgetId title config [entry Hentry] Hrows.
    destruct (addWidget_run widgetRegistry d now widgetId title config)
      as [(e & layout & _ & Hin & _ & Hthrows)|(new & Hrun & Hnew)].
    + exfalso. destruct Hthrows as [[Hnone _]|(entry' & _ & Hthrow)]; [congruence|].
      match type of Hthrow with findAvailablePosition ?ws ?w ?h = _ =>
        destruct (findAvailablePosition_spec ws w h (proj2 (Hrows layout Hin)))
          as [(x & y & Hok & _)|[Hok _]]
      end; congruence.
    + eauto.
Qed.

Lemma findAvailablePosition_total_witness :
  (1 ≤ 2 ≤ 4 ∧ safe_integer 2 ∧
   safe_rectangles [instance_at "a" 0 0 4 10] ∧
   rows_zero_based [instance_at "a" 0 0 4 10] ∧
   ∃ p, findAvailablePosition [instance_at "a" 0 0 4 10] 2 2 = Normal p ∧
     Position.w p = 2 ∧ Position.h p = 2 ∧
     ((∀ x y, candidate 2 x y → ¬ fits [instance_at "a" 0 0 4 10] 2 2 x y) →
      Position.x p = 0 ∧ Position.y p = gridHeight)) ∧
  (is_Some (widgetRegistry !! "code-editor") ∧
   (∀ layout, layout ∈ layout_list ops_dashboard →
      safe_rectangles (DashboardLayout.widgets layout) ∧
      rows_zero_based (DashboardLayout.widgets layout)) ∧
   ∃ new pointer,
     run ops_dashboard
       (λ l c, addWidget widgetRegistry l c (second 1) "code-editor" None None) =
       (Normal (), mkWorld (Dashboard.mk (Some new) pointer) []) ∧
     Forall2 (widget_added widgetRegistry (Dashboard.currentLayoutId ops_dashboard)
                (second 1) "code-editor" None None) (layout_list ops_dashboard) new).
Proof.
  assert (1 ≤ 2 ≤ 4) as Hw by lia.
  assert (safe_integer 2) as Hh by (unfold safe_integer; lia).
  assert (safe_rectangles [instance_at "a" 0 0 4 10]) as Hsafe.
  { constructor; [unfold safe_rectangle, safe_integer; simpl; lia|constructor]. }
  assert (rows_zero_based [instance_at "a" 0 0 4 10]) as Hrows.
  { constructor; [simpl; lia|constructor]. }
  assert (is_Some (widgetRegistry !! "code-editor")) as Hreg by (eexists; reflexivity).
  assert (∀ layout, layout ∈ layout_list ops_dashboard →
            safe_rectangles (DashboardLayout.widgets layout) ∧
            rows_zero_based (DashboardLayout.widgets layout)) as Hlayouts.
  { intros layout Hin. apply list_elem_of_singleton in Hin. rewrite Hin.
    split; constructor. }
  split.
  - split; [exact Hw|]. split; [exact Hh|]. split; [exact Hsafe|]. split; [exact Hrows|].
    exact (proj1 findAvailablePosition_total _ 2 2 Hw Hh Hsafe Hrows).
  - split; [exact Hreg|]. split; [exact Hlayouts|].
    exact (proj2 findAvailablePosition_total widgetRegistry ops_dashboard (second 1)
             "code-editor" None None Hreg Hlayouts).
Defined.

(** The scenario of the specification: in a layout "Ops" the status widget
    "Health" (1 by 1) goes to (0, 0), the chart "Perf" (2 by 1) to (1, 0),
    and removing "Health" leaves "Perf" where it is. *)
Example ops_scenario :
  let d1 := next first_visit (λ l c, createLayout l c (second 0) "Ops") in
  let d2 := next d1 (λ l c, addWidget widgetRegistry l c (second 1)
                              "status-widget" (Some "Health") None) in
  let d3 := next d2 (λ l c, addWidget widgetRegistry l c (second 2)
                              "analytics-chart" (Some "Perf") None) in
  let d4 := next d3 (λ l c, removeWidget l c (second 3)
                              "widget-status-widget-1700000001000") in
  d1 = ops_dashboard ∧
  (λ widget, (WidgetInstance.title widget, WidgetInstance.position widget))
    <$> (layout_list d3 ≫= DashboardLayout.widgets) =
    [("Health", Position.mk 0 0 1 1); ("Perf", Position.mk 1 0 2 1)] ∧
  (λ widget, (WidgetInstance.title widget, WidgetInstance.position widget))
    <$> (layout_list d4 ≫= DashboardLayout.widgets) =
    [("Perf", Position.mk 1 0 2 1)].
Proof. by vm_compute. Qed.

(** Three charts (2 by 1) added to an empty layout. *)
Example three_charts :
  WidgetInstance.position <$>
    (layout_list
       (addWidgets widgetRegistry
          ((λ n, mkCall (second n) "analytics-chart" None None) <$> range 1 4)
          ops_dashboard) ≫= DashboardLayout.widgets) =
  [Position.mk 0 0 2 1; Position.mk 2 0 2 1; Position.mk 0 1 2 1].
Proof. by vm_compute. Qed.

(** ** No overlap on insertion (C2) *)

Lemma placed_rows_zero_based widgets :
  placed_by_addWidget widgets → rows_zero_based widgets.
Proof.
  intros [Hall _]. unfold rows_zero_based. eapply Forall_impl; [exact Hall|].
  intros widget [(_ & Hy & _)|[_ Hy]]; [done|]. rewrite Hy. done.
Qed.

Lemma DEFAULT_WIDGET_DIMENSIONS_positive size :
  1 ≤ (DEFAULT_WIDGET_DIMENSIONS size).1 ∧ 1 ≤ (DEFAULT_WIDGET_DIMENSIONS size).2.
Proof. destruct size; simpl; lia. Qed.

(** Appending an instance at the position the placement returns keeps the
    invariant. *)
Lemma placed_by_addWidget_snoc widgets width height p widget :
  1 ≤ width → 1 ≤ height →
  placed_by_addWidget widgets →
  findAvailablePosition widgets width height = Normal p →
  WidgetInstance.position widget = p →
  placed_by_addWidget (widgets ++ [widget]).
Proof.
  intros Hw Hh Hinv Hrun Hp.
  pose proof (placed_rows_zero_based widgets Hinv) as Hrows.
  destruct Hinv as [Hall Hover].
  destruct (findAvailablePosition_spec widgets width height Hrows)
    as [(x & y & Hok & [Hy Hx] & Hfits & _)|[Hok Hnone]];
    rewrite Hok in Hrun; injection Hrun as <-.
  - (* placed inside the grid, on free cells *)
    split.
    + apply Forall_app. split; [done|]. constructor; [|constructor].
      left. rewrite Hp. unfold inside. simpl.
      destruct (Hfits y (x + width - 1)) as (_ & Hj & _); [lia..|].
      destruct (Hfits (y + height - 1) x) as (Hi & _ & _); [lia..|].
      lia.
    + intros a b wa wb Hab Ha Hb Hint.
      apply lookup_snoc_Some in Ha as [[Hla Ha]|[-> <-]];
        apply lookup_snoc_Some in Hb as [[Hlb Hb]|[-> <-]].
      * by apply (Hover a b).
      * exfalso. destruct Hint as (i & j & Hca & Hcb).
        rewrite Hp in Hcb. destruct Hcb as [Hi Hj]. simpl in Hi, Hj.
        destruct (Hfits i j Hi Hj) as (_ & _ & Hfree). apply Hfree.
        exists wa. split; [by eapply list_elem_of_lookup_2|done].
      * exfalso. destruct Hint as (i & j & Hca & Hcb).
        rewrite Hp in Hca. destruct Hca as [Hi Hj]. simpl in Hi, Hj.
        destruct (Hfits i j Hi Hj) as (_ & _ & Hfree). apply Hfree.
        exists wb. split; [by eapply list_elem_of_lookup_2|done].
      * done.
  - (* placed by the fallback *)
    assert (at_fallback (WidgetInstance.position widget)) as Hfb.
    { rewrite Hp. by split. }
    assert (∀ w0, w0 ∈ widgets →
              intersect (WidgetInstance.position w0) (WidgetInstance.position widget) →
              at_fallback (WidgetInstance.position w0)) as Hold.
    { intros w0 Hin (i & j & Hc0 & Hc).
      rewrite Forall_forall in Hall. destruct (Hall w0 Hin) as [Hinside|]; [|done].
      exfalso. rewrite Hp in Hc. unfold covers, inside in *. simpl in Hc. lia. }
    split.
    + apply Forall_app. split; [done|]. constructor; [|constructor]. by right.
    + intros a b wa wb Hab Ha Hb Hint.
      apply lookup_snoc_Some in Ha as [[Hla Ha]|[-> <-]];
        apply lookup_snoc_Some in Hb as [[Hlb Hb]|[-> <-]].
      * by apply (Hover a b).
      * split; [|done]. apply Hold; [by eapply list_elem_of_lookup_2|done].
      * split; [done|]. apply Hold; [by eapply list_elem_of_lookup_2|].
        destruct Hint as (i & j & ? & ?). by exists i, j.
      * done.
Qed.

Lemma widget_added_placed widgetRegistry active now widgetId title config layout layout' :
  widget_added widgetRegistry active now widgetId title config layout layout' →
  placed_by_addWidget (DashboardLayout.widgets layout) →
  placed_by_addWidget (DashboardLayout.widgets layout').
Proof.
  intros [[_ ->]|(_ & entry & p & _ & Hrun & ->)] Hinv; [done|]. simpl.
  destruct (DEFAULT_WIDGET_DIMENSIONS_positive (WidgetMetadata.defaultSize (metadata entry)))
    as [Hw Hh].
  eapply (placed_by_addWidget_snoc _ _ _ p _ Hw Hh Hinv Hrun). done.
Qed.

Lemma addWidget_placed widgetRegistry d now widgetId title config :
  (∀ layout, layout ∈ layout_list d →
     placed_by_addWidget (DashboardLayout.widgets layout)) →
  ∀ layout,
    layout ∈ layout_list
      (next d (λ l c, addWidget widgetRegistry l c now widgetId title config)) →
    placed_by_addWidget (DashboardLayout.widgets layout).
Proof.
  intros Hinv layout'. unfold next.
  destruct (addWidget_run widgetRegistry d now widgetId title config)
    as [(e & layout & -> & _)|(new & -> & Hnew)]; simpl.
  - apply Hinv.
  - unfold layout_list. simpl. intros [k Hk]%list_elem_of_lookup.
    destruct (Forall2_lookup_r _ _ _ _ _ Hnew Hk) as (layout & Hl & Hadded).
    eapply widget_added_placed; [done|]. apply Hinv. by eapply list_elem_of_lookup_2.
Qed.

(** C2, as stated, fails: the twelfth large widget added to an empty
    layout lands on the fallback position, where the eleventh already is. *)
Lemma addWidget_second_fallback_overlaps :
  ¬ (∀ widgetRegistry calls d,
       (∀ layout, layout ∈ layout_list d → DashboardLayout.widgets layout = []) →
       Forall (λ call, is_Some (widgetRegistry !! call_widgetId call)) calls →
       ∀ layout, layout ∈ layout_list (addWidgets widgetRegistry calls d) →
         no_overlap (DashboardLayout.widgets layout)).
Proof.
  intros H.
  specialize (H widgetRegistry twelve_code_editors ops_dashboard).
  assert (∃ layout wa wb,
    layout_list (addWidgets widgetRegistry twelve_code_editors ops_dashboard) = [layout] ∧
    DashboardLayout.widgets layout !! 10%nat = Some wa ∧
    DashboardLayout.widgets layout !! 11%nat = Some wb ∧
    WidgetInstance.position wa = Position.mk 0 10 2 2 ∧
    WidgetInstance.position wb = Position.mk 0 10 2 2) as (layout & wa & wb & Hl & Ha & Hb & Hpa & Hpb).
  { vm_compute. eexists _, _, _. repeat split. }
  apply (H ltac:(by intros layout' ->%list_elem_of_singleton)
           ltac:(by repeat constructor) layout ltac:(rewrite Hl; by left)
           10%nat 11%nat wa wb); [done..|].
  exists 10, 0. rewrite Hpa, Hpb. unfold covers. simpl. lia.
Qed.

(** C2 (amended): for every sequence of [addWidget] calls applied to
    layouts that are initially empty, after each call two instances of a
    layout intersect only if both sit at the fallback position (0, 10);
    instances placed within the 4 by 10 grid intersect no other
    instance. *)
Theorem addWidget_overlap_only_at_fallback widgetRegistry calls d :
  (∀ layout, layout ∈ layout_list d → DashboardLayout.widgets layout = []) →
  ∀ layout, layout ∈ layout_list (addWidgets widgetRegistry calls d) →
    overlap_only_at_fallback (DashboardLayout.widgets layout).
Proof.
  intros Hempty.
  assert (∀ layout, layout ∈ layout_list d →
            placed_by_addWidget (DashboardLayout.widgets layout)) as Hinv.
  { intros layout Hin. rewrite (Hempty layout Hin). split; [constructor|].
    intros a b wa wb _ Ha. by rewrite lookup_nil in Ha. }
  clear Hempty. unfold addWidgets. revert d Hinv.
  induction calls as [|call calls IH]; intros d Hinv layout Hin; simpl in Hin.
  - by apply Hinv.
  - eapply IH; [|exact Hin]. by apply addWidget_placed.
Qed.

Lemma addWidget_overlap_only_at_fallback_witness :
  (∀ layout, layout ∈ layout_list ops_dashboard → DashboardLayout.widgets layout = []) ∧
  ∀ layout,
    layout ∈ layout_list (addWidgets widgetRegistry twelve_code_editors ops_dashboard) →
    overlap_only_at_fallback (DashboardLayout.widgets layout).
Proof.
  assert (∀ layout, layout ∈ layout_list ops_dashboard →
            DashboardLayout.widgets layout = []) as Hempty.
  { intros layout Hin. apply list_elem_of_singleton in Hin. by rewrite Hin. }
  split; [exact Hempty|].
  exact (addWidget_overlap_only_at_fallback widgetRegistry twelve_code_editors
           ops_dashboard Hempty).
Defined.

(** ** Repair of the active-layout pointer (C4) *)

Lemma deleteLayout_next d layoutId :
  next d (λ l c, deleteLayout l c layoutId) =
  Dashboard.mk
    (Some (filter (λ layout, DashboardLayout.id layout ≠ layoutId) (layout_list d)))
    (match filter (λ layout, DashboardLayout.id layout ≠ layoutId) (layout_list d) with
     | first :: _ =>
         if decide (Some layoutId = Dashboard.currentLayoutId d)
         then Some (DashboardLayout.id first)
         else Dashboard.currentLayoutId d
     | [] => Some EmptyString
     end).
Proof.
  destruct d as [l cur].
  unfold next, run, deleteLayout, setLayouts, setCurrentLayoutId, layout_list.
  unfold_handler.
  cbn [Dashboard.layouts Dashboard.currentLayoutId].
  destruct (filter (λ layout, DashboardLayout.id layout ≠ layoutId) (default [] l))
    as [|first rest].
  - rewrite bool_decide_eq_false_2 by (simpl; intros [_ ?]; lia). done.
  - destruct (decide (Some layoutId = cur)) as [Heq|Hne].
    + rewrite bool_decide_eq_true_2 by (simpl; split; [done|lia]). done.
    + rewrite bool_decide_eq_false_2 by (intros [? _]; done). done.
Qed.

(** C4, as stated, fails: with no active layout (the pointer is the empty
    string), deleting the id [""], which no layout has, makes the first
    layout active. *)
Lemma deleteLayout_absent_id_moves_pointer :
  ¬ (∀ d layoutId,
       layout_list d ≠ [] →
       (∀ layout, layout ∈ layout_list d → DashboardLayout.id layout ≠ layoutId) →
       layout_list (next d (λ l c, deleteLayout l c layoutId)) = layout_list d ∧
       Dashboard.currentLayoutId (next d (λ l c, deleteLayout l c layoutId)) =
         Dashboard.currentLayoutId d).
Proof.
  intros H.
  destruct (H (Dashboard.mk (Some [ops_layout]) (Some EmptyString)) EmptyString)
    as [_ Hpointer].
  - done.
  - intros layout ->%list_elem_of_singleton. done.
  - vm_compute in Hpointer. discriminate.
Qed.

(** C4 (amended): [deleteLayout] repairs the pointer. Deleting the active
    layout while another layout remains makes the first remaining layout
    active; deleting the last remaining layout sets the pointer to the empty
    string; deleting an id that no layout of a non-empty list has, and that
    is not the value of the pointer, changes neither the list nor the
    pointer. *)
Theorem deleteLayout_repairs_pointer d layoutId :
  let remaining := filter (λ layout, DashboardLayout.id layout ≠ layoutId) (layout_list d) in
  let d' := next d (λ l c, deleteLayout l c layoutId) in
  layout_list d' = remaining ∧
  (∀ first rest, Dashboard.currentLayoutId d = Some layoutId →
     remaining = first :: rest →
     Dashboard.currentLayoutId d' = Some (DashboardLayout.id first)) ∧
  (remaining = [] → Dashboard.currentLayoutId d' = Some EmptyString) ∧
  (layout_list d ≠ [] →
   (∀ layout, layout ∈ layout_list d → DashboardLayout.id layout ≠ layoutId) →
   Dashboard.currentLayoutId d ≠ Some layoutId →
   layout_list d' = layout_list d ∧
   Dashboard.currentLayoutId d' = Dashboard.currentLayoutId d).
Proof.
  intros remaining d'. subst d'. rewrite deleteLayout_next. fold remaining.
  cbn [Dashboard.layouts Dashboard.currentLayoutId layout_list default].
  split; [done|]. split; [|split].
  - intros first rest Hcur ->. by rewrite decide_True.
  - by intros ->.
  - intros Hne Habsent Hcur.
    assert (remaining = layout_list d) as Hsame.
    { subst remaining. induction (layout_list d) as [|layout l IH]; [done|].
      rewrite filter_cons_True by (apply Habsent; by left).
      f_equal. destruct l as [|layout' l]; [done|].
      apply IH; [done|]. intros layout0 Hin. apply Habsent. by right. }
    rewrite Hsame. split; [done|].
    destruct (layout_list d) as [|first rest]; [done|].
    by rewrite decide_False.
Qed.

Lemma deleteLayout_repairs_pointer_witness :
  let d := Dashboard.mk (Some [ops_layout; perf_layout]) (Some "layout-1700000000000") in
  Dashboard.currentLayoutId d = Some "layout-1700000000000" ∧
  filter (λ layout, DashboardLayout.id layout ≠ "layout-1700000000000") (layout_list d) =
    [perf_layout] ∧
  Dashboard.currentLayoutId (next d (λ l c, deleteLayout l c "layout-1700000000000")) =
    Some (DashboardLayout.id perf_layout).
Proof.
  intros d.
  assert (Dashboard.currentLayoutId d = Some "layout-1700000000000") as Hcur
    by reflexivity.
  assert (filter (λ layout, DashboardLayout.id layout ≠ "layout-1700000000000")
            (layout_list d) = [perf_layout]) as Hrem by reflexivity.
  split; [exact Hcur|]. split; [exact Hrem|].
  exact (proj1 (proj2 (deleteLayout_repairs_pointer d "layout-1700000000000"))
           perf_layout [] Hcur Hrem).
Defined.

(** ** [addWidget] without a current layout, or with an unknown id (C5, C6) *)

Lemma currentLayout_Some layouts currentLayoutId layout :
  currentLayout layouts currentLayoutId = Some layout →
  layout ∈ default [] layouts ∧ Some (DashboardLayout.id layout) = currentLayoutId.
Proof.
  unfold currentLayout. destruct layouts as [l|]; simpl; [|done].
  intros [Hin Hid]%find_some. split; [by apply list_elem_of_In|].
  by apply bool_decide_eq_true in Hid.
Qed.

(** Without a current layout the list is written back as it was and the
    pointer is set to the id of the layout [createLayout] made. *)
Lemma addWidget_without_current_layout widgetRegistry d now widgetId title config :
  currentLayout (Dashboard.layouts d) (Dashboard.currentLayoutId d) = None →
  run d (λ l c, addWidget widgetRegistry l c now widgetId title config) =
    (Normal (),
     mkWorld (Dashboard.mk (Some (layout_list d))
                (Some ("layout-" +:+ pretty (ms now)))) []).
Proof.
  intros Hnone.
  destruct (addWidget_run widgetRegistry d now widgetId title config)
    as [(e & layout & _ & Hin & Hid & _)|(new & -> & Hnew)].
  - by destruct (currentLayout_None _ _ layout Hnone Hin).
  - rewrite Hnone. do 3 f_equal.
    assert (Forall2 eq (layout_list d) new) as Heq.
    { apply Forall2_same_length_lookup. split; [by eapply Forall2_length|].
      intros k layout layout' Hl Hl'.
      destruct (Forall2_lookup_lr _ _ _ _ _ _ Hnew Hl Hl') as [[_ ->]|[Hid _]]; [done|].
      destruct (currentLayout_None _ _ layout Hnone); [|done].
      by eapply list_elem_of_lookup_2. }
    apply list_eq_Forall2 in Heq. by rewrite Heq.
Qed.

(** C5: the code at the failing input. For an id that is not a key of the
    registry, [addWidget] completes normally: nothing reaches the caller.
    With a current layout the [Error] thrown in the update function is
    caught by [setValue] and only logged, the state being unchanged.
    Without a current layout the id is never looked up: nothing is thrown
    or logged, and the pointer is set to the id of a layout that is not in
    the list. *)
Theorem addWidget_unknown_id_not_surfaced widgetRegistry d now widgetId title config :
  widgetRegistry !! widgetId = None →
  ∃ d' log,
    run d (λ l c, addWidget widgetRegistry l c now widgetId title config) =
      (Normal (), mkWorld d' log) ∧
    (is_Some (currentLayout (Dashboard.layouts d) (Dashboard.currentLayoutId d)) →
     d' = d ∧
     log = [ConsoleError "Error setting localStorage key" "dashboard-layouts"
              (Error ("Widget with ID " +:+ widgetId +:+ " not found in registry"))]) ∧
    (currentLayout (Dashboard.layouts d) (Dashboard.currentLayoutId d) = None →
     d' = Dashboard.mk (Some (layout_list d)) (Some ("layout-" +:+ pretty (ms now))) ∧
     log = []).
Proof.
  intros Hunknown.
  destruct (currentLayout (Dashboard.layouts d) (Dashboard.currentLayoutId d))
    as [current|] eqn:Hcurrent.
  - destruct (addWidget_run widgetRegistry d now widgetId title config)
      as [(e & layout & -> & _ & _ & Hthrows)|(new & _ & Hnew)].
    + destruct Hthrows as [[_ ->]|(entry & Hentry & _)]; [|congruence].
      eexists _, _. split; [done|]. split; [done|]. done.
    + exfalso. apply currentLayout_Some in Hcurrent as [Hin Hid].
      apply list_elem_of_lookup in Hin as [k Hk].
      destruct (Forall2_lookup_l _ _ _ _ _ Hnew Hk)
        as (layout' & _ & [[? _]|(_ & entry & _ & Hentry & _)]); congruence.
  - rewrite (addWidget_without_current_layout _ _ _ _ _ _ Hcurrent).
    eexists _, _. split; [done|]. split; [by intros [? ?]|done].
Qed.

Lemma addWidget_unknown_id_not_surfaced_witness :
  widgetRegistry !! "no-such-widget" = None ∧
  is_Some (currentLayout (Dashboard.layouts ops_dashboard)
             (Dashboard.currentLayoutId ops_dashboard)) ∧
  run ops_dashboard
    (λ l c, addWidget widgetRegistry l c (second 1) "no-such-widget" None None) =
    (Normal (),
     mkWorld ops_dashboard
       [ConsoleError "Error setting localStorage key" "dashboard-layouts"
          (Error "Widget with ID no-such-widget not found in registry")]).
Proof.
  assert (widgetRegistry !! "no-such-widget" = None) as Hunknown by reflexivity.
  assert (is_Some (currentLayout (Dashboard.layouts ops_dashboard)
                     (Dashboard.currentLayoutId ops_dashboard))) as Hcurrent.
  { exists ops_layout. reflexivity. }
  split; [exact Hunknown|]. split; [exact Hcurrent|].
  destruct (addWidget_unknown_id_not_surfaced widgetRegistry ops_dashboard (second 1)
              "no-such-widget" None None Hunknown) as (d' & log & Hrun & Hactive & _).
  destruct (Hactive Hcurrent) as [Hd Hlog].
  rewrite Hrun, Hd, Hlog. reflexivity.
Defined.

(** C6: the code at the failing input. When no layout of the list is the
    current one, [addWidget] completes normally, leaves the layout list as
    it was and sets the pointer to the id of the "Default Layout" it
    created: the update that appended that layout is overwritten by the
    update that maps over the list of the render, so no layout named
    "Default Layout" is in the list and the widget is in no layout. *)
Theorem addWidget_default_layout_lost widgetRegistry d now widgetId title config :
  currentLayout (Dashboard.layouts d) (Dashboard.currentLayoutId d) = None →
  let d' := next d (λ l c, addWidget widgetRegistry l c now widgetId title config) in
  layout_list d' = layout_list d ∧
  Dashboard.currentLayoutId d' = Some ("layout-" +:+ pretty (ms now)) ∧
  currentLayout (Dashboard.layouts d') (Dashboard.currentLayoutId d') =
    find (λ layout, bool_decide (DashboardLayout.id layout = "layout-" +:+ pretty (ms now)))
      (layout_list d).
Proof.
  intros Hnone d'. subst d'. unfold next.
  rewrite (addWidget_without_current_layout _ _ _ _ _ _ Hnone). simpl.
  split; [done|]. split; [done|].
  induction (layout_list d) as [|layout l IH]; [done|]. simpl.
  destruct (decide (DashboardLayout.id layout = "layout-" +:+ pretty (ms now))) as [Heq|Hne].
  - by rewrite !bool_decide_eq_true_2 by congruence.
  - by rewrite !bool_decide_eq_false_2 by congruence.
Qed.

Lemma addWidget_default_layout_lost_witness :
  currentLayout (Dashboard.layouts first_visit) (Dashboard.currentLayoutId first_visit)
    = None ∧
  let d' := next first_visit
              (λ l c, addWidget widgetRegistry l c (second 1) "status-widget"
                        (Some "Health") None) in
  layout_list d' = [] ∧
  Dashboard.currentLayoutId d' = Some "layout-1700000001000" ∧
  currentLayout (Dashboard.layouts d') (Dashboard.currentLayoutId d') = None.
Proof.
  assert (currentLayout (Dashboard.layouts first_visit)
            (Dashboard.currentLayoutId first_visit) = None) as Hnone by reflexivity.
  split; [exact Hnone|].
  exact (addWidget_default_layout_lost widgetRegistry first_visit (second 1)
           "status-widget" (Some "Health") None Hnone).
Defined.

(** ** Removal twice (C7) *)

Lemma removeWidget_next d now instanceId :
  next d (λ l c, removeWidget l c now instanceId) =
  mapCurrentLayout d now (filter (λ widget, WidgetInstance.id widget ≠ instanceId)).
Proof. by destruct d. Qed.

Lemma updateWidget_next d now instanceId updates :
  next d (λ l c, updateWidget l c now instanceId updates) =
  mapCurrentLayout d now
    (fmap (λ widget,
       if bool_decide (WidgetInstance.id widget ≠ instanceId) then widget
       else spread widget updates)).
Proof. by destruct d. Qed.

Lemma updateWidgetPositions_next d now updates :
  next d (λ l c, updateWidgetPositions l c now updates) =
  mapCurrentLayout d now
    (fmap (λ widget,
       match find (λ u, bool_decide (fst u = WidgetInstance.id widget)) updates with
       | None => widget
       | Some update =>
           WidgetInstance.mk (WidgetInstance.id widget)
             (WidgetInstance.widgetId widget) (WidgetInstance.title widget)
             (snd update) (WidgetInstance.size widget)
             (WidgetInstance.config widget)
       end)).
Proof. by destruct d. Qed.

(** C7, as stated, fails: the second call stamps the current layout with
    the time of the second call. *)
Lemma removeWidget_twice_restamps :
  ¬ (∀ d t1 t2 instanceId,
       next (next d (λ l c, removeWidget l c t1 instanceId))
            (λ l c, removeWidget l c t2 instanceId) =
       next d (λ l c, removeWidget l c t1 instanceId)).
Proof.
  intros H. specialize (H ops_dashboard (second 1) (second 2) "widget-status-widget-1").
  vm_compute in H. discriminate.
Qed.

(** C7 (amended): calling [removeWidget id] twice in succession yields the
    same layouts (ids, names, widgets, creation times) and the same pointer
    as calling it once. Only [updatedAt] of the current layout is set again:
    the state after the two calls is the state one call made at the time of
    the second call yields, whether a render separates the two calls or one
    handler makes both. *)
Theorem removeWidget_idempotent_up_to_updatedAt d t1 t2 instanceId :
  let once := next d (λ l c, removeWidget l c t1 instanceId) in
  let twice := next once (λ l c, removeWidget l c t2 instanceId) in
  twice = next d (λ l c, removeWidget l c t2 instanceId) ∧
  Dashboard.currentLayoutId twice = Dashboard.currentLayoutId once ∧
  without_updatedAt <$> layout_list twice = without_updatedAt <$> layout_list once ∧
  next d (λ l c, removeWidget l c t1 instanceId;; removeWidget l c t2 instanceId) =
    next d (λ l c, removeWidget l c t2 instanceId).
Proof.
  intros once twice. subst twice once.
  split; [|split; [|split; [|by destruct d]]];
    rewrite !removeWidget_next; unfold mapCurrentLayout;
    cbn [Dashboard.currentLayoutId Dashboard.layouts layout_list from_option];
    unfold id; [| done |].
  - f_equal. f_equal. rewrite <- list_fmap_compose. apply list_fmap_ext.
    intros _ layout _. simpl.
    destruct (bool_decide (Some (DashboardLayout.id layout) ≠ Dashboard.currentLayoutId d))
      eqn:Hid; simpl; rewrite Hid; [done|].
    unfold with_widgets. simpl. by rewrite list_filter_filter_l.
  - rewrite <- !list_fmap_compose. apply list_fmap_ext.
    intros _ layout _. simpl.
    destruct (bool_decide (Some (DashboardLayout.id layout) ≠ Dashboard.currentLayoutId d))
      eqn:Hid; simpl; rewrite Hid; [done|].
    unfold without_updatedAt, with_widgets. simpl. by rewrite list_filter_filter_l.
Qed.

(** ** Frame of the widget-level operations (C10) *)

Lemma layout_list_mk l pointer : layout_list (Dashboard.mk (Some l) pointer) = l.
Proof. done. Qed.

Lemma other_layouts_unchanged_refl active d : other_layouts_unchanged active d d.
Proof. by split. Qed.

Lemma mapCurrentLayout_frame d now f :
  let d' := mapCurrentLayout d now f in
  other_layouts_unchanged (Dashboard.currentLayoutId d) d d' ∧
  Dashboard.currentLayoutId d' = Dashboard.currentLayoutId d.
Proof.
  intros d'. subst d'. unfold mapCurrentLayout. split; [|done].
  unfold other_layouts_unchanged. rewrite layout_list_mk. split.
  - by rewrite length_fmap.
  - intros k layout Hk Hid. rewrite list_lookup_fmap, Hk. simpl.
    by rewrite bool_decide_eq_true_2.
Qed.

Lemma addWidget_frame widgetRegistry d now widgetId title config :
  let d' := next d (λ l c, addWidget widgetRegistry l c now widgetId title config) in
  other_layouts_unchanged (Dashboard.currentLayoutId d) d d' ∧
  (is_Some (currentLayout (Dashboard.layouts d) (Dashboard.currentLayoutId d)) →
   Dashboard.currentLayoutId d' = Dashboard.currentLayoutId d).
Proof.
  intros d'. subst d'. unfold next.
  destruct (addWidget_run widgetRegistry d now widgetId title config)
    as [(e & layout & -> & _)|(new & -> & Hnew)]; simpl.
  - split; [apply other_layouts_unchanged_refl|done].
  - split.
    + unfold other_layouts_unchanged. rewrite layout_list_mk. split.
      * symmetry. by eapply Forall2_length.
      * intros k layout Hk Hid.
        destruct (Forall2_lookup_l _ _ _ _ _ Hnew Hk) as (layout' & -> & [[_ ->]|[? _]]);
          done.
    + intros [current ->]. done.
Qed.

(** C10, as stated, fails: without a current layout [addWidget] moves the
    pointer to the layout it creates. *)
Lemma addWidget_moves_pointer :
  ¬ (∀ widgetRegistry d now widgetId title config,
       Dashboard.currentLayoutId
         (next d (λ l c, addWidget widgetRegistry l c now widgetId title config)) =
       Dashboard.currentLayoutId d).
Proof.
  intros H.
  specialize (H widgetRegistry first_visit (second 1) "status-widget" None None).
  vm_compute in H. discriminate.
Qed.

(** C10 (amended): frame of the widget-level operations. [addWidget],
    [removeWidget], [updateWidget] and [updateWidgetPositions] leave every
    layout whose id differs from the active-layout id unchanged;
    [removeWidget], [updateWidget] and [updateWidgetPositions] never change
    the pointer, and [addWidget] does not change it when a layout of the
    list is the current one. *)
Theorem widget_operations_frame d now :
  (∀ widgetRegistry widgetId title config,
     let d' := next d (λ l c, addWidget widgetRegistry l c now widgetId title config) in
     other_layouts_unchanged (Dashboard.currentLayoutId d) d d' ∧
     (is_Some (currentLayout (Dashboard.layouts d) (Dashboard.currentLayoutId d)) →
      Dashboard.currentLayoutId d' = Dashboard.currentLayoutId d)) ∧
  (∀ instanceId,
     let d' := next d (λ l c, removeWidget l c now instanceId) in
     other_layouts_unchanged (Dashboard.currentLayoutId d) d d' ∧
     Dashboard.currentLayoutId d' = Dashboard.currentLayoutId d) ∧
  (∀ instanceId updates,
     let d' := next d (λ l c, updateWidget l c now instanceId updates) in
     other_layouts_unchanged (Dashboard.currentLayoutId d) d d' ∧
     Dashboard.currentLayoutId d' = Dashboard.currentLayoutId d) ∧
  (∀ updates,
     let d' := next d (λ l c, updateWidgetPositions l c now updates) in
     other_layouts_unchanged (Dashboard.currentLayoutId d) d d' ∧
     Dashboard.currentLayoutId d' = Dashboard.currentLayoutId d).
Proof.
  split; [intros; apply addWidget_frame|].
  split; [|split]; intros; subst d'.
  - rewrite removeWidget_next. apply mapCurrentLayout_frame.
  - rewrite updateWidget_next. apply mapCurrentLayout_frame.
  - rewrite updateWidgetPositions_next. apply mapCurrentLayout_frame.
Qed.

Lemma widget_operations_frame_witness :
  is_Some (currentLayout (Dashboard.layouts ops_dashboard)
             (Dashboard.currentLayoutId ops_dashboard)) ∧
  Dashboard.currentLayoutId
    (next ops_dashboard
       (λ l c, addWidget widgetRegistry l c (second 1) "status-widget" None None)) =
  Dashboard.currentLayoutId ops_dashboard.
Proof.
  assert (is_Some (currentLayout (Dashboard.layouts ops_dashboard)
                     (Dashboard.currentLayoutId ops_dashboard))) as Hcur.
  { exists ops_layout. reflexivity. }
  split; [exact Hcur|].
  exact (proj2 (proj1 (widget_operations_frame ops_dashboard (second 1))
                  widgetRegistry "status-widget" None None) Hcur).
Defined.

(** ** The storage read fails soft (C8) *)

(** C8: [getStoredValue] fails soft. Reading a key that was never written
    returns the caller's default and changes nothing; when the stored text
    fails deserialization the error is logged and the default is returned;
    in no case does the call throw. *)
Theorem getStoredValue_fails_soft {S T} (storage : gmap string string) (key : string)
    (parseJson : bool) (defaultValue : option T)
    (deserializer : string → completion T) (raw : string → T) (σ : World S) :
  (storage !! key = None →
   getStoredValue storage key parseJson defaultValue deserializer raw σ =
     (Normal defaultValue, σ)) ∧
  (∀ item error, storage !! key = Some item → parseJson = true →
     deserializer item = Throw error →
     (getStoredValue storage key parseJson defaultValue deserializer raw σ).1 =
       Normal defaultValue) ∧
  (∃ value,
     (getStoredValue storage key parseJson defaultValue deserializer raw σ).1 =
       Normal value).
Proof.
  unfold getStoredValue. unfold_handler.
  split; [|split].
  - by intros ->.
  - intros item error -> -> Hthrow. case_bool_decide; [|done]. by rewrite Hthrow.
  - destruct (storage !! key) as [item|]; [|by eexists].
    case_bool_decide; [|by eexists].
    destruct parseJson; [|by eexists].
    destruct (deserializer item); by eexists.
Qed.

Lemma getStoredValue_fails_soft_witness :
  let storage : gmap string string := {[ "dashboard-layouts" := "[{oops" ]} in
  let deserializer : string → completion (list DashboardLayout.t) :=
    λ _, Throw (SyntaxError "Unexpected token o in JSON at position 2") in
  storage !! "dashboard-layouts" = Some "[{oops" ∧
  storage !! "current-dashboard-layout" = None ∧
  (getStoredValue (S := ()) storage "dashboard-layouts" true (Some []) deserializer
     (λ _, []) (mkWorld () [])).1 = Normal (Some []) ∧
  getStoredValue (S := ()) storage "current-dashboard-layout" true (Some [])
    deserializer (λ _, []) (mkWorld () []) = (Normal (Some []), mkWorld () []).
Proof.
  intros storage deserializer.
  assert (storage !! "dashboard-layouts" = Some "[{oops") as Hstored by reflexivity.
  assert (storage !! "current-dashboard-layout" = None) as Habsent by reflexivity.
  split; [exact Hstored|]. split; [exact Habsent|]. split.
  - exact (proj1 (proj2 (getStoredValue_fails_soft storage "dashboard-layouts" true
             (Some []) deserializer (λ _, []) (mkWorld () [])))
             "[{oops" _ Hstored eq_refl eq_refl).
  - exact (proj1 (getStoredValue_fails_soft storage "current-dashboard-layout" true
             (Some []) deserializer (λ _, []) (mkWorld () [])) Habsent).
Defined.

(** ** Configuration updates (C9) *)

Lemma updateConfig_object widgetRegistry widgetId instanceId initialConfig configData
    now update :
  useWidgetConfig.config widgetRegistry widgetId initialConfig
    (after configData (λ stored,
       useWidgetConfig.updateConfig widgetRegistry widgetId instanceId initialConfig
         stored now (inl update))) = update.
Proof. by destruct configData. Qed.

Lemma updateConfig_function widgetRegistry widgetId instanceId initialConfig configData
    now f c :
  f (useWidgetConfig.config widgetRegistry widgetId initialConfig configData) = Normal c →
  useWidgetConfig.config widgetRegistry widgetId initialConfig
    (after configData (λ stored,
       useWidgetConfig.updateConfig widgetRegistry widgetId instanceId initialConfig
         stored now (inr f))) = c.
Proof.
  unfold after, useWidgetConfig.updateConfig, useWidgetConfig.setConfigData,
    useWidgetConfig.config.
  unfold_handler.
  destruct configData as [stored|]; intros ->; done.
Qed.

(** C9, as stated, fails: an update given as an object replaces the
    settings, so a field the update does not mention is gone. *)
Lemma updateConfig_object_drops_fields :
  ¬ (∀ widgetRegistry widgetId instanceId initialConfig configData now
       (update : gmap string any) key,
       let configData' :=
         after configData (λ stored,
           useWidgetConfig.updateConfig widgetRegistry widgetId instanceId
             initialConfig stored now (inl update)) in
       (∀ value, update !! key = Some value →
          useWidgetConfig.config widgetRegistry widgetId initialConfig configData' !! key
          = Some value) ∧
       (update !! key = None →
          useWidgetConfig.config widgetRegistry widgetId initialConfig configData' !! key
          = useWidgetConfig.config widgetRegistry widgetId initialConfig configData !! key)).
Proof.
  intros H.
  destruct (H widgetRegistry "analytics-chart" "widget-analytics-chart-1700000001000"
              None (Some chart_configData) (second 2)
              {[ "chartType" := JString "line" ]} "showLegend") as [_ Hkept].
  rewrite updateConfig_object in Hkept.
  specialize (Hkept eq_refl). vm_compute in Hkept. discriminate.
Qed.

(** C9 (amended): [updateConfig] followed by reading [config]. Given a
    configuration object, [config] is exactly that object: the updated
    fields are reflected and every field the update does not mention is
    dropped (the whole settings object is replaced). Given a function,
    [config] is what the function returns for the previous configuration;
    this is how [setConfigProperty] updates one field and preserves every
    other one. *)
Theorem updateConfig_then_config widgetRegistry widgetId instanceId initialConfig
    configData now :
  let config := useWidgetConfig.config widgetRegistry widgetId initialConfig in
  (∀ update,
     config (after configData (λ stored,
       useWidgetConfig.updateConfig widgetRegistry widgetId instanceId initialConfig
         stored now (inl update))) = update) ∧
  (∀ f c, f (config configData) = Normal c →
     config (after configData (λ stored,
       useWidgetConfig.updateConfig widgetRegistry widgetId instanceId initialConfig
         stored now (inr f))) = c) ∧
  (∀ property value,
     let config' :=
       config (after configData (λ stored,
         useWidgetConfig.setConfigProperty widgetRegistry widgetId instanceId
           initialConfig stored now property value)) in
     config' !! property = Some value ∧
     ∀ key, key ≠ property → config' !! key = config configData !! key).
Proof.
  intros config. subst config. split; [|split].
  - intros update. apply updateConfig_object.
  - intros f c. apply updateConfig_function.
  - intros property value. unfold useWidgetConfig.setConfigProperty.
    rewrite (updateConfig_function _ _ _ _ _ _
               (λ currentConfig, Normal (<[property := value]> currentConfig)) _ eq_refl).
    split.
    + apply lookup_insert_eq.
    + intros key Hkey. by apply lookup_insert_ne.
Qed.

Lemma updateConfig_then_config_witness :
  let f : gmap string any → completion (gmap string any) :=
    λ currentConfig, Normal (<["chartType" := JString "line"]> currentConfig) in
  f (useWidgetConfig.config widgetRegistry "analytics-chart" None (Some chart_configData)) =
    Normal (<["chartType" := JString "line"]> (settings chart_configData)) ∧
  useWidgetConfig.config widgetRegistry "analytics-chart" None
    (after (Some chart_configData) (λ stored,
       useWidgetConfig.updateConfig widgetRegistry "analytics-chart"
         "widget-analytics-chart-1700000001000" None stored (second 2) (inr f))) =
  <["chartType" := JString "line"]> (settings chart_configData).
Proof.
  intros f.
  assert (f (useWidgetConfig.config widgetRegistry "analytics-chart" None
               (Some chart_configData)) =
          Normal (<["chartType" := JString "line"]> (settings chart_configData))) as Hf
    by reflexivity.
  split; [exact Hf|].
  exact (proj1 (proj2 (updateConfig_then_config widgetRegistry "analytics-chart"
           "widget-analytics-chart-1700000001000" None (Some chart_configData) (second 2)))
           f _ Hf).
Defined.

(** * Further properties of the provider *)

(** ** [switchLayout] *)

Lemma some_layout_with_id layouts layoutId :
  default false
    (existsb (λ layout, bool_decide (DashboardLayout.id layout = layoutId)) <$> layouts)
  = true ↔
  ∃ layout, layout ∈ default [] layouts ∧ DashboardLayout.id layout = layoutId.
Proof.
  destruct layouts as [l|]; simpl.
  - rewrite existsb_exists. split.
    + intros (layout & Hin & Hid). exists layout.
      split; [by apply list_elem_of_In|]. by apply bool_decide_eq_true in Hid.
    + intros (layout & Hin & Hid). exists layout.
      split; [by apply list_elem_of_In|]. by apply bool_decide_eq_true.
  - split; [done|]. intros (layout & Hin & _). by apply elem_of_nil in Hin.
Qed.

Lemma currentLayout_is_Some layouts currentLayoutId layout :
  layout ∈ default [] layouts →
  Some (DashboardLayout.id layout) = currentLayoutId →
  ∃ current, currentLayout layouts currentLayoutId = Some current ∧
    Some (DashboardLayout.id current) = currentLayoutId.
Proof.
  intros Hin Hid.
  destruct (currentLayout layouts currentLayoutId) as [current|] eqn:Hcurrent.
  - exists current. split; [done|]. by apply currentLayout_Some in Hcurrent as [_ ?].
  - by destruct (currentLayout_None _ _ layout Hcurrent Hin).
Qed.

(** [switchLayout] moves the pointer to an id that a layout of the list
    has, and that layout (the first with the id) is then the current one;
    for any other id, and while the list is still [undefined], it leaves the
    stored values alone and sets [error] to "Layout with ID ... not found".
    It never clears an [error] set earlier, and never touches [widgets] or
    [isLoading]. *)
Theorem switchLayout_moves_pointer_or_sets_error p layoutId :
  let d := Provider.dashboard p in
  let p' := next_provider p (λ l c, switchLayout l c layoutId) in
  Provider.widgets p' = Provider.widgets p ∧
  Provider.isLoading p' = Provider.isLoading p ∧
  ((∃ layout, layout ∈ layout_list d ∧ DashboardLayout.id layout = layoutId) →
   Provider.dashboard p' = Dashboard.mk (Dashboard.layouts d) (Some layoutId) ∧
   Provider.error p' = Provider.error p ∧
   ∃ current,
     currentLayout (Dashboard.layouts d) (Some layoutId) = Some current ∧
     DashboardLayout.id current = layoutId) ∧
  ((∀ layout, layout ∈ layout_list d → DashboardLayout.id layout ≠ layoutId) →
   Provider.dashboard p' = d ∧
   Provider.error p' = Some (Error ("Layout with ID " +:+ layoutId +:+ " not found"))).
Proof.
  intros d p'. subst d p'. destruct p as [[l cur] ws loading err].
  unfold next_provider, switchLayout, layout_list.
  cbn [Provider.dashboard Dashboard.layouts Dashboard.currentLayoutId].
  destruct (default false
              (existsb (λ layout, bool_decide (DashboardLayout.id layout = layoutId)) <$> l))
    eqn:Hsome.
  - split; [done|]. split; [done|]. split.
    + intros (layout & Hin & Hid). split; [done|]. split; [done|].
      destruct (currentLayout_is_Some l (Some layoutId) layout Hin) as (current & ? & Hc);
        [by rewrite Hid|].
      exists current. split; [done|]. congruence.
    + intros Habsent. apply some_layout_with_id in Hsome as (layout & Hin & Hid).
      by destruct (Habsent layout Hin).
  - split; [done|]. split; [done|]. split.
    + intros Hpresent. apply some_layout_with_id in Hpresent. congruence.
    + done.
Qed.

Lemma switchLayout_moves_pointer_or_sets_error_witness :
  let p := mount (Dashboard.mk (Some [ops_layout; perf_layout])
                    (Some "layout-1700000000000")) in
  (∃ layout, layout ∈ layout_list (Provider.dashboard p) ∧
     DashboardLayout.id layout = "layout-1700000001000") ∧
  (∀ layout, layout ∈ layout_list (Provider.dashboard p) →
     DashboardLayout.id layout ≠ "layout-0") ∧
  Provider.dashboard (next_provider p (λ l c, switchLayout l c "layout-1700000001000")) =
    Dashboard.mk (Some [ops_layout; perf_layout]) (Some "layout-1700000001000") ∧
  Provider.error (next_provider p (λ l c, switchLayout l c "layout-0")) =
    Some (Error "Layout with ID layout-0 not found").
Proof.
  intros p.
  assert (∃ layout, layout ∈ layout_list (Provider.dashboard p) ∧
            DashboardLayout.id layout = "layout-1700000001000") as Hpresent.
  { exists perf_layout. split; [|reflexivity]. right. left. }
  assert (∀ layout, layout ∈ layout_list (Provider.dashboard p) →
            DashboardLayout.id layout ≠ "layout-0") as Habsent.
  { intros layout Hin.
    apply elem_of_cons in Hin as [->|Hin]; [done|].
    apply list_elem_of_singleton in Hin as ->. done. }
  split; [exact Hpresent|]. split; [exact Habsent|]. split.
  - exact (proj1 (proj1 (proj2 (proj2
      (switchLayout_moves_pointer_or_sets_error p "layout-1700000001000"))) Hpresent)).
  - exact (proj2 (proj2 (proj2 (proj2
      (switchLayout_moves_pointer_or_sets_error p "layout-0"))) Habsent)).
Defined.

(** ** [createLayout] *)

Lemma createLayout_run d now name :
  run d (λ l c, createLayout l c now name) =
  (Normal (newLayout_at now name),
   mkWorld (Dashboard.mk (Some (layout_list d ++ [newLayout_at now name]))
              (Some (DashboardLayout.id (newLayout_at now name)))) []).
Proof. by destruct d. Qed.

Lemma createLayout_next d now name :
  next d (λ l c, createLayout l c now name) =
  Dashboard.mk (Some (layout_list d ++ [newLayout_at now name]))
    (Some (DashboardLayout.id (newLayout_at now name))).
Proof. unfold next. by rewrite createLayout_run. Qed.

Lemma currentLayout_find l id :
  currentLayout (Some l) (Some id) =
  find (λ layout, bool_decide (DashboardLayout.id layout = id)) l.
Proof.
  unfold currentLayout. cbn [mbind option_bind].
  induction l as [|layout l IH]; [done|]. cbn [find]. rewrite IH.
  destruct (decide (DashboardLayout.id layout = id)).
  - by rewrite !bool_decide_eq_true_2 by congruence.
  - by rewrite !bool_decide_eq_false_2 by congruence.
Qed.

Lemma find_layout_app (f : DashboardLayout.t → bool) l1 l2 :
  find f (l1 ++ l2) = match find f l1 with Some a => Some a | None => find f l2 end.
Proof. induction l1 as [|a l1 IH]; simpl; [done|]. by destruct (f a). Qed.

Lemma filter_fresh_id d id :
  fresh_id d id →
  filter (λ layout, DashboardLayout.id layout ≠ id) (layout_list d) = layout_list d.
Proof.
  unfold fresh_id. induction (layout_list d) as [|layout l IH]; intros Hfresh; [done|].
  rewrite filter_cons_True by (apply Hfresh; by left).
  f_equal. apply IH. intros layout' Hin. apply Hfresh. by right.
Qed.

(** [createLayout] returns the new, empty layout, appends it to the list
    and points to its id. The layout that is current afterwards is the
    first one with that id: the new layout when its id is fresh, an older
    layout when a layout made in the same millisecond already has the id. *)
Theorem createLayout_current_layout d now name :
  let new := newLayout_at now name in
  let d' := next d (λ l c, createLayout l c now name) in
  (run d (λ l c, createLayout l c now name)).1 = Normal new ∧
  layout_list d' = layout_list d ++ [new] ∧
  Dashboard.currentLayoutId d' = Some (DashboardLayout.id new) ∧
  currentLayout (Dashboard.layouts d') (Dashboard.currentLayoutId d') =
    match find (λ layout, bool_decide (DashboardLayout.id layout = DashboardLayout.id new))
            (layout_list d) with
    | Some older => Some older
    | None => Some new
    end ∧
  (fresh_id d (DashboardLayout.id new) →
   currentLayout (Dashboard.layouts d') (Dashboard.currentLayoutId d') = Some new).
Proof.
  intros new d'. subst new d'. unfold next. rewrite createLayout_run.
  cbn [fst snd state Dashboard.layouts Dashboard.currentLayoutId]. rewrite layout_list_mk.
  split; [done|]. split; [done|]. split; [done|].
  assert (currentLayout (Some (layout_list d ++ [newLayout_at now name]))
            (Some (DashboardLayout.id (newLayout_at now name))) =
          match find (λ layout, bool_decide
                       (DashboardLayout.id layout =
                        DashboardLayout.id (newLayout_at now name))) (layout_list d) with
          | Some older => Some older
          | None => Some (newLayout_at now name)
          end) as Hcurrent.
  { rewrite currentLayout_find, find_layout_app.
    destruct (find _ (layout_list d)); [done|].
    cbn [find]. by rewrite bool_decide_eq_true_2. }
  split; [exact Hcurrent|].
  intros Hfresh. rewrite Hcurrent.
  destruct (find _ (layout_list d)) as [older|] eqn:Hfound; [|done].
  apply find_some in Hfound as [Hin Hid]. apply bool_decide_eq_true in Hid.
  by destruct (Hfresh older); [apply list_elem_of_In|].
Qed.

Lemma createLayout_current_layout_witness :
  fresh_id ops_dashboard (DashboardLayout.id (newLayout_at (second 1) "Perf")) ∧
  currentLayout
    (Dashboard.layouts (next ops_dashboard (λ l c, createLayout l c (second 1) "Perf")))
    (Dashboard.currentLayoutId
       (next ops_dashboard (λ l c, createLayout l c (second 1) "Perf"))) =
  Some (newLayout_at (second 1) "Perf").
Proof.
  assert (fresh_id ops_dashboard (DashboardLayout.id (newLayout_at (second 1) "Perf")))
    as Hfresh.
  { intros layout Hin. apply list_elem_of_singleton in Hin as ->. done. }
  split; [exact Hfresh|].
  exact (proj2 (proj2 (proj2 (proj2
    (createLayout_current_layout ops_dashboard (second 1) "Perf")))) Hfresh).
Defined.

(** Deleting the layout that [createLayout] has just made (its id being
    fresh) gives the layout list back, but not the pointer: the first
    layout of the list becomes active, whichever was active before, and the
    pointer is empty when the list is. *)
Theorem createLayout_then_deleteLayout d now name :
  fresh_id d (DashboardLayout.id (newLayout_at now name)) →
  let d' := next (next d (λ l c, createLayout l c now name))
                 (λ l c, deleteLayout l c (DashboardLayout.id (newLayout_at now name))) in
  layout_list d' = layout_list d ∧
  Dashboard.currentLayoutId d' =
    match layout_list d with
    | first :: _ => Some (DashboardLayout.id first)
    | [] => Some EmptyString
    end.
Proof.
  intros Hfresh d'. subst d'. rewrite createLayout_next, deleteLayout_next.
  cbn [Dashboard.currentLayoutId].
  rewrite !layout_list_mk, filter_app, (filter_fresh_id d _ Hfresh).
  rewrite filter_cons_False by (by intros []). rewrite filter_nil, app_nil_r.
  split; [done|].
  destruct (layout_list d) as [|first rest]; [done|]. by rewrite decide_True.
Qed.

Lemma createLayout_then_deleteLayout_witness :
  let d := Dashboard.mk (Some [ops_layout; perf_layout]) (Some "layout-1700000001000") in
  fresh_id d (DashboardLayout.id (newLayout_at (second 2) "Third")) ∧
  Dashboard.currentLayoutId
    (next (next d (λ l c, createLayout l c (second 2) "Third"))
          (λ l c, deleteLayout l c (DashboardLayout.id (newLayout_at (second 2) "Third")))) =
  Some (DashboardLayout.id ops_layout).
Proof.
  intros d.
  assert (fresh_id d (DashboardLayout.id (newLayout_at (second 2) "Third"))) as Hfresh.
  { intros layout Hin.
    apply elem_of_cons in Hin as [->|Hin]; [done|].
    apply list_elem_of_singleton in Hin as ->. done. }
  split; [exact Hfresh|].
  exact (proj2 (createLayout_then_deleteLayout d (second 2) "Third" Hfresh)).
Defined.

(** ** [createLayout] followed by [addWidget] *)

Lemma findAvailablePosition_empty size :
  findAvailablePosition [] (DEFAULT_WIDGET_DIMENSIONS size).1
    (DEFAULT_WIDGET_DIMENSIONS size).2 =
  Normal (Position.mk 0 0 (DEFAULT_WIDGET_DIMENSIONS size).1
            (DEFAULT_WIDGET_DIMENSIONS size).2).
Proof. by destruct size. Qed.

(** Adding a registered widget right after [createLayout] (the new id
    being fresh) works: nothing is logged, the new layout holds exactly the
    new instance, at (0, 0) with the default footprint of its size, every
    other layout is as it was, and the pointer stays on the new layout. *)
Theorem createLayout_then_addWidget widgetRegistry d t1 name t2 widgetId title config entry :
  fresh_id d (DashboardLayout.id (newLayout_at t1 name)) →
  widgetRegistry !! widgetId = Some entry →
  run (next d (λ l c, createLayout l c t1 name))
      (λ l c, addWidget widgetRegistry l c t2 widgetId title config) =
  (Normal (),
   mkWorld
     (Dashboard.mk
        (Some (layout_list d ++
               [with_widgets (newLayout_at t1 name)
                  [newWidgetInstance_at t2 widgetId title config entry
                     (Position.mk 0 0
                        (DEFAULT_WIDGET_DIMENSIONS
                           (WidgetMetadata.defaultSize (metadata entry))).1
                        (DEFAULT_WIDGET_DIMENSIONS
                           (WidgetMetadata.defaultSize (metadata entry))).2)]
                  (iso t2)]))
        (Some (DashboardLayout.id (newLayout_at t1 name)))) []).
Proof.
  intros Hfresh Hentry. rewrite createLayout_next.
  set (new := newLayout_at t1 name) in *.
  set (d1 := Dashboard.mk (Some (layout_list d ++ [new])) (Some (DashboardLayout.id new))).
  assert (∀ layout, layout ∈ layout_list d ++ [new] →
            Some (DashboardLayout.id layout) = Some (DashboardLayout.id new) →
            layout = new) as Honly.
  { intros layout Hin Hid. apply elem_of_app in Hin as [Hin|Hin].
    - destruct (Hfresh layout Hin). congruence.
    - by apply list_elem_of_singleton in Hin. }
  destruct (addWidget_run widgetRegistry d1 t2 widgetId title config)
    as [(e & layout & _ & Hin & Hid & Hthrows)|(new' & -> & Hadded)].
  - exfalso. rewrite (Honly layout Hin Hid) in Hthrows.
    destruct Hthrows as [[Hnone _]|(entry' & Hentry' & Hthrow)]; [congruence|].
    cbn [DashboardLayout.widgets new newLayout_at] in Hthrow.
    by rewrite findAvailablePosition_empty in Hthrow.
  - destruct (currentLayout_is_Some (Dashboard.layouts d1) (Dashboard.currentLayoutId d1) new)
      as (current & -> & _); [apply elem_of_app; right; by left|done|].
    assert (layout_list d1 = layout_list d ++ [new]) as Hlist by done.
    rewrite Hlist in Hadded.
    apply Forall2_app_inv_l in Hadded as (k1 & k2 & Hk1 & Hk2 & ->).
    assert (k1 = layout_list d) as ->.
    { symmetry. apply list_eq_Forall2.
      apply Forall2_same_length_lookup. split; [by eapply Forall2_length|].
      intros k layout layout' Hl Hl'.
      destruct (Forall2_lookup_lr _ _ _ _ _ _ Hk1 Hl Hl') as [[_ ->]|[Hid _]]; [done|].
      destruct (Hfresh layout); [by eapply list_elem_of_lookup_2|].
      cbn [d1 Dashboard.currentLayoutId] in Hid. congruence. }
    apply Forall2_cons_inv_l in Hk2 as (layout' & k3 & Hnew & Hnil & ->).
    apply Forall2_nil_inv_l in Hnil as ->.
    destruct Hnew as [[Hne _]|(_ & entry' & position & Hentry' & Hpos & ->)]; [done|].
    assert (entry' = entry) as -> by congruence.
    cbn [DashboardLayout.widgets new newLayout_at] in Hpos.
    rewrite findAvailablePosition_empty in Hpos. injection Hpos as <-.
    done.
Qed.

Lemma createLayout_then_addWidget_witness :
  fresh_id first_visit (DashboardLayout.id (newLayout_at (second 0) "Ops")) ∧
  widgetRegistry !! "code-editor" =
    Some (mkRegistryEntry "CodeEditorWidget"
            (WidgetMetadata.mk "Code Editor" "A simple code editor widget" "1.0.0"
               "Enterprise Widget Platform" tools "Code" large
               (<["language" := JString "javascript"]>
                  (<["readOnly" := JBool false]> ∅)))) ∧
  WidgetInstance.position <$>
    (layout_list
       (state (run (next first_visit (λ l c, createLayout l c (second 0) "Ops"))
                 (λ l c, addWidget widgetRegistry l c (second 1) "code-editor" None None)).2)
     ≫= DashboardLayout.widgets) = [Position.mk 0 0 2 2].
Proof.
  assert (fresh_id first_visit (DashboardLayout.id (newLayout_at (second 0) "Ops")))
    as Hfresh.
  { intros layout Hin. by apply elem_of_nil in Hin. }
  assert (widgetRegistry !! "code-editor" =
    Some (mkRegistryEntry "CodeEditorWidget"
            (WidgetMetadata.mk "Code Editor" "A simple code editor widget" "1.0.0"
               "Enterprise Widget Platform" tools "Code" large
               (<["language" := JString "javascript"]>
                  (<["readOnly" := JBool false]> ∅))))) as Hentry by reflexivity.
  split; [exact Hfresh|]. split; [exact Hentry|].
  rewrite (createLayout_then_addWidget widgetRegistry first_visit (second 0) "Ops"
             (second 1) "code-editor" None None _ Hfresh Hentry).
  reflexivity.
Defined.

(** ** The pointer names a layout of the list *)

Lemma pointer_valid_intro d layout :
  layout ∈ layout_list d →
  Some (DashboardLayout.id layout) = Dashboard.currentLayoutId d →
  pointer_valid d.
Proof.
  intros Hin Hid. right. right.
  destruct (currentLayout_is_Some _ _ layout Hin Hid) as (current & -> & _). by eexists.
Qed.

(** A change that keeps the pointer and, place by place, the ids of the
    layouts keeps the pointer valid. *)
Lemma pointer_valid_same_ids d d' :
  Dashboard.currentLayoutId d' = Dashboard.currentLayoutId d →
  Forall2 (λ layout layout', DashboardLayout.id layout' = DashboardLayout.id layout)
    (layout_list d) (layout_list d') →
  pointer_valid d → pointer_valid d'.
Proof.
  intros Hpointer Hids [Hnone|[Hempty|[current Hcurrent]]].
  - left. congruence.
  - right. left. congruence.
  - apply currentLayout_Some in Hcurrent as [Hin Hid].
    apply list_elem_of_lookup in Hin as [k Hk].
    destruct (Forall2_lookup_l _ _ _ _ _ Hids Hk) as (layout' & Hk' & Hid').
    apply (pointer_valid_intro d' layout'); [by eapply list_elem_of_lookup_2|].
    congruence.
Qed.

Lemma mapCurrentLayout_pointer_valid d now f :
  pointer_valid d → pointer_valid (mapCurrentLayout d now f).
Proof.
  apply pointer_valid_same_ids; [done|].
  unfold mapCurrentLayout. rewrite layout_list_mk. apply Forall2_fmap_r.
  induction (layout_list d) as [|layout l IH]; constructor; [|done].
  unfold compose. by destruct (bool_decide _).
Qed.

Lemma switchLayout_dashboard p layoutId :
  Provider.dashboard (next_provider p (λ l c, switchLayout l c layoutId)) =
  if default false
       (existsb (λ layout, bool_decide (DashboardLayout.id layout = layoutId)) <$>
          Dashboard.layouts (Provider.dashboard p))
  then Dashboard.mk (Dashboard.layouts (Provider.dashboard p)) (Some layoutId)
  else Provider.dashboard p.
Proof.
  destruct p as [[l cur] ws loading err].
  unfold next_provider, switchLayout.
  cbn [Provider.dashboard Dashboard.layouts Dashboard.currentLayoutId].
  by destruct (default false _).
Qed.

(** The invariant of the data model, "the active-layout id is empty or
    names a layout of the list", is kept by [createLayout], [switchLayout],
    [deleteLayout], [removeWidget], [updateWidget] and
    [updateWidgetPositions], and by [addWidget] when a layout is current. *)
Theorem pointer_valid_preserved d now :
  pointer_valid d →
  (∀ name, pointer_valid (next d (λ l c, createLayout l c now name))) ∧
  (∀ p layoutId, Provider.dashboard p = d →
     pointer_valid (Provider.dashboard (next_provider p (λ l c, switchLayout l c layoutId)))) ∧
  (∀ layoutId, pointer_valid (next d (λ l c, deleteLayout l c layoutId))) ∧
  (∀ instanceId, pointer_valid (next d (λ l c, removeWidget l c now instanceId))) ∧
  (∀ instanceId updates,
     pointer_valid (next d (λ l c, updateWidget l c now instanceId updates))) ∧
  (∀ updates, pointer_valid (next d (λ l c, updateWidgetPositions l c now updates))) ∧
  (∀ widgetRegistry widgetId title config,
     is_Some (currentLayout (Dashboard.layouts d) (Dashboard.currentLayoutId d)) →
     pointer_valid (next d (λ l c, addWidget widgetRegistry l c now widgetId title config))).
Proof.
  intros Hvalid. repeat split.
  - intros name. rewrite createLayout_next.
    apply (pointer_valid_intro _ (newLayout_at now name)); [|done].
    rewrite layout_list_mk. apply elem_of_app. right. by left.
  - intros p layoutId <-. rewrite switchLayout_dashboard.
    destruct (default false _) eqn:Hsome; [|done].
    apply some_layout_with_id in Hsome as (layout & Hin & Hid).
    by apply (pointer_valid_intro _ layout); [|rewrite Hid].
  - intros layoutId. rewrite deleteLayout_next.
    destruct (filter _ (layout_list d)) as [|first rest] eqn:Hremaining.
    + right. by left.
    + destruct (decide (Some layoutId = Dashboard.currentLayoutId d)) as [Heq|Hne].
      * apply (pointer_valid_intro _ first); [|done]. rewrite layout_list_mk. by left.
      * destruct Hvalid as [Hnone|[Hempty|[current Hcurrent]]].
        -- by left.
        -- right. by left.
        -- apply currentLayout_Some in Hcurrent as [Hin Hid].
           apply (pointer_valid_intro _ current); [|done].
           rewrite layout_list_mk, <- Hremaining. apply list_elem_of_filter.
           split; [congruence|done].
  - intros instanceId. rewrite removeWidget_next. by apply mapCurrentLayout_pointer_valid.
  - intros instanceId updates. rewrite updateWidget_next.
    by apply mapCurrentLayout_pointer_valid.
  - intros updates. rewrite updateWidgetPositions_next.
    by apply mapCurrentLayout_pointer_valid.
  - intros widgetRegistry widgetId title config [current Hcurrent]. unfold next.
    destruct (addWidget_run widgetRegistry d now widgetId title config)
      as [(e & layout & -> & _)|(new & -> & Hadded)]; [done|].
    rewrite Hcurrent. cbn [snd state].
    apply (pointer_valid_same_ids d); [done| |done].
    rewrite layout_list_mk. eapply Forall2_impl; [exact Hadded|].
    intros layout layout' [[_ ->]|(_ & entry & position & _ & _ & ->)]; done.
Qed.

Lemma pointer_valid_preserved_witness :
  pointer_valid ops_dashboard ∧
  pointer_valid (next ops_dashboard (λ l c, deleteLayout l c "layout-1700000000000")) ∧
  pointer_valid
    (next ops_dashboard
       (λ l c, addWidget widgetRegistry l c (second 1) "status-widget" None None)).
Proof.
  assert (pointer_valid ops_dashboard) as Hvalid.
  { right. right. exists ops_layout. reflexivity. }
  assert (is_Some (currentLayout (Dashboard.layouts ops_dashboard)
                     (Dashboard.currentLayoutId ops_dashboard))) as Hcurrent.
  { exists ops_layout. reflexivity. }
  split; [exact Hvalid|]. split.
  - exact (proj1 (proj2 (proj2 (pointer_valid_preserved ops_dashboard (second 1) Hvalid)))
             "layout-1700000000000").
  - exact (proj2 (proj2 (proj2 (proj2 (proj2 (proj2
             (pointer_valid_preserved ops_dashboard (second 1) Hvalid))))))
             widgetRegistry "status-widget" None None Hcurrent).
Defined.

(** ** The widgets effect *)

(** The effect that follows a change of the current layout. Without a
    current layout it empties [widgets] and leaves [isLoading] and [error]
    as they were, so a provider that starts without a current layout stays
    in the loading state. With one it ends the loading state, and: when no
    instance names an inherited member of the registry object that is not
    registered, it clears [error] and renders the instances whose definition
    is registered, in their order, each with the id, the type and the size
    of its instance, dropping the unknown ones without an error; when some
    instance does, the [TypeError] of [createWidgetInstance] is caught,
    [error] is set to it and no widget at all is rendered. The stored
    values are never touched. *)
Theorem initializeWidgets_renders_registered widgetRegistry p :
  let d := Provider.dashboard p in
  let p' := next_provider p (λ l c, initializeWidgets widgetRegistry l c) in
  let inherited instance :=
    widgetRegistry !! WidgetInstance.widgetId instance = None ∧
    WidgetInstance.widgetId instance ∈ Object_prototype in
  Provider.dashboard p' = d ∧
  match currentLayout (Dashboard.layouts d) (Dashboard.currentLayoutId d) with
  | None =>
      Provider.widgets p' = [] ∧
      Provider.isLoading p' = Provider.isLoading p ∧
      Provider.error p' = Provider.error p
  | Some current =>
      Provider.isLoading p' = false ∧
      (Forall (λ instance, ¬ inherited instance) (DashboardLayout.widgets current) →
       Provider.error p' = None ∧
       Forall2 (λ instance widget,
                  Widget.id widget = WidgetInstance.id instance ∧
                  Widget.type widget = WidgetInstance.widgetId instance ∧
                  Widget.size widget = WidgetInstance.size instance)
         (filter (λ instance,
                    is_Some (widgetRegistry !! WidgetInstance.widgetId instance))
            (DashboardLayout.widgets current))
         (Provider.widgets p')) ∧
      (Exists inherited (DashboardLayout.widgets current) →
       Provider.widgets p' = [] ∧
       ∃ message, Provider.error p' = Some (TypeError message))
  end.
Proof.
  intros d p' inherited. subst d p'. destruct p as [[l cur] ws loading err].
  unfold next_provider, initializeWidgets.
  cbn [Provider.dashboard Dashboard.layouts Dashboard.currentLayoutId].
  destruct (currentLayout l cur) as [current|]; [|done].
  set (create := λ instance,
         Registry.createWidgetInstance widgetRegistry (WidgetInstance.widgetId instance)
           (WidgetInstance.id instance) (Some (WidgetInstance.title instance))
           (WidgetInstance.config instance) (Some (WidgetInstance.size instance))).
  destruct (array_map_pure (S := Provider.t) (λ instance, lift (create instance))
              (λ instance c, c = create instance) (DashboardLayout.widgets current)
              (mkWorld (Provider.mk (Dashboard.mk l cur) ws loading err) []))
    as (r & Hrun & Hr); [intros a σ; by eexists|].
  unfold create in Hrun. cbv beta in Hrun.
  unfold try_finally, try_catch, mbind, M_bind. rewrite Hrun.
  assert (∀ instance e, create instance = Throw e →
            inherited instance ∧ ∃ message, e = TypeError message) as Hthrow.
  { intros instance e. unfold create, Registry.createWidgetInstance, inherited.
    destruct (widgetRegistry !! WidgetInstance.widgetId instance); [done|].
    case_bool_decide; [|done]. intros [= <-]. split; [done|]. by eexists. }
  assert (∀ instance, inherited instance → ∃ e, create instance = Throw e) as Hinherited.
  { intros instance [Hnone Hin]. unfold create, Registry.createWidgetInstance.
    rewrite Hnone, bool_decide_true by done. by eexists. }
  destruct r as [created|e].
  - split; [done|]. split; [done|]. split.
    + intros _. split; [done|]. cbn.
      clear Hrun. induction Hr as [|instance widget instances created Hcreate _ IH];
        [constructor|].
      revert Hcreate. unfold create at 1, Registry.createWidgetInstance.
      destruct (widgetRegistry !! WidgetInstance.widgetId instance) as [entry|] eqn:Hentry.
      * intros [= ->]. unfold createWidgetInstance. rewrite Hentry.
        rewrite filter_cons_True by (by rewrite Hentry).
        cbn [omap list_omap id]. constructor; [done|]. apply IH.
      * case_bool_decide; [done|]. intros [= ->].
        rewrite filter_cons_False by (rewrite Hentry; by intros [? ?]).
        cbn [omap list_omap id]. apply IH.
    + intros (instance & Hin & Hbad)%Exists_exists. exfalso.
      destruct (Hinherited instance Hbad) as [e He].
      apply list_elem_of_lookup in Hin as [i Hi].
      destruct (Forall2_lookup_l _ _ _ _ _ Hr Hi) as (widget & _ & Hcreate). congruence.
  - destruct Hr as (instance & Hin & He). symmetry in He.
    destruct (Hthrow instance e He) as [Hbad [message ->]].
    split; [done|]. split; [done|]. split.
    + intros Hnone. exfalso. by eapply Forall_forall in Hnone.
    + intros _. split; [done|]. by eexists.
Qed.

(** A layout that holds an instance of the definition id "constructor": the
    registered status widget is not rendered either. *)
Example initializeWidgets_constructor :
  let layout :=
    with_widgets ops_layout
      [instance_at "widget-status-widget-1" 0 0 1 1;
       WidgetInstance.mk "widget-constructor-2" "constructor" "Builder"
         (Position.mk 1 0 1 1) small None]
      "2023-11-14T22:13:22.000Z" in
  let p := mount (Dashboard.mk (Some [layout]) (Some (DashboardLayout.id layout))) in
  let p' := next_provider p (λ l c, initializeWidgets widgetRegistry l c) in
  Provider.widgets p' = [] ∧ Provider.isLoading p' = false ∧
  Provider.error p' =
    Some (TypeError "Cannot read properties of undefined (reading 'defaultConfig')").
Proof. by vm_compute. Qed.

(** * Further properties of the placement *)

Lemma scan_order_trichotomy x y x' y' :
  scanned_before x y x' y' ∨ (x = x' ∧ y = y') ∨ scanned_before x' y' x y.
Proof. unfold scanned_before. lia. Qed.

Lemma fits_same_cells widgets widgets' width height x y :
  (∀ i j, 0 ≤ i < gridHeight → 0 ≤ j < gridWidth →
     occupied widgets i j ↔ occupied widgets' i j) →
  candidate width x y →
  fits widgets width height x y → fits widgets' width height x y.
Proof.
  intros Hcells [Hy Hx] Hfits i j Hi Hj.
  destruct (Hfits i j Hi Hj) as (Hi' & Hj' & Hfree).
  split; [done|]. split; [done|]. rewrite <- Hcells by lia. done.
Qed.

(** The position depends only on which cells of the 4 by 10 grid are
    occupied: two lists of instances (rectangles of safe-integer
    coordinates, rows zero-based) that cover the same cells of the grid get
    the same position for every footprint with [1 ≤ width ≤ 4] and a
    safe-integer height. The order of the instances, repeated instances and
    instances that lie outside the grid, such as those the fallback placed,
    make no difference. *)
Theorem findAvailablePosition_depends_on_cells widgets widgets' width height :
  1 ≤ width ≤ 4 → safe_integer height →
  safe_rectangles widgets → safe_rectangles widgets' →
  rows_zero_based widgets → rows_zero_based widgets' →
  (∀ i j, 0 ≤ i < gridHeight → 0 ≤ j < gridWidth →
     occupied widgets i j ↔ occupied widgets' i j) →
  findAvailablePosition widgets width height =
  findAvailablePosition widgets' width height.
Proof.
  intros _ _ _ _ Hrows Hrows' Hcells.
  assert (∀ i j, 0 ≤ i < gridHeight → 0 ≤ j < gridWidth →
            occupied widgets' i j ↔ occupied widgets i j) as Hcells'.
  { intros i j Hi Hj. symmetry. by apply Hcells. }
  destruct (findAvailablePosition_spec widgets width height Hrows)
    as [(x & y & -> & Hcand & Hfits & Hfirst)|[-> Hnone]];
    destruct (findAvailablePosition_spec widgets' width height Hrows')
      as [(x' & y' & -> & Hcand' & Hfits' & Hfirst')|[-> Hnone']].
  - destruct (scan_order_trichotomy x y x' y') as [Hlt|[[-> ->]|Hlt]]; [|done|].
    + destruct (Hfirst' x y Hcand Hlt). by eapply fits_same_cells.
    + destruct (Hfirst x' y' Hcand' Hlt). by eapply fits_same_cells.
  - destruct (Hnone' x y Hcand). by eapply fits_same_cells.
  - destruct (Hnone x' y' Hcand'). by eapply fits_same_cells.
  - done.
Qed.

Lemma findAvailablePosition_depends_on_cells_witness :
  let widgets := [instance_at "a" 0 0 2 1; instance_at "b" 2 0 1 2] in
  let widgets' := [instance_at "b" 2 0 1 2; instance_at "c" 0 10 2 2;
                   instance_at "a" 0 0 2 1; instance_at "a" 0 0 2 1] in
  safe_rectangles widgets ∧ safe_rectangles widgets' ∧
  rows_zero_based widgets ∧ rows_zero_based widgets' ∧
  (∀ i j, 0 ≤ i < gridHeight → 0 ≤ j < gridWidth →
     occupied widgets i j ↔ occupied widgets' i j) ∧
  findAvailablePosition widgets 2 2 = findAvailablePosition widgets' 2 2.
Proof.
  intros widgets widgets'.
  assert (safe_rectangles widgets) as Hsafe.
  { repeat (apply Forall_cons; split;
              [unfold safe_rectangle, safe_integer; simpl; lia|]).
    apply Forall_nil_2. }
  assert (safe_rectangles widgets') as Hsafe'.
  { repeat (apply Forall_cons; split;
              [unfold safe_rectangle, safe_integer; simpl; lia|]).
    apply Forall_nil_2. }
  assert (rows_zero_based widgets) as Hrows by (repeat constructor; simpl; lia).
  assert (rows_zero_based widgets') as Hrows' by (repeat constructor; simpl; lia).
  assert (∀ i j, 0 ≤ i < gridHeight → 0 ≤ j < gridWidth →
            occupied widgets i j ↔ occupied widgets' i j) as Hcells.
  { intros i j Hi Hj. unfold occupied, widgets, widgets', gridHeight in *. split.
    - intros (w0 & Hin & Hc). exists w0. split; [|done].
      repeat (apply elem_of_cons in Hin as [->|Hin];
              [repeat ((by left) || right)|]).
      by apply elem_of_nil in Hin.
    - intros (w0 & Hin & Hc).
      repeat (apply elem_of_cons in Hin as [->|Hin];
              [first [ exists (instance_at "b" 2 0 1 2);
                       split; [repeat ((by left) || right)|exact Hc]
                     | exists (instance_at "a" 0 0 2 1);
                       split; [repeat ((by left) || right)|exact Hc]
                     | exfalso; unfold covers in Hc; simpl in Hc; lia ]|]).
      by apply elem_of_nil in Hin. }
  split; [exact Hsafe|]. split; [exact Hsafe'|].
  split; [exact Hrows|]. split; [exact Hrows'|]. split; [exact Hcells|].
  exact (findAvailablePosition_depends_on_cells widgets widgets' 2 2
           ltac:(lia) ltac:(unfold safe_integer; lia) Hsafe Hsafe' Hrows Hrows' Hcells).
Defined.

(** ** Additions and removals *)

Lemma intersect_sym p q : intersect p q → intersect q p.
Proof. intros (i & j & ? & ?). by exists i, j. Qed.

Lemma overlap_only_at_fallback_cons widget widgets :
  overlap_only_at_fallback (widget :: widgets) ↔
  (∀ other, other ∈ widgets →
     intersect (WidgetInstance.position widget) (WidgetInstance.position other) →
     at_fallback (WidgetInstance.position widget) ∧
     at_fallback (WidgetInstance.position other)) ∧
  overlap_only_at_fallback widgets.
Proof.
  split.
  - intros Hall. split.
    + intros other [k Hk]%list_elem_of_lookup Hint.
      by apply (Hall 0%nat (S k) widget other).
    + intros a b wa wb Hab Ha Hb. apply (Hall (S a) (S b)); [lia|done..].
  - intros [Hhead Htail] a b wa wb Hab Ha Hb Hint.
    destruct a as [|a], b as [|b]; simpl in Ha, Hb.
    + done.
    + injection Ha as <-. apply Hhead; [by eapply list_elem_of_lookup_2|done].
    + injection Hb as <-.
      destruct (Hhead wa) as [? ?]; [by eapply list_elem_of_lookup_2| |done].
      by apply intersect_sym.
    + apply (Htail a b); [lia|done..].
Qed.

Lemma placed_by_addWidget_filter (P : WidgetInstance.t → Prop)
    `{∀ widget, Decision (P widget)} widgets :
  placed_by_addWidget widgets → placed_by_addWidget (filter P widgets).
Proof.
  intros [Hall Hover]. split.
  { apply Forall_forall. intros widget [_ Hin]%list_elem_of_filter.
    by eapply Forall_forall in Hall. }
  clear Hall.
  induction widgets as [|widget widgets IH]; [done|].
  apply overlap_only_at_fallback_cons in Hover as [Hhead Htail].
  destruct (decide (P widget)) as [HP|HP].
  - rewrite filter_cons_True by done. apply overlap_only_at_fallback_cons.
    split; [|by apply IH].
    intros other [_ Hin]%list_elem_of_filter. by apply Hhead.
  - rewrite filter_cons_False by done. by apply IH.
Qed.

Lemma removeWidget_placed d now instanceId :
  (∀ layout, layout ∈ layout_list d →
     placed_by_addWidget (DashboardLayout.widgets layout)) →
  ∀ layout, layout ∈ layout_list (next d (λ l c, removeWidget l c now instanceId)) →
    placed_by_addWidget (DashboardLayout.widgets layout).
Proof.
  intros Hinv layout'. rewrite removeWidget_next. unfold mapCurrentLayout.
  rewrite layout_list_mk. intros (layout & -> & Hin)%list_elem_of_fmap.
  destruct (bool_decide _); [by apply Hinv|].
  cbn [DashboardLayout.widgets with_widgets]. by apply placed_by_addWidget_filter, Hinv.
Qed.

(** Removals do not disturb what insertion guarantees: after every sequence
    of [addWidget] and [removeWidget] calls, in any order, applied to
    layouts that are initially empty, two instances of a layout intersect
    only if both sit at the fallback position. *)
Theorem widgetOps_overlap_only_at_fallback widgetRegistry ops d :
  (∀ layout, layout ∈ layout_list d → DashboardLayout.widgets layout = []) →
  ∀ layout, layout ∈ layout_list (widgetOps widgetRegistry ops d) →
    overlap_only_at_fallback (DashboardLayout.widgets layout).
Proof.
  intros Hempty.
  assert (∀ layout, layout ∈ layout_list d →
            placed_by_addWidget (DashboardLayout.widgets layout)) as Hinv.
  { intros layout Hin. rewrite (Hempty layout Hin). split; [constructor|].
    intros a b wa wb _ Ha. by rewrite lookup_nil in Ha. }
  clear Hempty. unfold widgetOps. revert d Hinv.
  induction ops as [|op ops IH]; intros d Hinv layout Hin; simpl in Hin.
  - by apply Hinv.
  - eapply IH; [|exact Hin]. destruct op as [call|now instanceId].
    + by apply addWidget_placed.
    + by apply removeWidget_placed.
Qed.

Lemma widgetOps_overlap_only_at_fallback_witness :
  let ops := [OpAdd (mkCall (second 1) "code-editor" None None);
              OpAdd (mkCall (second 2) "status-widget" None None);
              OpRemove (second 3) "widget-code-editor-1700000001000";
              OpAdd (mkCall (second 4) "analytics-chart" None None)] in
  (∀ layout, layout ∈ layout_list ops_dashboard → DashboardLayout.widgets layout = []) ∧
  ∀ layout, layout ∈ layout_list (widgetOps widgetRegistry ops ops_dashboard) →
    overlap_only_at_fallback (DashboardLayout.widgets layout).
Proof.
  intros ops.
  assert (∀ layout, layout ∈ layout_list ops_dashboard →
            DashboardLayout.widgets layout = []) as Hempty.
  { intros layout Hin. apply list_elem_of_singleton in Hin. by rewrite Hin. }
  split; [exact Hempty|].
  exact (widgetOps_overlap_only_at_fallback widgetRegistry ops ops_dashboard Hempty).
Defined.

(** Removal frees the slot for the next first fit: when the instances with
    the id of an instance that lies inside the grid are removed from a list
    that additions and removals built, the placement of the same footprint
    finds a position, and that position is the freed one or one scanned
    before it. *)
Theorem findAvailablePosition_reuses_freed_slot widgets widget :
  placed_by_addWidget widgets → widget ∈ widgets →
  inside (WidgetInstance.position widget) →
  1 ≤ Position.w (WidgetInstance.position widget) →
  1 ≤ Position.h (WidgetInstance.position widget) →
  let p := WidgetInstance.position widget in
  let remaining :=
    filter (λ other, WidgetInstance.id other ≠ WidgetInstance.id widget) widgets in
  ∃ x y,
    findAvailablePosition remaining (Position.w p) (Position.h p) =
      Normal (Position.mk x y (Position.w p) (Position.h p)) ∧
    ((x = Position.x p ∧ y = Position.y p) ∨
     scanned_before x y (Position.x p) (Position.y p)).
Proof.
  intros Hinv Hin Hinside Hw Hh p remaining.
  assert (placed_by_addWidget remaining) as Hinv' by by apply placed_by_addWidget_filter.
  pose proof (placed_rows_zero_based remaining Hinv') as Hrows.
  destruct Hinside as (Hx & Hy & Hxw & Hyh). fold p in Hx, Hy, Hxw, Hyh, Hw, Hh.
  assert (candidate (Position.w p) (Position.x p) (Position.y p)) as Hcand.
  { unfold candidate. lia. }
  assert (fits remaining (Position.w p) (Position.h p) (Position.x p) (Position.y p))
    as Hfits.
  { intros i j Hi Hj. split; [lia|]. split; [lia|].
    intros (other & [Hid Hother]%list_elem_of_filter & Hcov).
    apply list_elem_of_lookup in Hin as [a Ha].
    apply list_elem_of_lookup in Hother as [b Hb].
    destruct Hinv as [_ Hover].
    destruct (Hover a b widget other) as [[_ Hfb] _]; [congruence|done|done| |].
    - exists i, j. split; [|done]. unfold covers. fold p. lia.
    - fold p in Hfb. unfold gridHeight in *. lia. }
  destruct (findAvailablePosition_spec remaining (Position.w p) (Position.h p) Hrows)
    as [(x & y & Hok & Hcand' & _ & Hfirst)|[_ Hnone]].
  - exists x, y. split; [done|].
    destruct (scan_order_trichotomy x y (Position.x p) (Position.y p))
      as [Hlt|[Heq|Hlt]]; [by right|by left|].
    by destruct (Hfirst _ _ Hcand Hlt).
  - by destruct (Hnone _ _ Hcand).
Qed.

Lemma findAvailablePosition_reuses_freed_slot_witness :
  let widget := instance_at "b" 2 0 2 1 in
  let widgets := [instance_at "a" 0 0 2 1; widget; instance_at "c" 0 1 2 1] in
  placed_by_addWidget widgets ∧ widget ∈ widgets ∧
  inside (WidgetInstance.position widget) ∧
  ∃ x y,
    findAvailablePosition
      (filter (λ other, WidgetInstance.id other ≠ WidgetInstance.id widget) widgets) 2 1 =
      Normal (Position.mk x y 2 1) ∧
    ((x = 2 ∧ y = 0) ∨ scanned_before x y 2 0).
Proof.
  intros widget widgets.
  assert (placed_by_addWidget widgets) as Hinv.
  { split.
    - repeat (apply Forall_cons; split;
                [left; unfold inside, gridWidth, gridHeight; simpl; lia|]).
      apply Forall_nil_2.
    - intros a b wa wb Hab Ha Hb (i & j & Hca & Hcb). exfalso.
      unfold widgets, widget in Ha, Hb.
      destruct a as [|[|[|a]]]; simpl in Ha; try done; injection Ha as <-;
        (destruct b as [|[|[|b]]]; simpl in Hb; try done; injection Hb as <-);
        unfold covers in Hca, Hcb; simpl in Hca, Hcb; lia. }
  assert (widget ∈ widgets) as Hin by (right; left).
  assert (inside (WidgetInstance.position widget)) as Hinside.
  { unfold inside, gridWidth, gridHeight. simpl. lia. }
  split; [exact Hinv|]. split; [exact Hin|]. split; [exact Hinside|].
  exact (findAvailablePosition_reuses_freed_slot widgets widget Hinv Hin Hinside
           ltac:(simpl; lia) ltac:(simpl; lia)).
Defined.

(** * [useLocalStorage] with the browser *)

Ltac unfold_hook :=
  unfold useLocalStorage.run, useLocalStorage.next, useLocalStorage.setValue,
    useLocalStorage.removeItem, useLocalStorage.initialize,
    useLocalStorage.dispatchEvent, useLocalStorage.listeners,
    useLocalStorage.handleStorageChange, useLocalStorage.setStoredValue,
    useLocalStorage.localStorage_setItem, useLocalStorage.localStorage_removeItem,
    getStoredValue, try_catch, lift, modify, console_error, throw,
    mbind, M_bind, mret, M_ret.

Lemma handleStorageChange_normal {T} key parseJson deserializer raw e
    (σ : World (useLocalStorage.Browser T)) :
  (useLocalStorage.handleStorageChange key parseJson deserializer raw e σ).1 = Normal ().
Proof.
  unfold_hook.
  destruct (bool_decide (useLocalStorage.ev_key e = Some key) &&
            useLocalStorage.storageArea_is_localStorage e); [|done].
  destruct (useLocalStorage.newValue e) as [text|]; [|done].
  case_bool_decide; [|done]. destruct parseJson; [|done].
  by destruct (deserializer text).
Qed.

Lemma dispatchEvent_normal {T} key parseJson syncAcrossTabs deserializer raw event
    (σ : World (useLocalStorage.Browser T)) :
  (useLocalStorage.dispatchEvent
     (useLocalStorage.listeners key parseJson syncAcrossTabs deserializer raw)
     event σ).1 = Normal ().
Proof.
  unfold useLocalStorage.dispatchEvent, useLocalStorage.listeners.
  destruct syncAcrossTabs; [|done]. unfold foldr.
  unfold try_catch, modify, mbind, M_bind, mret, M_ret. simpl.
  match goal with
  | |- context [useLocalStorage.handleStorageChange ?k ?p ?d ?r ?e ?s] =>
      pose proof (handleStorageChange_normal k p d r e s) as Hl;
      destruct (useLocalStorage.handleStorageChange k p d r e s) as [[[]|?] ?]
  end; done.
Qed.

(** Nothing the hook hands out throws: whatever the updater function, the
    serializer, the deserializer or the storage throw, [setValue],
    [removeItem], the storage listener and the read on mount complete
    normally. *)
Theorem useLocalStorage_never_throws {T} key parseJson syncAcrossTabs
    (defaultValue : option T) serializer deserializer toString raw setItem_throws
    (σ : World (useLocalStorage.Browser T)) :
  (∀ storedValue value,
     (useLocalStorage.setValue key parseJson syncAcrossTabs serializer deserializer
        toString raw setItem_throws storedValue value σ).1 = Normal ()) ∧
  (useLocalStorage.removeItem key parseJson syncAcrossTabs deserializer raw σ).1 =
    Normal () ∧
  (∀ e, (useLocalStorage.handleStorageChange key parseJson deserializer raw e σ).1 =
          Normal ()) ∧
  (useLocalStorage.initialize key parseJson defaultValue deserializer raw σ).1 =
    Normal ().
Proof.
  pose proof (@handleStorageChange_normal T key parseJson deserializer raw)
    as Hlistener.
  pose proof (@dispatchEvent_normal T key parseJson syncAcrossTabs deserializer raw)
    as Hdispatch.
  split; [|split; [|split]].
  - intros storedValue value. unfold useLocalStorage.setValue.
    unfold try_catch at 1. unfold mbind, M_bind.
    destruct (match value with inl v => mret v | inr f => f storedValue end σ)
      as [[valueToStore|error] σ1]; [|done].
    unfold useLocalStorage.setStoredValue at 1. unfold modify at 1.
    destruct valueToStore as [v|].
    + destruct parseJson.
      * unfold lift. destruct (serializer v) as [text|error]; [|done].
        unfold useLocalStorage.localStorage_setItem. cbn [state].
        destruct (setItem_throws _ _ _); [done|].
        unfold modify at 1.
        destruct syncAcrossTabs; [|done].
        match goal with
        | |- context [useLocalStorage.dispatchEvent ?l ?e ?s] =>
            pose proof (Hdispatch e s) as Hd;
            destruct (useLocalStorage.dispatchEvent l e s) as [[[]|?] ?]
        end; done.
      * unfold mret, M_ret.
        unfold useLocalStorage.localStorage_setItem. cbn [state].
        destruct (setItem_throws _ _ _); [done|].
        unfold modify at 1.
        destruct syncAcrossTabs; [|done].
        match goal with
        | |- context [useLocalStorage.dispatchEvent ?l ?e ?s] =>
            pose proof (Hdispatch e s) as Hd;
            destruct (useLocalStorage.dispatchEvent l e s) as [[[]|?] ?]
        end; done.
    + unfold useLocalStorage.localStorage_removeItem. unfold modify at 1.
      destruct syncAcrossTabs; [|done].
      match goal with
      | |- context [useLocalStorage.dispatchEvent ?l ?e ?s] =>
          pose proof (Hdispatch e s) as Hd;
          destruct (useLocalStorage.dispatchEvent l e s) as [[[]|?] ?]
      end; done.
  - unfold useLocalStorage.removeItem.
    unfold try_catch at 1. unfold mbind, M_bind.
    unfold useLocalStorage.localStorage_removeItem, useLocalStorage.setStoredValue.
    unfold modify.
    destruct syncAcrossTabs; [|done].
    match goal with
    | |- context [useLocalStorage.dispatchEvent ?l ?e ?s] =>
        pose proof (Hdispatch e s) as Hd;
        destruct (useLocalStorage.dispatchEvent l e s) as [[[]|?] ?]
    end; done.
  - intros e. apply Hlistener.
  - unfold_hook. destruct (useLocalStorage.localStorage (state σ) !! key) as [item|];
      [|done].
    case_bool_decide; [|done]. destruct parseJson; [|done].
    by destruct (deserializer item).
Qed.


Lemma dispatchEvent_own {T} key (parseJson : bool) deserializer raw newValue
    (b : useLocalStorage.Browser T) log :
  useLocalStorage.dispatchEvent
    [useLocalStorage.handleStorageChange key parseJson deserializer raw]
    (useLocalStorage.mkStorageEvent (Some key) newValue true) (mkWorld b log) =
  let events :=
    useLocalStorage.dispatched b ++
      [useLocalStorage.mkStorageEvent (Some key) newValue true] in
  let browser value :=
    useLocalStorage.mkBrowser value (useLocalStorage.localStorage b) events in
  match newValue with
  | Some text =>
      if bool_decide (text ≠ EmptyString) then
        if parseJson then
          match deserializer text with
          | Normal v => (Normal (), mkWorld (browser (Some v)) log)
          | Throw error =>
              (Normal (),
               mkWorld (browser (useLocalStorage.storedValue b))
                 (log ++ [ConsoleError "Error handling storage change for key"
                            key error]))
          end
        else (Normal (), mkWorld (browser (Some (raw text))) log)
      else (Normal (), mkWorld (browser None) log)
  | None => (Normal (), mkWorld (browser None) log)
  end.
Proof.
  unfold useLocalStorage.dispatchEvent, useLocalStorage.handleStorageChange, foldr.
  cbn [useLocalStorage.ev_key useLocalStorage.storageArea_is_localStorage
       useLocalStorage.newValue].
  rewrite bool_decide_true by done. cbn [andb].
  unfold_hook. cbn [state console useLocalStorage.storedValue
    useLocalStorage.localStorage useLocalStorage.dispatched].
  destruct newValue as [text|]; [|done].
  case_bool_decide; [|done]. destruct parseJson; [|done].
  by destruct (deserializer text).
Qed.

Lemma setValue_value_run {T} key (parseJson : bool) syncAcrossTabs serializer deserializer
    toString raw setItem_throws (b : useLocalStorage.Browser T) v text :
  (if parseJson then serializer v else Normal (toString v)) = Normal text →
  setItem_throws (useLocalStorage.localStorage b) key text = None →
  useLocalStorage.run b (λ storedValue,
    useLocalStorage.setValue key parseJson syncAcrossTabs serializer deserializer
      toString raw setItem_throws storedValue (inl (Some v))) =
  let written :=
    useLocalStorage.mkBrowser (Some v) (<[key := text]> (useLocalStorage.localStorage b))
      (useLocalStorage.dispatched b) in
  if syncAcrossTabs then
    useLocalStorage.dispatchEvent
      [useLocalStorage.handleStorageChange key parseJson deserializer raw]
      (useLocalStorage.mkStorageEvent (Some key) (Some (toString v)) true)
      (mkWorld written [])
  else (Normal (), mkWorld written []).
Proof.
  intros Htext Hroom.
  unfold useLocalStorage.run, useLocalStorage.setValue.
  unfold try_catch at 1. unfold mbind, M_bind, mret at 1, M_ret at 1.
  unfold useLocalStorage.setStoredValue at 1. unfold modify at 1. cbn [state console].
  assert ((if parseJson then lift (serializer v) else mret (toString v)) =
          (mret text : M (useLocalStorage.Browser T) string)) as ->.
  { destruct parseJson; [unfold lift; by rewrite Htext|congruence]. }
  unfold mret at 1, M_ret at 1.
  unfold useLocalStorage.localStorage_setItem. cbn [state useLocalStorage.localStorage].
  rewrite Hroom. unfold modify at 1. cbn [state console useLocalStorage.storedValue
    useLocalStorage.localStorage useLocalStorage.dispatched].
  destruct syncAcrossTabs; [|done]. cbn [fmap option_fmap option_map].
  unfold useLocalStorage.listeners.
  rewrite dispatchEvent_own. cbv zeta.
  case_bool_decide; [|done]. destruct parseJson; [|done].
  by destruct (deserializer (toString v)).
Qed.

Lemma setValue_value_localStorage {T} key (parseJson : bool) syncAcrossTabs serializer
    deserializer toString raw setItem_throws (b : useLocalStorage.Browser T) v text :
  (if parseJson then serializer v else Normal (toString v)) = Normal text →
  setItem_throws (useLocalStorage.localStorage b) key text = None →
  useLocalStorage.localStorage
    (useLocalStorage.next b (λ storedValue,
       useLocalStorage.setValue key parseJson syncAcrossTabs serializer deserializer
         toString raw setItem_throws storedValue (inl (Some v)))) =
  <[key := text]> (useLocalStorage.localStorage b).
Proof.
  intros Htext Hroom. unfold useLocalStorage.next.
  rewrite (setValue_value_run _ _ _ _ _ _ _ _ _ _ text) by done. cbv zeta.
  destruct syncAcrossTabs; [|done].
  rewrite dispatchEvent_own. cbv zeta.
  case_bool_decide; [|done]. destruct parseJson; [|done].
  by destruct (deserializer (toString v)).
Qed.

(** What [setValue] writes, the next mount reads: when the value has a
    non-empty stored form that the storage accepts and that reads back as the
    value, then after [setValue(value)] the storage holds that form under the
    key, and the read on mount sets the state to the value and logs
    nothing. *)
Theorem setValue_then_initialize {T} key (parseJson : bool) syncAcrossTabs
    (defaultValue : option T) serializer deserializer toString raw setItem_throws
    (b : useLocalStorage.Browser T) v text :
  (if parseJson then serializer v else Normal (toString v)) = Normal text →
  text ≠ EmptyString →
  (if parseJson then deserializer text else Normal (raw text)) = Normal v →
  setItem_throws (useLocalStorage.localStorage b) key text = None →
  let b' :=
    useLocalStorage.next b (λ storedValue,
      useLocalStorage.setValue key parseJson syncAcrossTabs serializer deserializer
        toString raw setItem_throws storedValue (inl (Some v))) in
  useLocalStorage.localStorage b' !! key = Some text ∧
  useLocalStorage.run b' (λ _,
    useLocalStorage.initialize key parseJson defaultValue deserializer raw) =
  (Normal (),
   mkWorld (useLocalStorage.mkBrowser (Some v) (useLocalStorage.localStorage b')
              (useLocalStorage.dispatched b')) []).
Proof.
  intros Htext Hne Hback Hroom b'.
  assert (useLocalStorage.localStorage b' !! key = Some text) as Hstored.
  { unfold b'. rewrite (setValue_value_localStorage _ _ _ _ _ _ _ _ _ _ text) by done.
    apply lookup_insert_eq. }
  split; [done|].
  unfold useLocalStorage.run, useLocalStorage.initialize, getStoredValue.
  cbn [state]. rewrite Hstored. rewrite bool_decide_true by done.
  unfold_hook. destruct parseJson; [by rewrite Hback|].
  by injection Hback as ->.
Qed.

Lemma setValue_then_initialize_witness :
  let b := useLocalStorage.mkBrowser (Some false) {[ "sidebar-open" := "false" ]} [] in
  let b' :=
    useLocalStorage.next b (λ storedValue,
      useLocalStorage.setValue "sidebar-open" true true (λ v, Normal (stringify_bool v))
        parse_bool stringify_bool (λ _, false) unlimited storedValue (inl (Some true))) in
  useLocalStorage.localStorage b' !! "sidebar-open" = Some "true" ∧
  useLocalStorage.run b' (λ _,
    useLocalStorage.initialize "sidebar-open" true None parse_bool (λ _, false)) =
  (Normal (),
   mkWorld (useLocalStorage.mkBrowser (Some true) (useLocalStorage.localStorage b')
              (useLocalStorage.dispatched b')) []).
Proof.
  intros b.
  exact (setValue_then_initialize "sidebar-open" true true None
           (λ v, Normal (stringify_bool v)) parse_bool stringify_bool (λ _, false)
           unlimited b true "true" eq_refl ltac:(done) eq_refl eq_refl).
Defined.

(** A write that fails leaves memory and storage apart: when the serializer
    or [setItem] throws, [setValue(value)] still completes, the state holds
    the new value, the storage is as before, no event is dispatched and
    the error is logged once. *)
Theorem setValue_failed_write_keeps_state {T} key (parseJson : bool) syncAcrossTabs
    serializer deserializer toString raw setItem_throws
    (b : useLocalStorage.Browser T) v error :
  (parseJson = true ∧ serializer v = Throw error) ∨
  (∃ text, (if parseJson then serializer v else Normal (toString v)) = Normal text ∧
           setItem_throws (useLocalStorage.localStorage b) key text = Some error) →
  useLocalStorage.run b (λ storedValue,
    useLocalStorage.setValue key parseJson syncAcrossTabs serializer deserializer
      toString raw setItem_throws storedValue (inl (Some v))) =
  (Normal (),
   mkWorld (useLocalStorage.mkBrowser (Some v) (useLocalStorage.localStorage b)
              (useLocalStorage.dispatched b))
     [ConsoleError "Error setting localStorage key" key error]).
Proof.
  intros Hfail.
  unfold useLocalStorage.run, useLocalStorage.setValue.
  unfold try_catch at 1. unfold mbind, M_bind, mret at 1, M_ret at 1.
  unfold useLocalStorage.setStoredValue at 1. unfold modify at 1. cbn [state console].
  destruct Hfail as [[-> Hthrow]|(text & Htext & Hfull)].
  - unfold lift. rewrite Hthrow. done.
  - assert ((if parseJson then lift (serializer v) else mret (toString v)) =
            (mret text : M (useLocalStorage.Browser T) string)) as ->.
    { destruct parseJson; [unfold lift; by rewrite Htext|congruence]. }
    unfold mret at 1, M_ret at 1.
    unfold useLocalStorage.localStorage_setItem.
    cbn [state useLocalStorage.localStorage]. rewrite Hfull. done.
Qed.

Lemma setValue_failed_write_keeps_state_witness :
  let full : gmap string string → string → string → option exn :=
    λ _ _ _, Some (Error "QuotaExceededError") in
  let b := useLocalStorage.mkBrowser (Some false) {[ "sidebar-open" := "false" ]} [] in
  useLocalStorage.run b (λ storedValue,
    useLocalStorage.setValue "sidebar-open" true true (λ v, Normal (stringify_bool v))
      parse_bool stringify_bool (λ _, false) full storedValue (inl (Some true))) =
  (Normal (),
   mkWorld (useLocalStorage.mkBrowser (Some true) {[ "sidebar-open" := "false" ]} [])
     [ConsoleError "Error setting localStorage key" "sidebar-open"
        (Error "QuotaExceededError")]).
Proof.
  intros full b.
  apply (setValue_failed_write_keeps_state "sidebar-open" true true
           (λ v, Normal (stringify_bool v)) parse_bool stringify_bool (λ _, false)
           full b true (Error "QuotaExceededError")).
  right. exists "true". split; reflexivity.
Defined.

(** [setValue(undefined)] is [removeItem()]: the two calls leave the same
    state, storage, dispatched events and console. *)
Theorem setValue_undefined_is_removeItem {T} key (parseJson : bool) syncAcrossTabs
    serializer deserializer toString raw setItem_throws storedValue
    (σ : World (useLocalStorage.Browser T)) :
  useLocalStorage.setValue key parseJson syncAcrossTabs serializer deserializer
    toString raw setItem_throws storedValue (inl None) σ =
  useLocalStorage.removeItem key parseJson syncAcrossTabs deserializer raw σ.
Proof.
  destruct σ as [b log].
  unfold useLocalStorage.setValue, useLocalStorage.removeItem.
  unfold try_catch, mbind, M_bind, mret at 1, M_ret at 1.
  unfold useLocalStorage.setStoredValue, useLocalStorage.localStorage_removeItem.
  unfold modify. cbn [state console useLocalStorage.storedValue
    useLocalStorage.localStorage useLocalStorage.dispatched fmap option_fmap option_map].
  destruct syncAcrossTabs; [|done]. unfold useLocalStorage.listeners.
  by rewrite !dispatchEvent_own.
Qed.

(** With [syncAcrossTabs] the hook hears its own event, whose [newValue] is
    [String(value)] and not the serialized text. After a [setValue(value)]
    whose write succeeds: if [String(value)] is empty the state is
    [undefined]; if the deserializer rejects [String(value)] the state is
    the value and the rejection is logged; if the deserializer accepts it
    the state is what the deserializer made of it. *)
Theorem setValue_sync_reads_back_String {T} key serializer deserializer
    toString raw setItem_throws (b : useLocalStorage.Browser T) v text :
  serializer v = Normal text →
  setItem_throws (useLocalStorage.localStorage b) key text = None →
  let result :=
    (useLocalStorage.run b (λ storedValue,
       useLocalStorage.setValue key true true serializer deserializer
         toString raw setItem_throws storedValue (inl (Some v)))).2 in
  useLocalStorage.dispatched (state result) =
    useLocalStorage.dispatched b ++
      [useLocalStorage.mkStorageEvent (Some key) (Some (toString v)) true] ∧
  (toString v = EmptyString →
     useLocalStorage.storedValue (state result) = None ∧ console result = []) ∧
  (∀ error, toString v ≠ EmptyString → deserializer (toString v) = Throw error →
     useLocalStorage.storedValue (state result) = Some v ∧
     console result =
       [ConsoleError "Error handling storage change for key" key error]) ∧
  (∀ v', toString v ≠ EmptyString → deserializer (toString v) = Normal v' →
     useLocalStorage.storedValue (state result) = Some v' ∧ console result = []).
Proof.
  intros Htext Hroom result. unfold result.
  rewrite (setValue_value_run key true true _ _ _ _ _ _ _ text) by done.
  cbv zeta. rewrite dispatchEvent_own. cbv zeta.
  cbn [useLocalStorage.dispatched useLocalStorage.storedValue
       useLocalStorage.localStorage].
  split; [|split; [|split]].
  - case_bool_decide; [|done]. by destruct (deserializer (toString v)).
  - intros Hempty. by rewrite bool_decide_false by (by intros []).
  - intros error Hne Hthrow. rewrite bool_decide_true by done. by rewrite Hthrow.
  - intros v' Hne Hok. rewrite bool_decide_true by done. by rewrite Hok.
Qed.

Lemma setValue_sync_reads_back_String_witness :
  let b : useLocalStorage.Browser () := useLocalStorage.mkBrowser None ∅ [] in
  let result :=
    (useLocalStorage.run b (λ storedValue,
       useLocalStorage.setValue "widget-config-status-widget-1" true true
         (λ _, Normal "{}") parse_empty_object (λ _, "[object Object]") (λ _, ())
         unlimited storedValue (inl (Some ())))).2 in
  useLocalStorage.storedValue (state result) = Some () ∧
  console result =
    [ConsoleError "Error handling storage change for key"
       "widget-config-status-widget-1" (SyntaxError "Unexpected token")].
Proof.
  intros b.
  exact (proj1 (proj2 (proj2
    (setValue_sync_reads_back_String "widget-config-status-widget-1"
       (λ _, Normal "{}") parse_empty_object (λ _, "[object Object]") (λ _, ())
       unlimited b () "{}" eq_refl eq_refl)))
    (SyntaxError "Unexpected token") ltac:(done) eq_refl).
Defined.

(** Two functional updates made in one render do not compose: the second
    function is applied to the value of the render, not to the result of
    the first, and its result is what state and storage hold afterwards. *)
Theorem setValue_functional_updates_last_wins {T} key (parseJson : bool) serializer
    deserializer toString raw setItem_throws (b : useLocalStorage.Browser T)
    (f g : option T → completion T) v1 v2 text1 text2 :
  f (useLocalStorage.storedValue b) = Normal v1 →
  g (useLocalStorage.storedValue b) = Normal v2 →
  (if parseJson then serializer v1 else Normal (toString v1)) = Normal text1 →
  (if parseJson then serializer v2 else Normal (toString v2)) = Normal text2 →
  (∀ storage text, setItem_throws storage key text = None) →
  let update (h : option T → completion T) storedValue :=
    useLocalStorage.setValue key parseJson false serializer deserializer
      toString raw setItem_throws storedValue
      (inr (λ current, v ← lift (h current); mret (Some v))) in
  useLocalStorage.next b (λ storedValue, update f storedValue;; update g storedValue) =
  useLocalStorage.mkBrowser (Some v2) (<[key := text2]> (useLocalStorage.localStorage b))
    (useLocalStorage.dispatched b).
Proof.
  intros Hf Hg Ht1 Ht2 Hroom update. unfold update.
  unfold useLocalStorage.next, useLocalStorage.run, useLocalStorage.setValue.
  unfold try_catch, mbind, M_bind, lift. rewrite Hf, Hg.
  unfold mret, M_ret, useLocalStorage.setStoredValue,
    useLocalStorage.localStorage_setItem, modify.
  cbn [state console useLocalStorage.storedValue useLocalStorage.localStorage
       useLocalStorage.dispatched].
  destruct parseJson.
  - unfold lift. rewrite Ht1. cbn [state console useLocalStorage.storedValue
      useLocalStorage.localStorage useLocalStorage.dispatched].
    rewrite Hroom. cbn [state console useLocalStorage.storedValue
      useLocalStorage.localStorage useLocalStorage.dispatched].
    rewrite Ht2. cbn [state console useLocalStorage.storedValue
      useLocalStorage.localStorage useLocalStorage.dispatched].
    rewrite Hroom. cbn [state console useLocalStorage.storedValue
      useLocalStorage.localStorage useLocalStorage.dispatched].
    by rewrite insert_insert_eq.
  - injection Ht1 as <-. injection Ht2 as <-.
    cbn [state console useLocalStorage.storedValue
      useLocalStorage.localStorage useLocalStorage.dispatched].
    rewrite Hroom. cbn [state console useLocalStorage.storedValue
      useLocalStorage.localStorage useLocalStorage.dispatched].
    rewrite Hroom. cbn [state console useLocalStorage.storedValue
      useLocalStorage.localStorage useLocalStorage.dispatched].
    by rewrite insert_insert_eq.
Qed.

Lemma setValue_functional_updates_last_wins_witness :
  let b := useLocalStorage.mkBrowser (Some false) {[ "sidebar-open" := "false" ]} [] in
  let toggle (current : option bool) : completion bool :=
    Normal (negb (default false current)) in
  let update storedValue :=
    useLocalStorage.setValue "sidebar-open" true false (λ v, Normal (stringify_bool v))
      parse_bool stringify_bool (λ _, false) unlimited storedValue
      (inr (λ current, v ← lift (toggle current); mret (Some v))) in
  useLocalStorage.next b (λ storedValue, update storedValue;; update storedValue) =
  useLocalStorage.mkBrowser (Some true) {[ "sidebar-open" := "true" ]} [].
Proof.
  intros b toggle.
  exact (setValue_functional_updates_last_wins "sidebar-open" true
           (λ v, Normal (stringify_bool v)) parse_bool stringify_bool (λ _, false)
           unlimited b toggle toggle true true "true" "true"
           eq_refl eq_refl eq_refl eq_refl (λ _ _, eq_refl)).
Defined.

(** The state-only model of [setValue] that the layout and configuration
    handlers are verified against is exact: without [syncAcrossTabs], the
    state the full hook leaves is the state that model leaves, for a value
    and for an updater function, whatever the serializer and the storage
    do. *)
Theorem setValue_state_refines {T} key (parseJson : bool) serializer deserializer toString raw
    setItem_throws (b : useLocalStorage.Browser T)
    (value : T + (option T → completion T)) :
  useLocalStorage.storedValue
    (useLocalStorage.next b (λ storedValue,
       useLocalStorage.setValue key parseJson false serializer deserializer
         toString raw setItem_throws storedValue
         match value with
         | inl v => inl (Some v)
         | inr f => inr (λ current, v ← lift (f current); mret (Some v))
         end)) =
  state (setValue key (useLocalStorage.storedValue b) (λ v, modify (λ _, Some v))
           match value with
           | inl v => inl v
           | inr f => inr (λ current, lift (f current))
           end
           (mkWorld (useLocalStorage.storedValue b) [])).2.
Proof.
  unfold useLocalStorage.next, useLocalStorage.run, useLocalStorage.setValue, setValue.
  destruct value as [v|f]; unfold_hook;
    cbn [state console useLocalStorage.storedValue useLocalStorage.localStorage
         useLocalStorage.dispatched].
  - destruct parseJson; [destruct (serializer v) as [text|error]; [|done]|];
      cbn [state console useLocalStorage.localStorage];
      by destruct (setItem_throws _ _ _).
  - destruct (f (useLocalStorage.storedValue b)) as [v|error]; [|done].
    destruct parseJson; [destruct (serializer v) as [text|error]; [|done]|];
      cbn [state console useLocalStorage.localStorage];
      by destruct (setItem_throws _ _ _).
Qed.

(** After [removeItem()] the state is [undefined] and the key is gone from
    the storage; the next mount does not find [undefined] but the default
    value of the hook. *)
Theorem removeItem_then_initialize {T} key (parseJson : bool) syncAcrossTabs
    (defaultValue : option T) deserializer raw (b : useLocalStorage.Browser T) :
  let b' :=
    useLocalStorage.next b (λ _,
      useLocalStorage.removeItem key parseJson syncAcrossTabs deserializer raw) in
  useLocalStorage.storedValue b' = None ∧
  useLocalStorage.localStorage b' = delete key (useLocalStorage.localStorage b) ∧
  useLocalStorage.run b' (λ _,
    useLocalStorage.initialize key parseJson defaultValue deserializer raw) =
  (Normal (),
   mkWorld (useLocalStorage.mkBrowser defaultValue (useLocalStorage.localStorage b')
              (useLocalStorage.dispatched b')) []).
Proof.
  intros b'.
  assert (useLocalStorage.storedValue b' = None ∧
          useLocalStorage.localStorage b' = delete key (useLocalStorage.localStorage b))
    as [Hstate Hstorage].
  { unfold b', useLocalStorage.next, useLocalStorage.run, useLocalStorage.removeItem.
    unfold try_catch, mbind, M_bind.
    unfold useLocalStorage.setStoredValue, useLocalStorage.localStorage_removeItem.
    unfold modify. cbn [state console useLocalStorage.storedValue
      useLocalStorage.localStorage useLocalStorage.dispatched].
    destruct syncAcrossTabs; [|done]. unfold useLocalStorage.listeners.
    by rewrite dispatchEvent_own. }
  split; [done|]. split; [done|].
  unfold useLocalStorage.run, useLocalStorage.initialize, getStoredValue.
  cbn [state]. rewrite Hstorage, lookup_delete_eq. unfold_hook.
  cbn [state console]. by rewrite Hstorage.
Qed.


(** * [useWidgetStorage] *)

Ltac unfold_storage :=
  unfold rerender, call, useWidgetStorage.data, useWidgetStorage.updateData,
    useWidgetStorage.setStorageData;
  unfold_handler; cbv beta iota.

(** A stored copy of another schema is migrated once. When [migrate]
    succeeds, the render shows the migrated data, the stored copy of the
    next render carries the migrated data under the current schema with
    its creation time kept, and from then on [data] returns the migrated
    data without calling [migrate] or writing. When [migrate] throws, the
    render shows the stored data, logs the error and leaves the stored copy
    as it is. *)
Theorem data_migration_settles {T} widgetId instanceId storageName
    (initialData : option T) schemaVersion migrate stored from now :
  WidgetStorageData.schema (WidgetStorageData.metadata stored) = Some from →
  from ≠ EmptyString → from ≠ schemaVersion →
  let data storageData now :=
    useWidgetStorage.data widgetId instanceId storageName initialData schemaVersion
      (Some migrate) storageData now in
  (∀ migrated now',
     migrate (WidgetStorageData.data stored) from schemaVersion = Normal migrated →
     let stored' := rerender (Some stored) (λ storageData, data storageData now) in
     (call (Some stored) (λ storageData, data storageData now)).1 =
       Normal (Some migrated) ∧
     stored' =
       Some (WidgetStorageData.mk migrated
               (WidgetStorageData.mkMetadata
                  (WidgetStorageData.widgetId (WidgetStorageData.metadata stored))
                  (WidgetStorageData.instanceId (WidgetStorageData.metadata stored))
                  schemaVersion
                  (WidgetStorageData.createdAt (WidgetStorageData.metadata stored))
                  (iso now) (Some schemaVersion))) ∧
     call stored' (λ storageData, data storageData now') =
       (Normal (Some migrated), mkWorld stored' [])) ∧
  (∀ error,
     migrate (WidgetStorageData.data stored) from schemaVersion = Throw error →
     call (Some stored) (λ storageData, data storageData now) =
       (Normal (Some (WidgetStorageData.data stored)),
        mkWorld (Some stored)
          [ConsoleError ("Error migrating widget data from " +:+ from +:+ " to " +:+
                         schemaVersion +:+ ":") EmptyString error])).
Proof.
  intros Hschema Hne Hold data. split.
  - intros migrated now' Hok stored'.
    assert (stored' =
       Some (WidgetStorageData.mk migrated
               (WidgetStorageData.mkMetadata
                  (WidgetStorageData.widgetId (WidgetStorageData.metadata stored))
                  (WidgetStorageData.instanceId (WidgetStorageData.metadata stored))
                  schemaVersion
                  (WidgetStorageData.createdAt (WidgetStorageData.metadata stored))
                  (iso now) (Some schemaVersion)))) as Hstored'.
    { unfold stored', data. unfold_storage. rewrite Hschema.
      rewrite !bool_decide_true by done. cbn [andb]. by rewrite Hok. }
    split; [|split; [done|]].
    + unfold data. unfold_storage. rewrite Hschema.
      rewrite !bool_decide_true by done. cbn [andb]. by rewrite Hok.
    + rewrite Hstored'. unfold data. unfold_storage.
      cbn [WidgetStorageData.schema WidgetStorageData.metadata WidgetStorageData.data].
      rewrite (bool_decide_false (schemaVersion ≠ schemaVersion)) by (by intros []).
      by rewrite andb_false_r.
  - intros error Hthrow. unfold data. unfold_storage. rewrite Hschema.
    rewrite !bool_decide_true by done. cbn [andb]. by rewrite Hthrow.
Qed.

Lemma data_migration_settles_witness :
  let stored :=
    WidgetStorageData.mk 7
      (WidgetStorageData.mkMetadata "counter" "widget-counter-1" "1.0.0"
         "2023-11-01T00:00:00.000Z" "2023-11-02T00:00:00.000Z" (Some "1.0.0")) in
  let migrate (count : Z) (_ _ : string) : completion Z := Normal (count * 10) in
  let data storageData now :=
    useWidgetStorage.data "counter" "widget-counter-1" "data" (Some 0) "2.0.0"
      (Some migrate) storageData now in
  let stored' := rerender (Some stored) (λ storageData, data storageData (second 1)) in
  (call (Some stored) (λ storageData, data storageData (second 1))).1 =
    Normal (Some 70) ∧
  call stored' (λ storageData, data storageData (second 2)) =
    (Normal (Some 70), mkWorld stored' []).
Proof.
  intros stored migrate data stored'.
  destruct (proj1 (data_migration_settles "counter" "widget-counter-1" "data" (Some 0)
                     "2.0.0" migrate stored "1.0.0" (second 1)
                     eq_refl ltac:(done) ltac:(done))
              70 (second 2) eq_refl) as (Hshown & _ & Hsettled).
  split; [exact Hshown|exact Hsettled].
Defined.

(** What [updateData] stores is what the next render shows, whatever the
    schema of the copy it replaces: when the new data, or the function
    applied to the data of the render, yields a value, the stored copy of
    the next render holds that value under the current schema, [data]
    returns it without calling [migrate] or writing, and the creation time
    is the one stored before, or the time of the call when there was
    none. *)
Theorem updateData_then_data {T} widgetId instanceId storageName
    (initialData : option T) schemaVersion migrate storageData
    (newData : T + (option T → completion T)) v now now' :
  match newData with
  | inl d => Normal d
  | inr f => f (WidgetStorageData.data <$> storageData)
  end = Normal v →
  let stored' :=
    rerender storageData (λ storageData,
      useWidgetStorage.updateData widgetId instanceId storageName schemaVersion
        storageData now newData) in
  stored' =
    Some (WidgetStorageData.mk v
            (WidgetStorageData.mkMetadata widgetId instanceId schemaVersion
               (or_string
                  (WidgetStorageData.createdAt ∘ WidgetStorageData.metadata <$>
                     storageData) (iso now))
               (iso now) (Some schemaVersion))) ∧
  call stored' (λ storageData,
    useWidgetStorage.data widgetId instanceId storageName initialData schemaVersion
      migrate storageData now') = (Normal (Some v), mkWorld stored' []).
Proof.
  intros Hv stored'.
  assert (stored' =
    Some (WidgetStorageData.mk v
            (WidgetStorageData.mkMetadata widgetId instanceId schemaVersion
               (or_string
                  (WidgetStorageData.createdAt ∘ WidgetStorageData.metadata <$>
                     storageData) (iso now))
               (iso now) (Some schemaVersion)))) as Hstored'.
  { unfold stored'. unfold_storage. destruct newData as [d|f].
    - by injection Hv as ->.
    - by rewrite Hv. }
  split; [done|]. rewrite Hstored'. unfold_storage.
  cbn [WidgetStorageData.schema WidgetStorageData.metadata WidgetStorageData.data].
  destruct migrate as [migrate|]; [|done].
  rewrite (bool_decide_false (schemaVersion ≠ schemaVersion)) by (by intros []).
  by rewrite andb_false_r.
Qed.

Lemma updateData_then_data_witness :
  let stored :=
    WidgetStorageData.mk 7
      (WidgetStorageData.mkMetadata "counter" "widget-counter-1" "1.0.0"
         "2023-11-01T00:00:00.000Z" "2023-11-02T00:00:00.000Z" (Some "1.0.0")) in
  let increment (count : option Z) : completion Z := Normal (default 0 count + 1) in
  let migrate (count : Z) (_ _ : string) : completion Z := Normal (count * 10) in
  let stored' :=
    rerender (Some stored) (λ storageData,
      useWidgetStorage.updateData "counter" "widget-counter-1" "data" "2.0.0"
        storageData (second 1) (inr increment)) in
  call stored' (λ storageData,
    useWidgetStorage.data "counter" "widget-counter-1" "data" (Some 0) "2.0.0"
      (Some migrate) storageData (second 2)) = (Normal (Some 8), mkWorld stored' []).
Proof.
  intros stored increment migrate.
  exact (proj2 (updateData_then_data "counter" "widget-counter-1" "data" (Some 0)
                  "2.0.0" (Some migrate) (Some stored) (inr increment) 8
                  (second 1) (second 2) eq_refl)).
Defined.




(** * [WidgetGrid] *)

(** A drop moves one widget and loses none: the new list is a permutation
    of the old one; and when the dragged id belongs to a widget, the first
    widget with that id ends up at the target index (at the end, when the
    index lies beyond it) and the other widgets keep their order. *)
Theorem handleDrop_moves_one_widget s widgetId targetIndex :
  WidgetGrid.activeWidgets (WidgetGrid.handleDrop s widgetId targetIndex) ≡ₚ
    WidgetGrid.activeWidgets s ∧
  ∀ sourceIndex movedWidget,
    list_find (λ w, Widget.id w = widgetId) (WidgetGrid.activeWidgets s) =
      Some (sourceIndex, movedWidget) →
    let newWidgets :=
      WidgetGrid.activeWidgets (WidgetGrid.handleDrop s widgetId targetIndex) in
    let index := (targetIndex `min` (length (WidgetGrid.activeWidgets s) - 1))%nat in
    newWidgets !! index = Some movedWidget ∧
    delete index newWidgets = delete sourceIndex (WidgetGrid.activeWidgets s).
Proof.
  unfold WidgetGrid.handleDrop, WidgetGrid.splice_insert.
  destruct (list_find _ (WidgetGrid.activeWidgets s)) as [[i moved]|] eqn:Hfind.
  - apply list_find_Some in Hfind as (Hi & _ & _).
    cbn [WidgetGrid.activeWidgets]. split.
    + rewrite <- Permutation_middle, take_drop. symmetry. by apply delete_Permutation.
    + intros ? ? [= <- <-].
      assert ((targetIndex `min` (length (WidgetGrid.activeWidgets s) - 1))%nat =
              length (take targetIndex (delete i (WidgetGrid.activeWidgets s))))
        as ->.
      { rewrite length_take, length_delete by eauto. done. }
      split; [by apply list_lookup_middle|].
      by rewrite delete_middle, take_drop.
  - split; [done|]. intros ? ? [=].
Qed.

Lemma handleDrop_moves_one_widget_witness :
  let widget id := Widget.mk id id "status-widget" (mkElement "StatusWidget" id id ∅ small) small tools in
  let s := WidgetGrid.mk [widget "a"; widget "b"; widget "c"; widget "d"] (Some "a") [] in
  list_find (λ w, Widget.id w = "a") (WidgetGrid.activeWidgets s) =
    Some (0%nat, widget "a") ∧
  WidgetGrid.activeWidgets (WidgetGrid.handleDrop s "a" 2) !! 2%nat = Some (widget "a") ∧
  delete 2%nat (WidgetGrid.activeWidgets (WidgetGrid.handleDrop s "a" 2)) =
    [widget "b"; widget "c"; widget "d"].
Proof.
  intros widget s.
  assert (list_find (λ w, Widget.id w = "a") (WidgetGrid.activeWidgets s) =
            Some (0%nat, widget "a")) as Hfind by reflexivity.
  split; [exact Hfind|].
  exact (proj2 (handleDrop_moves_one_widget s "a" 2) 0%nat (widget "a") Hfind).
Defined.

Lemma handleResizeWidget_activeWidgets s id :
  WidgetGrid.activeWidgets (WidgetGrid.handleResizeWidget s id) =
  (λ widget,
     if bool_decide (Widget.id widget = id) then
       WidgetGrid.with_size widget (WidgetGrid.nextSize (Widget.size widget))
     else widget) <$> WidgetGrid.activeWidgets s.
Proof. done. Qed.

(** Resizing cycles with period three: three presses of the resize button of
    a widget, a render after each, give every widget its size back, and the
    list of widgets is the one before the first press. *)
Theorem handleResizeWidget_period_three s id :
  let resize s := WidgetGrid.handleResizeWidget s id in
  WidgetGrid.activeWidgets (resize (resize (resize s))) = WidgetGrid.activeWidgets s.
Proof.
  intros resize. unfold resize. rewrite !handleResizeWidget_activeWidgets.
  rewrite <- !list_fmap_compose.
  rewrite <- (list_fmap_id (WidgetGrid.activeWidgets s)) at 2.
  apply list_fmap_ext. intros _ widget _. unfold compose.
  set (press := λ widget : Widget.t,
         if bool_decide (Widget.id widget = id) then
           WidgetGrid.with_size widget (WidgetGrid.nextSize (Widget.size widget))
         else widget).
  change (press (press (press widget)) = widget).
  destruct (decide (Widget.id widget = id)) as [Hid|Hne].
  - assert (∀ w, Widget.id w = id →
              press w = WidgetGrid.with_size w (WidgetGrid.nextSize (Widget.size w)))
      as Hpress.
    { intros w Hw. unfold press. by rewrite bool_decide_true. }
    assert (∀ w, Widget.id (press w) = Widget.id w) as Hkeep.
    { intros w. unfold press. by case_bool_decide. }
    rewrite (Hpress (press (press widget))) by (by rewrite !Hkeep).
    rewrite (Hpress (press widget)) by (by rewrite Hkeep).
    rewrite (Hpress widget) by done.
    by destruct widget as [? ? ? ? [] ?].
  - assert (press widget = widget) as Hpress.
    { unfold press. by rewrite bool_decide_false. }
    by rewrite !Hpress.
Qed.

(** * [WidgetSearch] *)

Lemma NoDup_take {A} (l : list A) n : NoDup l → NoDup (take n l).
Proof.
  intros Hl. eapply sublist_NoDup; [exact Hl|]. apply sublist_take.
Qed.

(** The recent searches stay a short list without repetition: whatever the
    user types, searches, clears, picks and removes, a list of at most five
    distinct entries, none of them blank, stays one. *)
Theorem recentSearches_invariant (trim : string → string) events s :
  let invariant s :=
    (length (WidgetSearch.recentSearches s) ≤ 5)%nat ∧
    NoDup (WidgetSearch.recentSearches s) ∧
    Forall (λ search, trim search ≠ EmptyString) (WidgetSearch.recentSearches s) in
  invariant s → invariant (foldl (WidgetSearch.step trim) s events).
Proof.
  intros invariant. revert s.
  induction events as [|event events IH]; intros s Hinv; [done|].
  simpl. apply IH. destruct Hinv as (Hlen & Hdup & Hblank).
  destruct event as [value| | |search|search]; simpl; try done.
  - unfold WidgetSearch.handleSearch.
    case_bool_decide as Htrim; [|done].
    case_bool_decide as Hin; [done|].
    unfold invariant. cbn [WidgetSearch.recentSearches]. split; [|split].
    + assert (length (take 4 (WidgetSearch.recentSearches s)) ≤ 4)%nat
        by (rewrite length_take; lia).
      rewrite length_cons. lia.
    + apply NoDup_cons. split; [|by apply NoDup_take].
      intros Hin'. apply Hin. by eapply subseteq_take.
    + apply Forall_cons. split; [done|]. by apply Forall_take.
  - unfold invariant, WidgetSearch.removeRecentSearch.
    cbn [WidgetSearch.recentSearches]. split; [|split].
    + etrans; [apply length_filter|done].
    + by apply NoDup_filter.
    + apply Forall_forall. intros search' [_ Hin]%list_elem_of_filter.
      by eapply Forall_forall in Hblank.
Qed.

Lemma recentSearches_invariant_witness :
  let trim (s : string) := if bool_decide (s = " ") then EmptyString else s in
  let events :=
    [WidgetSearch.Input "chart"; WidgetSearch.Enter; WidgetSearch.Input " ";
     WidgetSearch.Enter; WidgetSearch.Input "status"; WidgetSearch.Enter;
     WidgetSearch.Pick "chart"; WidgetSearch.Enter; WidgetSearch.Remove "status"] in
  let s := foldl (WidgetSearch.step trim) (WidgetSearch.mk EmptyString [] []) events in
  (length (WidgetSearch.recentSearches s) ≤ 5)%nat ∧
  NoDup (WidgetSearch.recentSearches s) ∧
  Forall (λ search, trim search ≠ EmptyString) (WidgetSearch.recentSearches s).
Proof.
  intros trim events.
  apply (recentSearches_invariant trim events (WidgetSearch.mk EmptyString [] [])).
  split; [simpl; lia|]. split; [apply NoDup_nil_2|apply Forall_nil_2].
Defined.


(** * [useWidgetState] *)

Ltac unfold_state :=
  unfold rerender, call, useWidgetState.toggleStateProperty,
    useWidgetState.setStateProperty, useWidgetState.updateState,
    useWidgetState.setState;
  unfold_handler; cbv beta iota.

Lemma toggleStateProperty_rerender widgetId instanceId state now property :
  rerender state (λ state,
    useWidgetState.toggleStateProperty widgetId instanceId state now property) =
  Some (<["lastUpdated" := JString (iso now)]>
          (<[property := JBool (negb (truthy (default ∅ state !! property)))]>
             (default ∅ state) ∪ default ∅ state)).
Proof. by unfold_state. Qed.

(** Two presses of a toggle, a render after each, leave the truth value of
    the property as a boolean: a property that was absent is [false]
    afterwards, not absent, and a truthy one is [true]. The first press
    stores the negation. The other properties, [lastUpdated] apart, are
    as before. *)
Theorem toggleStateProperty_twice widgetId instanceId state now now' property :
  property ≠ "lastUpdated" →
  let toggle now state :=
    useWidgetState.toggleStateProperty widgetId instanceId state now property in
  let state1 := rerender state (toggle now) in
  let state2 := rerender state1 (toggle now') in
  let before := default ∅ state in
  default ∅ state1 !! property = Some (JBool (negb (truthy (before !! property)))) ∧
  default ∅ state2 !! property = Some (JBool (truthy (before !! property))) ∧
  ∀ other, other ≠ property → other ≠ "lastUpdated" →
    default ∅ state2 !! other = before !! other.
Proof.
  intros Hproperty toggle state1 state2 before.
  assert (∀ now state value,
    (<["lastUpdated" := JString (iso now)]>
       (<[property := value]> state ∪ state) : gmap string any) !! property =
    Some value) as Hset.
  { intros ? ? ?. rewrite lookup_insert_ne by done.
    apply lookup_union_Some_l, lookup_insert_eq. }
  assert (∀ now state value other, other ≠ property → other ≠ "lastUpdated" →
    (<["lastUpdated" := JString (iso now)]>
       (<[property := value]> state ∪ state) : gmap string any) !! other =
    state !! other) as Hkeep.
  { intros ? st ? other ? ?. rewrite lookup_insert_ne by done.
    destruct (st !! other) as [v|] eqn:Hother.
    - apply lookup_union_Some_l. by rewrite lookup_insert_ne.
    - apply lookup_union_None. by rewrite lookup_insert_ne. }
  unfold state2, state1, toggle. rewrite !toggleStateProperty_rerender.
  cbn [default from_option Datatypes.id]. fold before.
  split; [apply Hset|]. split.
  - rewrite Hset. rewrite Hset. cbn [truthy]. by rewrite negb_involutive.
  - intros other Ho1 Ho2. by rewrite !Hkeep.
Qed.

Lemma toggleStateProperty_twice_witness :
  let state : option (gmap string any) := Some {[ "isExpanded" := JBool true ]} in
  let toggle now state :=
    useWidgetState.toggleStateProperty "status-widget" "widget-status-widget-1" state
      now "isCollapsed" in
  let state2 := rerender (rerender state (toggle (second 1))) (toggle (second 2)) in
  default ∅ state2 !! "isCollapsed" = Some (JBool false) ∧
  default ∅ state2 !! "isExpanded" = Some (JBool true).
Proof.
  intros state toggle state2.
  destruct (toggleStateProperty_twice "status-widget" "widget-status-widget-1" state
              (second 1) (second 2) "isCollapsed" ltac:(done))
    as (_ & Htwice & Hother).
  split; [exact Htwice|].
  exact (Hother "isExpanded" ltac:(done) ltac:(done)).
Defined.



(** * [WidgetEditor] *)

Lemma formValues_lookup (formData : list (string * any)) (start : gmap string any) key :
  foldl (λ formValues entry, <[entry.1 := entry.2]> formValues) start formData !! key =
  match last (filter (λ entry, entry.1 = key) formData) with
  | Some entry => Some entry.2
  | None => start !! key
  end.
Proof.
  revert start. induction formData as [|[k v] formData IH]; intros start; [done|].
  cbn [foldl]. rewrite IH. cbn [fst snd].
  destruct (decide (k = key)) as [->|Hne].
  - rewrite filter_cons_True by done. rewrite last_cons.
    destruct (last (filter _ formData)); [done|]. by rewrite lookup_insert_eq.
  - rewrite filter_cons_False by done. by rewrite lookup_insert_ne.
Qed.

(** The settings form updates partially: after [handleSettingsSubmit] the
    configuration has, for every key of the form, the value of the last
    entry of the form with that key, and for every other key what it had
    before. *)
Theorem handleSettingsSubmit_merges widgetRegistry widgetId instanceId configData now
    formData key :
  let config := useWidgetConfig.config widgetRegistry widgetId None in
  let configData' :=
    after configData (λ stored,
      handleSettingsSubmit widgetRegistry widgetId instanceId stored now formData) in
  config configData' !! key =
  match last (filter (λ entry, entry.1 = key) formData) with
  | Some entry => Some entry.2
  | None => config configData !! key
  end.
Proof.
  intros config configData'. unfold config, configData', handleSettingsSubmit.
  cbv zeta. pose proof (formValues_lookup formData ∅ key) as Hform.
  rewrite lookup_empty in Hform.
  set (formValues := foldl _ ∅ formData) in *.
  rewrite (updateConfig_function _ _ _ _ _ _
             (λ currentConfig, Normal (formValues ∪ currentConfig)) _ eq_refl).
  destruct (last (filter _ formData)) as [entry|].
  - by apply lookup_union_Some_l.
  - destruct (useWidgetConfig.config _ _ _ configData !! key) as [v|] eqn:Hold.
    + rewrite lookup_union_r; done.
    + apply lookup_union_None. done.
Qed.


(** * The widget hooks over the browser *)

Ltac unfold_browser :=
  unfold useLocalStorage.next, useLocalStorage.run; unfold_hook.

Lemma initialize_next {T} key (defaultValue : option T) deserializer raw
    (b : useLocalStorage.Browser T) :
  useLocalStorage.next b (λ _,
    useLocalStorage.initialize key true defaultValue deserializer raw) =
  useLocalStorage.mkBrowser
    match useLocalStorage.localStorage b !! key with
    | Some item =>
        if bool_decide (item ≠ EmptyString) then
          match deserializer item with
          | Normal v => Some v
          | Throw _ => defaultValue
          end
        else defaultValue
    | None => defaultValue
    end
    (useLocalStorage.localStorage b) (useLocalStorage.dispatched b).
Proof.
  unfold_browser. cbn [state console].
  destruct (useLocalStorage.localStorage b !! key) as [item|]; [|done].
  case_bool_decide; [|done]. by destruct (deserializer item).
Qed.

Lemma removeItem_next {T} key deserializer raw (b : useLocalStorage.Browser T) :
  useLocalStorage.next b (λ _,
    useLocalStorage.removeItem key true false deserializer raw) =
  useLocalStorage.mkBrowser None (delete key (useLocalStorage.localStorage b))
    (useLocalStorage.dispatched b).
Proof. by unfold_browser. Qed.

Lemma setValue_value_next {T} key serializer deserializer toString raw setItem_throws
    (b : useLocalStorage.Browser T) v text :
  serializer v = Normal text →
  setItem_throws (useLocalStorage.localStorage b) key text = None →
  useLocalStorage.next b (λ storedValue,
    useLocalStorage.setValue key true false serializer deserializer toString raw
      setItem_throws storedValue (inl (Some v))) =
  useLocalStorage.mkBrowser (Some v) (<[key := text]> (useLocalStorage.localStorage b))
    (useLocalStorage.dispatched b).
Proof.
  intros Htext Hroom. unfold useLocalStorage.next.
  by rewrite (setValue_value_run key true false _ _ _ _ _ _ _ text).
Qed.

Lemma setValue_updater_storedValue {T} key serializer deserializer toString raw
    setItem_throws (b : useLocalStorage.Browser T) (f : option T → completion T) v :
  f (useLocalStorage.storedValue b) = Normal v →
  useLocalStorage.storedValue
    (useLocalStorage.next b (λ storedValue,
       useLocalStorage.setValue key true false serializer deserializer toString raw
         setItem_throws storedValue
         (inr (λ current, v ← lift (f current); mret (Some v))))) = Some v.
Proof.
  intros Hf. unfold_browser. rewrite Hf.
  cbn [state console useLocalStorage.storedValue useLocalStorage.localStorage
       useLocalStorage.dispatched].
  destruct (serializer v) as [text|error]; [|done].
  cbn [state console useLocalStorage.localStorage].
  by destruct (setItem_throws _ _ _).
Qed.

Lemma setValue_updater_next {T} key serializer deserializer toString raw setItem_throws
    (b : useLocalStorage.Browser T) (f : option T → completion T) v text :
  f (useLocalStorage.storedValue b) = Normal v →
  serializer v = Normal text →
  setItem_throws (useLocalStorage.localStorage b) key text = None →
  useLocalStorage.next b (λ storedValue,
    useLocalStorage.setValue key true false serializer deserializer toString raw
      setItem_throws storedValue
      (inr (λ current, v ← lift (f current); mret (Some v)))) =
  useLocalStorage.mkBrowser (Some v) (<[key := text]> (useLocalStorage.localStorage b))
    (useLocalStorage.dispatched b).
Proof.
  intros Hf Htext Hroom. unfold_browser. rewrite Hf.
  cbn [state console useLocalStorage.storedValue useLocalStorage.localStorage
       useLocalStorage.dispatched].
  rewrite Htext. cbn [state console useLocalStorage.localStorage]. by rewrite Hroom.
Qed.

(** ** [useWidgetConfig]: reset and clear *)

(** After [resetConfig] and after [clearConfig] the widget sees the same
    configuration. The default value of [useWidgetConfig] is a new object
    in every render, so the state is read back after the render that
    follows the call: after [resetConfig] (the copy being written and
    reading back as written) it is the copy made at the call; after
    [clearConfig] nothing is stored and it is the default value of that
    render, not [undefined]. In both, [config] is the initial configuration
    of the hook, or the default configuration of the registry when there is
    none. *)
Theorem resetConfig_clearConfig_same_config widgetRegistry widgetId instanceId
    initialConfig stringify parse toString raw setItem_throws
    (b : useLocalStorage.Browser WidgetConfigData) now now' text :
  let copy :=
    useWidgetConfig_browser.defaultValue widgetRegistry widgetId instanceId
      initialConfig in
  let key := useWidgetConfig_browser.storageKey widgetId instanceId in
  stringify (copy now) = Normal text → text ≠ EmptyString →
  parse text = Normal (copy now) →
  setItem_throws (useLocalStorage.localStorage b) key text = None →
  let rendered b :=
    useLocalStorage.next b (λ _,
      useWidgetConfig_browser.effects widgetRegistry widgetId instanceId initialConfig
        parse raw now') in
  let reset :=
    rendered (useLocalStorage.next b (λ configData,
      useWidgetConfig_browser.resetConfig widgetRegistry widgetId instanceId
        initialConfig false stringify parse toString raw setItem_throws configData
        now)) in
  let cleared :=
    rendered (useLocalStorage.next b (λ _,
      useWidgetConfig_browser.clearConfig widgetId instanceId false parse raw)) in
  let config := useWidgetConfig.config widgetRegistry widgetId initialConfig in
  useLocalStorage.storedValue reset = Some (copy now) ∧
  useLocalStorage.storedValue cleared = Some (copy now') ∧
  useLocalStorage.localStorage cleared !! key = None ∧
  config (useLocalStorage.storedValue reset) =
    default (useWidgetConfig.defaultConfig widgetRegistry widgetId) initialConfig ∧
  config (useLocalStorage.storedValue cleared) =
    config (useLocalStorage.storedValue reset).
Proof.
  intros copy key Htext Hne Hback Hroom rendered reset cleared config.
  assert (reset = useLocalStorage.mkBrowser (Some (copy now))
                    (<[key := text]> (useLocalStorage.localStorage b))
                    (useLocalStorage.dispatched b)) as ->.
  { unfold reset, rendered, useWidgetConfig_browser.resetConfig,
      useWidgetConfig_browser.setConfigData, useWidgetConfig_browser.effects.
    fold key. rewrite (setValue_value_next key _ _ _ _ _ _ (copy now) text) by done.
    rewrite initialize_next. cbn [useLocalStorage.localStorage useLocalStorage.dispatched].
    by rewrite lookup_insert_eq, bool_decide_true, Hback by done. }
  assert (cleared = useLocalStorage.mkBrowser (Some (copy now'))
                      (delete key (useLocalStorage.localStorage b))
                      (useLocalStorage.dispatched b)) as ->.
  { unfold cleared, rendered, useWidgetConfig_browser.clearConfig,
      useWidgetConfig_browser.removeConfig, useWidgetConfig_browser.effects.
    fold key. rewrite removeItem_next, initialize_next.
    cbn [useLocalStorage.localStorage useLocalStorage.dispatched].
    by rewrite lookup_delete_eq. }
  cbn [useLocalStorage.storedValue useLocalStorage.localStorage].
  split; [done|]. split; [done|]. split; [apply lookup_delete_eq|]. done.
Qed.

Lemma resetConfig_clearConfig_same_config_witness :
  let copy :=
    useWidgetConfig_browser.defaultValue widgetRegistry "status-widget"
      "widget-status-widget-1" None in
  let b : useLocalStorage.Browser WidgetConfigData :=
    useLocalStorage.mkBrowser None ∅ [] in
  let rendered b :=
    useLocalStorage.next b (λ _,
      useWidgetConfig_browser.effects widgetRegistry "status-widget"
        "widget-status-widget-1" None (constant_value (copy (second 1)))
        (λ _, copy (second 1)) (second 2)) in
  let cleared :=
    rendered (useLocalStorage.next b (λ _,
      useWidgetConfig_browser.clearConfig "status-widget" "widget-status-widget-1" false
        (constant_value (copy (second 1))) (λ _, copy (second 1)))) in
  useLocalStorage.storedValue cleared = Some (copy (second 2)).
Proof.
  intros copy b.
  exact (proj1 (proj2
    (resetConfig_clearConfig_same_config widgetRegistry "status-widget"
       "widget-status-widget-1" None constant_text (constant_value (copy (second 1)))
       (λ _, "[object Object]") (λ _, copy (second 1)) unlimited b
       (second 1) (second 2) "{...}" eq_refl ltac:(done) eq_refl eq_refl))).
Defined.

(** ** [useWidgetStorage]: reset and clear *)

(** After [resetData] and after [clearData] the widget sees the same data,
    the initial data of the hook. With initial data the default value is a
    new object in every render and the state is read back after the render
    that follows the call: after [clearData] it is the default copy of that
    render, not [undefined], and after [resetData] (the copy being written
    and reading back as written) the copy made at the call, which keeps the
    creation time stored before. Without initial data both calls remove the
    stored copy and the state stays [undefined]. In every case [data]
    returns the initial data, migrates nothing and writes nothing. *)
Theorem resetData_clearData_show_initialData {T} widgetId instanceId storageName
    (initialData : option T) schemaVersion migrate stringify parse toString raw
    setItem_throws (b : useLocalStorage.Browser (WidgetStorageData.t T))
    now now' now'' :
  let key := useWidgetStorage_browser.storageKey widgetId instanceId storageName in
  let copy initial :=
    WidgetStorageData.mk initial
      (WidgetStorageData.mkMetadata widgetId instanceId schemaVersion
         (or_string
            (WidgetStorageData.createdAt ∘ WidgetStorageData.metadata <$>
               useLocalStorage.storedValue b) (iso now))
         (iso now) (Some schemaVersion)) in
  (∀ initial, initialData = Some initial →
     ∃ text, stringify (copy initial) = Normal text ∧ text ≠ EmptyString ∧
       parse text = Normal (copy initial) ∧
       setItem_throws (useLocalStorage.localStorage b) key text = None) →
  let rendered b :=
    useLocalStorage.next b (λ _,
      useWidgetStorage_browser.effects widgetId instanceId storageName initialData
        schemaVersion parse raw now') in
  let reset :=
    rendered (useLocalStorage.next b (λ storageData,
      useWidgetStorage_browser.resetData widgetId instanceId storageName initialData
        schemaVersion false stringify parse toString raw setItem_throws storageData
        now)) in
  let cleared :=
    rendered (useLocalStorage.next b (λ _,
      useWidgetStorage_browser.clearData widgetId instanceId storageName false
        parse raw)) in
  let data storageData :=
    useWidgetStorage.data widgetId instanceId storageName initialData schemaVersion
      migrate storageData now'' in
  useLocalStorage.storedValue reset = copy <$> initialData ∧
  useLocalStorage.storedValue cleared =
    useWidgetStorage_browser.defaultValue widgetId instanceId initialData
      schemaVersion now' ∧
  useLocalStorage.localStorage cleared !! key = None ∧
  call (useLocalStorage.storedValue reset) data =
    (Normal initialData, mkWorld (useLocalStorage.storedValue reset) []) ∧
  call (useLocalStorage.storedValue cleared) data =
    (Normal initialData, mkWorld (useLocalStorage.storedValue cleared) []).
Proof.
  intros key copy Hcodec rendered reset cleared data.
  assert (cleared = useLocalStorage.mkBrowser
                      (useWidgetStorage_browser.defaultValue widgetId instanceId
                         initialData schemaVersion now')
                      (delete key (useLocalStorage.localStorage b))
                      (useLocalStorage.dispatched b)) as ->.
  { unfold cleared, rendered, useWidgetStorage_browser.clearData,
      useWidgetStorage_browser.removeData, useWidgetStorage_browser.effects.
    fold key. rewrite removeItem_next.
    destruct initialData as [initial|].
    - rewrite initialize_next.
      cbn [useLocalStorage.localStorage useLocalStorage.dispatched].
      by rewrite lookup_delete_eq.
    - by unfold_browser. }
  assert (useLocalStorage.storedValue reset = copy <$> initialData) as Hreset.
  { unfold reset, rendered. destruct initialData as [initial|].
    - destruct (Hcodec initial eq_refl) as (text & Htext & Hne & Hback & Hroom).
      assert (useLocalStorage.next b (λ storageData,
                useWidgetStorage_browser.resetData widgetId instanceId storageName
                  (Some initial) schemaVersion false stringify parse toString raw
                  setItem_throws storageData now) =
              useLocalStorage.mkBrowser (Some (copy initial))
                (<[key := text]> (useLocalStorage.localStorage b))
                (useLocalStorage.dispatched b)) as ->.
      { exact (setValue_value_next key stringify parse toString raw setItem_throws b
                 (copy initial) text Htext Hroom). }
      unfold useWidgetStorage_browser.effects. fold key. rewrite initialize_next.
      cbn [useLocalStorage.localStorage useLocalStorage.dispatched
           useLocalStorage.storedValue].
      by rewrite lookup_insert_eq, bool_decide_true, Hback by done.
    - unfold useWidgetStorage_browser.resetData, useWidgetStorage_browser.removeData,
        useWidgetStorage_browser.effects.
      rewrite removeItem_next. by unfold_browser. }
  rewrite Hreset. cbn [useLocalStorage.storedValue useLocalStorage.localStorage].
  split; [done|]. split; [done|]. split; [apply lookup_delete_eq|].
  unfold data, useWidgetStorage_browser.defaultValue.
  destruct initialData as [initial|]; [|by split].
  cbn [fmap option_fmap option_map]. unfold copy.
  split; unfold_storage;
    cbn [WidgetStorageData.schema WidgetStorageData.metadata WidgetStorageData.data];
    (destruct migrate as [migrate|]; [|done]);
    rewrite (bool_decide_false (schemaVersion ≠ schemaVersion)) by (by intros []);
    by rewrite andb_false_r.
Qed.

Lemma resetData_clearData_show_initialData_witness :
  let stored :=
    WidgetStorageData.mk 7
      (WidgetStorageData.mkMetadata "counter" "widget-counter-1" "1.0.0"
         "2023-11-01T00:00:00.000Z" "2023-11-02T00:00:00.000Z" (Some "1.0.0")) in
  let copy :=
    WidgetStorageData.mk 0
      (WidgetStorageData.mkMetadata "counter" "widget-counter-1" "1.0.0"
         "2023-11-01T00:00:00.000Z" (iso (second 1)) (Some "1.0.0")) in
  let b : useLocalStorage.Browser (WidgetStorageData.t Z) :=
    useLocalStorage.mkBrowser (Some stored) {[ "widget-storage-counter-widget-counter-1-data" := "{...}" ]} [] in
  let rendered b :=
    useLocalStorage.next b (λ _,
      useWidgetStorage_browser.effects "counter" "widget-counter-1" "data" (Some 0)
        "1.0.0" (constant_value copy) (λ _, copy) (second 2)) in
  let reset :=
    rendered (useLocalStorage.next b (λ storageData,
      useWidgetStorage_browser.resetData "counter" "widget-counter-1" "data" (Some 0)
        "1.0.0" false constant_text (constant_value copy) (λ _, "[object Object]")
        (λ _, copy) unlimited storageData (second 1))) in
  let cleared :=
    rendered (useLocalStorage.next b (λ _,
      useWidgetStorage_browser.clearData "counter" "widget-counter-1" "data" false
        (constant_value copy) (λ _, copy))) in
  useLocalStorage.storedValue reset = Some copy ∧
  useLocalStorage.storedValue cleared =
    useWidgetStorage_browser.defaultValue "counter" "widget-counter-1" (Some 0) "1.0.0"
      (second 2).
Proof.
  intros stored copy b.
  destruct (resetData_clearData_show_initialData "counter" "widget-counter-1" "data"
              (Some 0) "1.0.0" None constant_text (constant_value copy)
              (λ _, "[object Object]") (λ _, copy) unlimited b
              (second 1) (second 2) (second 3)) as (Hreset & Hcleared & _).
  - intros initial [= <-]. exists "{...}". repeat split; done.
  - split; [exact Hreset|exact Hcleared].
Defined.

(** ** [useWidgetState]: a toggle after [clearState] *)

(** What a toggle after [clearState] starts from depends on the
    [initialState] the hook is given. When it is the same object in every
    render, the state stays [undefined] after [clearState], the hook shows
    [initialState], and the toggle starts from the empty state: it stores
    [true] for the property whatever [initialState] says of it, and the
    other properties of [initialState] are no longer shown. When it is a
    new object in every render, the state is read back after the render,
    nothing is stored, the state is [initialState] again, and the toggle
    (its write succeeding and reading back) negates the property of
    [initialState] and keeps the others. *)
Theorem toggleStateProperty_after_clearState widgetId instanceId initialState
    (fresh : bool) stringify parse toString raw setItem_throws
    (b : useLocalStorage.Browser (gmap string any)) now property text :
  property ≠ "lastUpdated" →
  let key := useWidgetState_browser.storageKey widgetId instanceId in
  let start : gmap string any := if fresh then initialState else ∅ in
  let value : gmap string any :=
    <["lastUpdated" := JString (iso now)]>
      (<[property := JBool (negb (truthy (start !! property)))]> start ∪ start) in
  (fresh = true →
   stringify value = Normal text ∧ text ≠ EmptyString ∧ parse text = Normal value ∧
   setItem_throws (delete key (useLocalStorage.localStorage b)) key text = None) →
  let rendered b :=
    useLocalStorage.next b (λ _,
      useWidgetState_browser.effects widgetId instanceId initialState fresh parse raw) in
  let cleared :=
    rendered (useLocalStorage.next b (λ _,
      useWidgetState_browser.clearState widgetId instanceId false parse raw)) in
  let toggled :=
    rendered (useLocalStorage.next cleared (λ state,
      useWidgetState_browser.toggleStateProperty widgetId instanceId false stringify
        parse toString raw setItem_throws state now property)) in
  let shown b := useWidgetState_browser.returned initialState (useLocalStorage.storedValue b) in
  useLocalStorage.storedValue cleared = (if fresh then Some initialState else None) ∧
  shown cleared = initialState ∧
  useLocalStorage.storedValue toggled = Some value ∧
  shown toggled !! property = Some (JBool (negb (truthy (start !! property)))) ∧
  ∀ other, other ≠ property → other ≠ "lastUpdated" →
    shown toggled !! other = start !! other.
Proof.
  intros Hproperty key start value Hcodec rendered cleared toggled shown.
  assert (cleared = useLocalStorage.mkBrowser (if fresh then Some initialState else None)
                      (delete key (useLocalStorage.localStorage b))
                      (useLocalStorage.dispatched b)) as Hcleared.
  { unfold cleared, rendered, useWidgetState_browser.clearState,
      useWidgetState_browser.removeState, useWidgetState_browser.effects.
    fold key. rewrite removeItem_next. destruct fresh; [|by unfold_browser].
    rewrite initialize_next.
    cbn [useLocalStorage.localStorage useLocalStorage.dispatched].
    by rewrite lookup_delete_eq. }
  assert (default ∅ (useLocalStorage.storedValue cleared) = start) as Hstart.
  { rewrite Hcleared. unfold start. by destruct fresh. }
  set (f := λ current : option (gmap string any),
         Normal (<["lastUpdated" := JString (iso now)]>
                   (<[property := JBool (negb (truthy (default ∅ current !! property)))]>
                      (default ∅ current) ∪ default ∅ current)) : completion _).
  assert (f (useLocalStorage.storedValue cleared) = Normal value) as Hf.
  { unfold f. by rewrite Hstart. }
  assert (useLocalStorage.storedValue toggled = Some value) as Htoggled.
  { unfold toggled, rendered, useWidgetState_browser.toggleStateProperty,
      useWidgetState_browser.updateState, useWidgetState_browser.setState,
      useWidgetState_browser.effects.
    fold key.
    change (useLocalStorage.storedValue
              (useLocalStorage.next
                 (useLocalStorage.next cleared (λ state,
                    useLocalStorage.setValue key true false stringify parse toString raw
                      setItem_throws state
                      (inr (λ current, v ← lift (f current); mret (Some v)))))
                 (λ _, if fresh
                       then useLocalStorage.initialize key true (Some initialState)
                              parse raw
                       else mret ())) = Some value).
    destruct fresh.
    - destruct (Hcodec eq_refl) as (Htext & Hne & Hback & Hroom).
      rewrite (setValue_updater_next key _ _ _ _ _ _ f value text); [|done..|].
      + rewrite initialize_next.
        cbn [useLocalStorage.localStorage useLocalStorage.dispatched
             useLocalStorage.storedValue].
        by rewrite lookup_insert_eq, bool_decide_true, Hback by done.
      + by rewrite Hcleared.
    - pose proof (setValue_updater_storedValue key stringify parse toString raw
                    setItem_throws cleared f value Hf) as Hstored.
      revert Hstored. by unfold_browser. }
  split; [by rewrite Hcleared|].
  split; [unfold shown; rewrite Hcleared; by destruct fresh|].
  split; [done|].
  unfold shown, useWidgetState_browser.returned. rewrite Htoggled.
  cbn [default from_option Datatypes.id]. unfold value. split.
  - rewrite lookup_insert_ne by done.
    apply lookup_union_Some_l. by rewrite lookup_insert_eq.
  - intros other Ho1 Ho2. rewrite lookup_insert_ne by done.
    destruct (start !! other) as [v|] eqn:Hother.
    + apply lookup_union_Some_l. by rewrite lookup_insert_ne.
    + apply lookup_union_None. by rewrite lookup_insert_ne.
Qed.

Lemma toggleStateProperty_after_clearState_witness :
  let initialState : gmap string any :=
    {[ "isActive" := JBool true; "isExpanded" := JBool true ]} in
  let value : gmap string any :=
    <["lastUpdated" := JString (iso (second 1))]>
      (<["isActive" := JBool false]> initialState ∪ initialState) in
  let b : useLocalStorage.Browser (gmap string any) :=
    useLocalStorage.mkBrowser (Some initialState) ∅ [] in
  let rendered b :=
    useLocalStorage.next b (λ _,
      useWidgetState_browser.effects "status-widget" "widget-status-widget-1"
        initialState true (constant_value value) (λ _, value)) in
  let cleared :=
    rendered (useLocalStorage.next b (λ _,
      useWidgetState_browser.clearState "status-widget" "widget-status-widget-1" false
        (constant_value value) (λ _, value))) in
  let toggled :=
    rendered (useLocalStorage.next cleared (λ state,
      useWidgetState_browser.toggleStateProperty "status-widget"
        "widget-status-widget-1" false constant_text (constant_value value)
        (λ _, "[object Object]") (λ _, value) unlimited state (second 1) "isActive")) in
  useWidgetState_browser.returned initialState (useLocalStorage.storedValue toggled)
    !! "isActive" = Some (JBool false) ∧
  useWidgetState_browser.returned initialState (useLocalStorage.storedValue toggled)
    !! "isExpanded" = Some (JBool true).
Proof.
  intros initialState value b.
  destruct (toggleStateProperty_after_clearState "status-widget" "widget-status-widget-1"
              initialState true constant_text (constant_value value)
              (λ _, "[object Object]") (λ _, value) unlimited b (second 1) "isActive"
              "{...}" ltac:(done))
    as (_ & _ & _ & Hproperty & Hothers).
  - intros _. repeat split; done.
  - split; [exact Hproperty|].
    exact (Hothers "isExpanded" ltac:(done) ltac:(done)).
Defined.
